(** * keras-pipeline: a shallow embedding of the detection pipeline glue

    The development follows the layout of the Python sources:

    - [image]      : [keras_pipeline/preprocessing/image.py]
                     ([read_image], [get_image_size]);
    - [backend]    : [keras_pipeline/backend/_tensorflow_backend.py]
                     (the TensorFlow primitives the layers are written with);
    - [retinanet]  : [keras_pipeline/models/retinanet.py]
                     (the graph builders of the RetinaNet model);
    - [layers]     : the custom layers of [keras_pipeline/layers], which the
                     model file imports;
    - [callbacks], [demo], [basic_demo] : the training scripts
                     [demo/train.py] and [basic_demo/train.py] with the
                     callbacks they construct.

    Python integers are unbounded and are modelled by [Z]; byte strings are
    [list byte]; floating-point tensors are modelled by exact numbers
    ([Q] where the code only adds, multiplies, divides and compares, [R] where
    it needs [exp] or [sqrt]), except in non-max suppression, whose outcome
    depends on the rounding: its boxes and its threshold are IEEE 754
    binary32 numbers ([SpecFloat]), and every operation of the kernel
    rounds. *)

From Stdlib Require Import ZArith QArith Qminmax Reals Lra Lqa Lia List Sorted Strings.Byte Strings.Ascii.
From Stdlib Require Floats.SpecFloat.
From stdpp Require Import gmap strings list pretty sorting.

Local Open Scope Z_scope.

(** ** Python results: a value or a raised exception *)

(** The built-in exception classes that the modelled code can raise. *)
Inductive py_error :=
  | StructError        (* struct.error *)
  | ValueError
  | TypeError
  | OverflowError
  | UnboundLocalError
  | KeyError
  | IndexError
  | InvalidArgumentError   (* tensorflow.errors.InvalidArgumentError *)
  | AssertionError (msg : string).

(** An exception message: a literal, or [str(e)] of a built-in exception
    (whose wording belongs to the interpreter). *)
Inductive message :=
  | Text (s : string)
  | StrOf (e : py_error).

Inductive exception :=
  | UnknownImageFormat (m : message)
  | Builtin (e : py_error).

Inductive result (A : Type) :=
  | Ok (a : A)
  | Raise (e : exception).
Arguments Ok {A} a.
Arguments Raise {A} e.

#[global] Instance result_ret : MRet result := fun A a => Ok a.
#[global] Instance result_bind : MBind result := fun A B k r =>
  match r with
  | Ok a => k a
  | Raise e => Raise e
  end.

#[global] Instance result_fmap : FMap result := fun A B f r =>
  match r with
  | Ok a => Ok (f a)
  | Raise e => Raise e
  end.

(** [try: r except Exception as e: raise h(e)] *)
Definition try_except {A} (r : result A) (h : exception -> exception) : result A :=
  match r with
  | Ok a => Ok a
  | Raise e => Raise (h e)
  end.

(** [assert c, msg] *)
Definition py_assert (c : bool) (msg : string) : result unit :=
  if c then Ok tt else Raise (Builtin (AssertionError msg)).

(** [e.__class__.__name__] *)
Definition class_name (e : py_error) : string :=
  match e with
  | StructError => "error"
  | ValueError => "ValueError"
  | TypeError => "TypeError"
  | OverflowError => "OverflowError"
  | UnboundLocalError => "UnboundLocalError"
  | KeyError => "KeyError"
  | IndexError => "IndexError"
  | InvalidArgumentError => "InvalidArgumentError"
  | AssertionError _ => "AssertionError"
  end.

(** [str(e)] *)
Definition str_of (e : exception) : message :=
  match e with
  | UnknownImageFormat m => m
  | Builtin b => StrOf b
  end.

#[global] Instance byte_eq_dec : EqDecision byte := Byte.byte_eq_dec.

(** ** Byte strings and the [struct] module *)

Module pybytes.

(** [data[a:b]] for [0 <= a <= b] *)
Definition slice (a b : nat) (data : list byte) : list byte :=
  take (b - a) (drop a data).

(** [data.startswith(prefix)] *)
Definition startswith (data prefix : list byte) : bool :=
  bool_decide (take (length prefix) data = prefix).

Definition ord1 (c : byte) : Z := Z.of_N (Byte.to_N c).

(** [ord(b)] of a byte string: defined on length 1 only. *)
Definition ord (b : list byte) : result Z :=
  match b with
  | [c] => Ok (ord1 c)
  | _ => Raise (Builtin TypeError)
  end.

Inductive byte_order := LittleEndian | BigEndian.

Fixpoint le_uint (bs : list byte) : Z :=
  match bs with
  | [] => 0
  | b :: bs' => ord1 b + 256 * le_uint bs'
  end.

Definition uint (o : byte_order) (bs : list byte) : Z :=
  match o with
  | LittleEndian => le_uint bs
  | BigEndian => le_uint (rev bs)
  end.

(** two's complement reading of an unsigned [8 * n]-bit value *)
Definition to_signed (n : nat) (z : Z) : Z :=
  if z <? 2 ^ (8 * Z.of_nat n - 1) then z else z - 2 ^ (8 * Z.of_nat n).

Definition sint (o : byte_order) (bs : list byte) : Z :=
  to_signed (length bs) (uint o bs).

(** [struct.unpack] of one integer field of [n] bytes; a buffer of the
    wrong length raises [struct.error]. *)
Definition unpack1 (signed : bool) (o : byte_order) (n : nat)
    (bs : list byte) : result Z :=
  if bool_decide (length bs = n)
  then Ok (if signed then sint o bs else uint o bs)
  else Raise (Builtin StructError).

(** [struct.unpack] of two integer fields of [n] bytes each. *)
Definition unpack2 (signed : bool) (o : byte_order) (n : nat)
    (bs : list byte) : result (Z * Z) :=
  if bool_decide (length bs = (2 * n)%nat)
  then
    let f := if signed then sint o else uint o in
    Ok (f (take n bs), f (drop n bs))
  else Raise (Builtin StructError).

(** [int(struct.unpack("<f", bs)[0])] and the same for ["d"]: the IEEE 754
    value, a dyadic rational, truncated towards zero. [int] of an infinity
    raises [OverflowError], of a NaN [ValueError]. *)
Definition int_of_float (ebits mbits : Z) (bits : Z) : result Z :=
  let sign := Z.testbit bits (ebits + mbits) in
  let e := Z.land (Z.shiftr bits mbits) (2 ^ ebits - 1) in
  let m := Z.land bits (2 ^ mbits - 1) in
  let bias := 2 ^ (ebits - 1) - 1 in
  if e =? 2 ^ ebits - 1
  then Raise (Builtin (if m =? 0 then OverflowError else ValueError))
  else
    let mant := if e =? 0 then m else 2 ^ mbits + m in
    let ex := (if e =? 0 then 1 else e) - bias - mbits in
    let mag := if 0 <=? ex then mant * 2 ^ ex else mant / 2 ^ (- ex) in
    Ok (if sign then - mag else mag).

(** [int(b)] of a one-character byte string: a decimal digit, else
    [ValueError]. *)
Definition int_of_char (c : byte) : result Z :=
  let v := ord1 c in
  if (48 <=? v) && (v <=? 57) then Ok (v - 48) else Raise (Builtin ValueError).

End pybytes.

(** ** [keras_pipeline/preprocessing/image.py] *)

(** The file is read as Python 3 runs it: [read] on a binary file returns
    byte strings, [ord] takes a byte string of length one, and a byte string
    is never equal to a text string. *)

Module image.
Import pybytes.

Local Open Scope byte_scope.

Definition GIF87a : list byte := ["G"; "I"; "F"; "8"; "7"; "a"].
Definition GIF89a : list byte := ["G"; "I"; "F"; "8"; "9"; "a"].
(** [b'\211PNG\r\n\032\n'] *)
Definition PNG_magic : list byte := [x89; "P"; "N"; "G"; x0d; x0a; x1a; x0a].
Definition IHDR : list byte := ["I"; "H"; "D"; "R"].
(** [b'\377\330'] *)
Definition JPEG_magic : list byte := [xff; xd8].
Definition BM : list byte := ["B"; "M"].
(** [b"II\052\000"] and [b"MM\000\052"] *)
Definition TIFF_II : list byte := ["I"; "I"; x2a; x00].
Definition TIFF_MM : list byte := ["M"; "M"; x00; x2a].

Local Close Scope byte_scope.

Definition msg : string := " raised while trying to decode as JPEG.".
Definition sorry : string := "Sorry, don't know how to get size for this file.".

(** [input.read(n)] on the bytes that follow the file position, for a
    non-negative [n]: the bytes read and the bytes left. *)
Definition read (n : nat) (rest : list byte) : list byte * list byte :=
  (take n rest, drop n rest).

(** [input.read(n)] for an [n] computed by the program: a buffered binary
    file reads to the end of the file for [-1] and raises [ValueError]
    below that. *)
Definition read_int (n : Z) (rest : list byte) : result (list byte * list byte) :=
  if n <? -1 then Raise (Builtin ValueError)
  else if n =? -1 then Ok (rest, [])
  else Ok (read (Z.to_nat n) rest).

(** [while p(ord(b)): b = input.read(1)] *)
Fixpoint read_while (p : Z -> bool) (b rest : list byte)
    : result (list byte * list byte) :=
  c ← ord b;
  if p c then
    match rest with
    | [] => Raise (Builtin TypeError)   (* [b] is empty, [ord(b)] raises *)
    | x :: rest' => read_while p [x] rest'
    end
  else Ok (b, rest).

(** The marker loop of the JPEG branch. [Some (w, h)] when the loop is left
    by [break], [None] when its condition fails ([w] and [h] are then
    unbound). Every round reads at least one byte or raises, so
    [S (length rest)] rounds are enough. *)
Fixpoint jpeg_scan (fuel : nat) (b rest : list byte) : result (option (Z * Z)) :=
  match fuel with
  | O => Ok None
  | S fuel' =>
    match b with
    | [] => Ok None
    | _ =>
      c ← ord b;
      if c =? 0xDA then Ok None
      else
        '(b1, r1) ← read_while (fun c => negb (c =? 0xFF)) b rest;
        '(b2, r2) ← read_while (fun c => c =? 0xFF) b1 r1;
        c2 ← ord b2;
        if (0xC0 <=? c2) && (c2 <=? 0xC3) then
          let r3 := (read 3 r2).2 in
          '(h, w) ← unpack2 false BigEndian 2 (read 4 r3).1;
          Ok (Some (w, h))
        else
          n ← unpack1 false BigEndian 2 (read 2 r2).1;
          '(_, r4) ← read_int (n - 2) (read 2 r2).2;
          jpeg_scan fuel' (read 1 r4).1 (read 1 r4).2
    end
  end.

(** The handlers of the JPEG branch. *)
Definition jpeg_handler (e : exception) : exception :=
  match e with
  | Builtin StructError => UnknownImageFormat (Text ("StructError" +:+ msg))
  | Builtin ValueError => UnknownImageFormat (Text ("ValueError" +:+ msg))
  | Builtin b => UnknownImageFormat (Text (class_name b +:+ msg))
  | UnknownImageFormat _ => UnknownImageFormat (Text ("UnknownImageFormat" +:+ msg))
  end.

Definition jpeg_size (contents : list byte) : result (Z * Z) :=
  (* input.seek(0); input.read(2); b = input.read(1) *)
  let r := (read 2 contents).2 in
  try_except
    (found ← jpeg_scan (S (length contents)) (read 1 r).1 (read 1 r).2;
     match found with
     | Some (w, h) => Ok (w, h)
     | None => Raise (Builtin UnboundLocalError)   (* [int(w)] *)
     end)
    jpeg_handler.

(** The [struct] format characters of [tiffTypes]. *)
Inductive format :=
  | fmt_B | fmt_c | fmt_H | fmt_L | fmt_LL
  | fmt_b | fmt_h | fmt_l | fmt_ll | fmt_f | fmt_d.

(** maps TIFF type id to size (in bytes) and format char for struct *)
Definition tiffTypes : gmap Z (nat * format) :=
  list_to_map
    [ (1, (1%nat, fmt_B));  (2, (1%nat, fmt_c));  (3, (2%nat, fmt_H));
      (4, (4%nat, fmt_L));  (5, (8%nat, fmt_LL)); (6, (1%nat, fmt_b));
      (7, (1%nat, fmt_c));  (8, (2%nat, fmt_h));  (9, (4%nat, fmt_l));
      (10, (8%nat, fmt_ll)); (11, (4%nat, fmt_f)); (12, (8%nat, fmt_d)) ].

(** [int(struct.unpack(typeChar, value)[0])] *)
Definition unpack_int (o : byte_order) (f : format) (value : list byte) : result Z :=
  match f with
  | fmt_B => unpack1 false o 1 value
  | fmt_b => unpack1 true o 1 value
  | fmt_H => unpack1 false o 2 value
  | fmt_h => unpack1 true o 2 value
  | fmt_L => unpack1 false o 4 value
  | fmt_l => unpack1 true o 4 value
  | fmt_LL => fst <$> unpack2 false o 4 value
  | fmt_ll => fst <$> unpack2 true o 4 value
  | fmt_c =>
    match value with
    | [c] => int_of_char c
    | _ => Raise (Builtin StructError)
    end
  | fmt_f => bits ← unpack1 false o 4 value; int_of_float 8 23 bits
  | fmt_d => bits ← unpack1 false o 8 value; int_of_float 11 52 bits
  end.

(** [byteOrder == "MM"]: a byte string compared with a text string, which
    are never equal. *)
Definition bytes_eq_str (b : list byte) (s : string) : bool := false.

(** [input.seek(pos); input.read(n)] *)
Definition read_at (contents : list byte) (pos : Z) (n : nat) : list byte :=
  take n (drop (Z.to_nat pos) contents).

(** The [for i in range(ifdEntryCount)] loop of the TIFF branch, over the
    values of [i] still to come. *)
Fixpoint tiff_entries (contents : list byte) (o : byte_order) (ifdOffset : Z)
    (idxs : list nat) (width height : Z) : result (Z * Z) :=
  match idxs with
  | [] => Ok (width, height)
  | i :: idxs' =>
    let countSize := 2 in
    let ifdEntrySize := 12 in
    let entryOffset := ifdOffset + countSize + Z.of_nat i * ifdEntrySize in
    tag ← unpack1 false o 2 (read_at contents entryOffset 2);
    '(width', height') ←
      (if (tag =? 256) || (tag =? 257) then
         type ← unpack1 false o 2 (read_at contents (entryOffset + 2) 2);
         match tiffTypes !! type with
         | None =>
           Raise (UnknownImageFormat (Text ("Unkown TIFF field type:" +:+ pretty type)))
         | Some (typeSize, typeChar) =>
           value ← unpack_int o typeChar (read_at contents (entryOffset + 8) typeSize);
           if tag =? 256 then Ok (value, height) else Ok (width, value)
         end
       else Ok (width, height));
    if (-1 <? width') && (-1 <? height') then Ok (width', height')
    else tiff_entries contents o ifdOffset idxs' width' height'
  end.

Definition tiff_size (contents data : list byte) (width height : Z) : result (Z * Z) :=
  let byteOrder := slice 0 2 data in
  let boChar := if bytes_eq_str byteOrder "MM" then BigEndian else LittleEndian in
  ifdOffset ← unpack1 false boChar 4 (slice 4 8 data);
  try_except
    (ifdEntryCount ← unpack1 false boChar 2 (read_at contents ifdOffset 2);
     tiff_entries contents boChar ifdOffset (seq 0 (Z.to_nat ifdEntryCount)) width height)
    (fun e => UnknownImageFormat (str_of e)).

(** The icon branch; the warning for [num > 1] does not change the result. *)
Definition ico_size (contents : list byte) : result (Z * Z) :=
  reserved ← unpack1 false LittleEndian 2 (read_at contents 0 2);
  if negb (0 =? reserved) then Raise (UnknownImageFormat (Text sorry))
  else
    format ← unpack1 false LittleEndian 2 (read_at contents 2 2);
    _ ← py_assert (1 =? format) "";
    num ← unpack1 false LittleEndian 2 (read_at contents 4 2);
    width ← ord (read_at contents 6 1);
    height ← ord (read_at contents 7 1);
    Ok (width, height).

Definition bmp_size (data : list byte) : result (Z * Z) :=
  headersize ← unpack1 false LittleEndian 4 (slice 14 18 data);
  if headersize =? 12 then
    '(w, h) ← unpack2 false LittleEndian 2 (slice 18 22 data);
    Ok (w, h)
  else if 40 <=? headersize then
    '(w, h) ← unpack2 true LittleEndian 4 (slice 18 26 data);
    (* as h is negative when stored upside down *)
    Ok (w, Z.abs h)
  else
    Raise (UnknownImageFormat (Text ("Unkown DIB header size:" +:+ pretty headersize))).

(** [get_image_size(file_path)] on a file with the given contents; the
    result is [(width, height)]. *)
Definition get_image_size (contents : list byte) : result (Z * Z) :=
  let size := length contents in
  let height := -1 in
  let width := -1 in
  let data := (read 26 contents).1 in
  if bool_decide (10 ≤ size)%nat
     && (bool_decide (slice 0 6 data = GIF87a) || bool_decide (slice 0 6 data = GIF89a))
  then
    '(w, h) ← unpack2 false LittleEndian 2 (slice 6 10 data); Ok (w, h)
  else if bool_decide (24 ≤ size)%nat && startswith data PNG_magic
          && bool_decide (slice 12 16 data = IHDR)
  then
    '(w, h) ← unpack2 false BigEndian 4 (slice 16 24 data); Ok (w, h)
  else if bool_decide (16 ≤ size)%nat && startswith data PNG_magic
  then
    '(w, h) ← unpack2 false BigEndian 4 (slice 8 16 data); Ok (w, h)
  else if bool_decide (2 ≤ size)%nat && startswith data JPEG_magic
  then jpeg_size contents
  else if bool_decide (26 ≤ size)%nat && startswith data BM
  then bmp_size data
  else if bool_decide (8 ≤ size)%nat
          && (bool_decide (slice 0 4 data = TIFF_II) || bool_decide (slice 0 4 data = TIFF_MM))
  then tiff_size contents data width height
  else if bool_decide (2 ≤ size)%nat
  then ico_size contents
  else Raise (UnknownImageFormat (Text sorry)).

(** The fields of the bitmap header, as [get_image_size] reads them. *)
Definition dib_header_size (contents : list byte) : Z :=
  uint LittleEndian (slice 14 18 contents).
Definition dib_width (contents : list byte) : Z :=
  sint LittleEndian (slice 18 22 contents).
Definition dib_height (contents : list byte) : Z :=
  sint LittleEndian (slice 22 26 contents).

Local Open Scope byte_scope.

(** Two bitmaps of width 2 with a 40-byte header: rows stored bottom-up
    (height 3) and top-down (height -3); and one with a 16-byte header. *)
Definition bmp_prefix : list byte :=
  ["B"; "M"; x46; x00; x00; x00; x00; x00; x00; x00; x36; x00; x00; x00].
Definition bmp_bottom_up : list byte :=
  bmp_prefix ++ [x28; x00; x00; x00; x02; x00; x00; x00; x03; x00; x00; x00].
Definition bmp_top_down : list byte :=
  bmp_prefix ++ [x28; x00; x00; x00; x02; x00; x00; x00; xfd; xff; xff; xff].
Definition bmp_odd_header : list byte :=
  bmp_prefix ++ [x10; x00; x00; x00; x02; x00; x00; x00; x03; x00; x00; x00].

Local Close Scope byte_scope.

(** The layout of a JPEG stream, for the statements about the marker loop:
    a segment is the byte [0xFF], a marker byte, a big-endian 16-bit length
    that counts itself, and the payload. *)
Record segment := {
  marker : byte;
  length_hi : byte;
  length_lo : byte;
  payload : list byte
}.

Definition segment_bytes (s : segment) : list byte :=
  xff :: marker s :: length_hi s :: length_lo s :: payload s.

(** The marker is neither a fill byte nor one of the frame markers
    [0xC0..0xC3], and the length field is that of the payload. *)
Definition plain_segment (s : segment) : Prop :=
  ord1 (marker s) ≠ 0xFF
  ∧ ¬ (0xC0 ≤ ord1 (marker s) ≤ 0xC3)
  ∧ 256 * ord1 (length_hi s) + ord1 (length_lo s) = Z.of_nat (length (payload s)) + 2.

(** A frame header: marker [sof], length, precision, height, width. *)
Definition frame_header (sof l1 l2 precision h1 h2 w1 w2 : byte) : list byte :=
  [xff; sof; l1; l2; precision; h1; h2; w1; w2].

(** An application segment with a two-byte payload. *)
Definition app0 : segment :=
  {| marker := xe0; length_hi := x00; length_lo := x04; payload := [x4a; x46] |}.

(** The fields of a TIFF file, as [get_image_size] reads them: always in
    little-endian order, as [boChar] is ["<"] for both signatures. *)
Definition ifd_offset (contents : list byte) : Z :=
  uint LittleEndian (slice 4 8 contents).
Definition ifd_entry_count (contents : list byte) : Z :=
  uint LittleEndian (read_at contents (ifd_offset contents) 2).
Definition entry_offset (contents : list byte) (i : nat) : Z :=
  ifd_offset contents + 2 + Z.of_nat i * 12.
Definition ifd_tag (contents : list byte) (i : nat) : Z :=
  uint LittleEndian (read_at contents (entry_offset contents i) 2).
Definition ifd_type (contents : list byte) (i : nat) : Z :=
  uint LittleEndian (read_at contents (entry_offset contents i + 2) 2).
(** The value of an entry of type SHORT (3) or LONG (4). *)
Definition ifd_value (contents : list byte) (i : nat) : Z :=
  uint LittleEndian
    (read_at contents (entry_offset contents i + 8)
       (if ifd_type contents i =? 3 then 2 else 4)).

Local Open Scope byte_scope.

(** A little-endian TIFF with a directory of three entries at offset 8:
    NewSubfileType, ImageWidth 640 (SHORT) and ImageLength 480 (LONG). *)
Definition tiff_640x480 : list byte :=
  TIFF_II ++ [x08; x00; x00; x00] ++ [x03; x00]
    ++ [xfe; x00; x04; x00; x01; x00; x00; x00; x00; x00; x00; x00]
    ++ [x00; x01; x03; x00; x01; x00; x00; x00; x80; x02; x00; x00]
    ++ [x01; x01; x04; x00; x01; x00; x00; x00; xe0; x01; x00; x00]
    ++ [x00; x00; x00; x00].

(** A big-endian TIFF with an empty directory at offset 8. *)
Definition tiff_big_endian : list byte :=
  TIFF_MM ++ [x00; x00; x00; x08] ++ [x00; x00] ++ [x00; x00; x00; x00].

(** A little-endian TIFF whose directory holds one entry, a NewSubfileType. *)
Definition tiff_no_size : list byte :=
  TIFF_II ++ [x08; x00; x00; x00] ++ [x01; x00]
    ++ [xfe; x00; x04; x00; x01; x00; x00; x00; x00; x00; x00; x00]
    ++ [x00; x00; x00; x00].

Local Close Scope byte_scope.

(** *** [read_image]: the imaging library and the array library *)

(** The modes of the images considered: 1-bit, grey, grey with alpha,
    palette, RGB and RGB with alpha. *)
Inductive mode := mode_1 | mode_L | mode_LA | mode_P | mode_RGB | mode_RGBA.

(** The pixel of an image of the given mode. *)
Definition pixel_of (m : mode) : Type :=
  match m with
  | mode_1 => bool
  | mode_L => Z
  | mode_LA => Z * Z
  | mode_P => Z
  | mode_RGB => Z * Z * Z
  | mode_RGBA => Z * Z * Z * Z
  end.

(** A decoded image: [getpixel x y] is the pixel of column [x] and row [y];
    [palette] gives the colour of a palette index. *)
Record Image := {
  im_mode : mode;
  im_width : nat;
  im_height : nat;
  getpixel : nat -> nat -> pixel_of im_mode;
  palette : Z -> Z * Z * Z;
}.

(** The colour that [convert('RGB')] gives a pixel: grey levels are repeated
    on the three bands, a palette index is looked up, alpha is dropped. *)
Definition to_rgb (m : mode) (pal : Z -> Z * Z * Z) : pixel_of m -> Z * Z * Z :=
  match m with
  | mode_1 => fun b : bool => if b then (255, 255, 255) else (0, 0, 0)
  | mode_L => fun l : Z => (l, l, l)
  | mode_LA => fun la : Z * Z => (la.1, la.1, la.1)
  | mode_P => fun i : Z => pal i
  | mode_RGB => fun rgb : Z * Z * Z => rgb
  | mode_RGBA => fun rgba : Z * Z * Z * Z => rgba.1
  end.

(** [img.convert('RGB')] *)
Definition convert_RGB (img : Image) : Image := {|
  im_mode := mode_RGB;
  im_width := im_width img;
  im_height := im_height img;
  getpixel := fun x y => to_rgb (im_mode img) (palette img) (getpixel img x y);
  palette := palette img;
|}.

(** An array of two or of three axes, as nested lists. *)
Inductive ndarray :=
| Array2 (rows : list (list Z))
| Array3 (rows : list (list (list Z))).

(** The bands of a pixel, for the modes with more than one band. *)
Definition bands (m : mode) : pixel_of m -> list Z :=
  match m with
  | mode_1 => fun b : bool => [if b then 1 else 0]
  | mode_L => fun l : Z => [l]
  | mode_LA => fun la : Z * Z => [la.1; la.2]
  | mode_P => fun i : Z => [i]
  | mode_RGB => fun rgb : Z * Z * Z => [rgb.1.1; rgb.1.2; rgb.2]
  | mode_RGBA => fun rgba : Z * Z * Z * Z => [rgba.1.1.1; rgba.1.1.2; rgba.1.2; rgba.2]
  end.

(** [np.asarray(img)]: height x width for the modes of one band,
    height x width x bands for the others. *)
Definition asarray (img : Image) : ndarray :=
  let grid {A} (f : nat -> nat -> A) : list (list A) :=
    map (fun y => map (fun x => f x y) (seq 0 (im_width img))) (seq 0 (im_height img)) in
  match im_mode img as m return (nat -> nat -> pixel_of m) -> ndarray with
  | mode_1 => fun px => Array2 (grid (fun x y => if px x y then 1 else 0))
  | mode_L => fun px => Array2 (grid px)
  | mode_P => fun px => Array2 (grid px)
  | mode_LA => fun px => Array3 (grid (fun x y => bands mode_LA (px x y)))
  | mode_RGB => fun px => Array3 (grid (fun x y => bands mode_RGB (px x y)))
  | mode_RGBA => fun px => Array3 (grid (fun x y => bands mode_RGBA (px x y)))
  end (getpixel img).

(** [read_image(path)], with [Image.open] (the file system and the
    decoders) as a parameter. *)
Definition read_image (Image_open : string -> result Image) (path : string)
    : result ndarray :=
  img ← Image_open path;
  Ok (asarray (convert_RGB img)).

(** A grey image of two columns and one row. *)
Definition grey_2x1 : Image := {|
  im_mode := mode_L; im_width := 2; im_height := 1;
  getpixel := fun x y => if Nat.eqb x 0 then 10 else 200;
  palette := fun _ => (0, 0, 0);
|}.

End image.

(** ** The Keras functional API: symbolic tensors and layers *)

Module keras.

Inductive padding := same | valid.
Inductive activation := linear | relu | sigmoid.

Inductive initializer :=
  | glorot_uniform               (* the default of [Conv2D] *)
  | zeros
  | normal (mean stddev : R)
  | Constant (value : R).

(** A layer with its configuration. Only the arguments that the model file
    passes are recorded; the [layers] of this package come last. *)
Inductive layer :=
  | Conv2D (filters kernel_size strides : nat) (pad : padding)
           (act : activation) (kernel_initializer bias_initializer : initializer)
           (name : string)
  | Reshape (target_shape : list Z) (name : string)
  | Activation (act : activation) (name : string)
  | Concatenate (axis : Z) (name : string)
  | Add (name : string)
  | ResizeTo (name : string)
  | Anchors (size stride : R) (ratios scales : list R) (name : string)
  | RegressBoxes (name : string)
  | ClipBoxes (name : string)
  | FilterDetections (name : string).

Definition layer_name (l : layer) : string :=
  match l with
  | Conv2D _ _ _ _ _ _ _ n | Reshape _ n | Activation _ n | Concatenate _ n
  | Add n | ResizeTo n | Anchors _ _ _ _ n | RegressBoxes n | ClipBoxes n
  | FilterDetections n => n
  end.

(** A symbolic tensor is the expression that computes it:
    - [Input shape] is [keras.layers.Input(shape)];
    - [Apply l inputs] is [l(inputs)];
    - [Call name body x] is a [keras.models.Model] named [name], with one
      input and the output expression [body], used as a layer on [x];
    - [Backbone name freeze i x] is output [i] of the backbone model
      [load_backbone(..., name, freeze)] called on [x]. *)
#[warnings="-register-all"]
Inductive tensor :=
  | Input (shape : list (option nat))
  | Apply (l : layer) (inputs : list tensor)
  | Call (name : string) (body : tensor) (x : tensor)
  | Backbone (name : string) (freeze : bool) (i : nat) (x : tensor).

(** [keras.models.Model(inputs, outputs, name)] *)
Record Model := {
  inputs : tensor;
  outputs : list tensor;
  name : string;
}.

(** [model(x)] for a model with a single output. *)
Definition call (m : Model) (x : tensor) : result tensor :=
  match outputs m with
  | [body] => Ok (Call (name m) body x)
  | _ => Raise (Builtin TypeError)
  end.

(** [model.get_layer(name).output]: the layers of a model are the nodes of
    its output expressions, a model used as a layer counting as one node.
    An unknown name raises [ValueError]. *)
Fixpoint find_layer (n : string) (t : tensor) : option tensor :=
  let find_in := fix find_in (ts : list tensor) : option tensor :=
    match ts with
    | [] => None
    | t' :: ts' =>
      match find_layer n t' with
      | Some r => Some r
      | None => find_in ts'
      end
    end in
  match t with
  | Input _ => None
  | Apply l ins => if bool_decide (layer_name l = n) then Some t else find_in ins
  | Call m _ x => if bool_decide (m = n) then Some t else find_layer n x
  | Backbone m _ _ x => if bool_decide (m = n) then Some t else find_layer n x
  end.

Fixpoint find_layer_in (n : string) (ts : list tensor) : option tensor :=
  match ts with
  | [] => None
  | t :: ts' =>
    match find_layer n t with
    | Some r => Some r
    | None => find_layer_in n ts'
    end
  end.

Definition get_layer_output (m : Model) (n : string) : result tensor :=
  match find_layer_in n (outputs m) with
  | Some t => Ok t
  | None => Raise (Builtin ValueError)
  end.

End keras.

(** ** [keras_pipeline/models/retinanet.py] *)

Module retinanet.
Import keras.

(** The options of the two loss constructors, kept as the keyword
    arguments they are called with. *)
Definition loss_options := list (string * R).

(** The fields and the method of [RetinaNetConfig] that the model file
    reads. The class itself is defined in another file of the package. *)
Record RetinaNetConfig := {
  config_name : string;
  input_tensor : tensor;
  input_shape : list (option nat);
  backbone_name : string;
  freeze_backbone : bool;
  num_classes : nat;
  get_num_anchors : nat;
  pyramid_feature_size : nat;
  classification_feature_size : nat;
  regression_feature_size : nat;
  anchor_sizes : list R;
  anchor_strides : list R;
  anchor_ratios : list R;
  anchor_scales : list R;
  classification_loss_options : loss_options;
  regression_loss_options : loss_options;
}.

(** [for i in range(n): outputs = Conv2D(..., name=prefix + str(i))(outputs)] *)
Fixpoint conv_stack (mk : string -> layer) (prefix : string) (idxs : list nat)
    (outputs : tensor) : tensor :=
  match idxs with
  | [] => outputs
  | i :: idxs' => conv_stack mk prefix idxs' (Apply (mk (prefix +:+ pretty i)) [outputs])
  end.

Definition default_classification_model
    (num_classes num_anchors : nat)
    (pyramid_feature_size classification_feature_size : nat)
    (prior_probability : R) (name : string) : Model :=
  let inputs := Input [None; None; Some pyramid_feature_size] in
  let outputs := inputs in
  let outputs :=
    conv_stack
      (Conv2D classification_feature_size 3 1 same relu (normal 0 0.01) zeros)
      "pyramid_classification_" (seq 0 4) outputs in
  let outputs :=
    Apply (Conv2D (num_classes * num_anchors) 3 1 same linear zeros
             (Constant (- ln ((1 - prior_probability) / prior_probability)))
             "pyramid_classification") [outputs] in
  (* reshape output and apply sigmoid *)
  let outputs :=
    Apply (Reshape [-1; Z.of_nat num_classes] "pyramid_classification_reshape")
          [outputs] in
  let outputs :=
    Apply (Activation sigmoid "pyramid_classification_sigmoid") [outputs] in
  {| inputs := inputs; outputs := [outputs]; name := name |}.

Definition default_regression_model
    (num_anchors : nat) (pyramid_feature_size regression_feature_size : nat)
    (name : string) : Model :=
  let inputs := Input [None; None; Some pyramid_feature_size] in
  let outputs := inputs in
  let outputs :=
    conv_stack
      (Conv2D regression_feature_size 3 1 same relu (normal 0 0.01) zeros)
      "pyramid_regression_" (seq 0 4) outputs in
  let outputs :=
    Apply (Conv2D (num_anchors * 4) 3 1 same linear (normal 0 0.01) zeros
             "pyramid_regression") [outputs] in
  let outputs := Apply (Reshape [-1; 4] "pyramid_regression_reshape") [outputs] in
  {| inputs := inputs; outputs := [outputs]; name := name |}.

(** The part of the two heads below the last convolution: the input and the
    four convolutions with [relu]. *)
Definition classification_stack (pyramid_feature_size classification_feature_size : nat)
    : tensor :=
  conv_stack
    (Conv2D classification_feature_size 3 1 same relu (normal 0 0.01) zeros)
    "pyramid_classification_" (seq 0 4)
    (Input [None; None; Some pyramid_feature_size]).

Definition regression_stack (pyramid_feature_size regression_feature_size : nat)
    : tensor :=
  conv_stack
    (Conv2D regression_feature_size 3 1 same relu (normal 0 0.01) zeros)
    "pyramid_regression_" (seq 0 4)
    (Input [None; None; Some pyramid_feature_size]).

(** Applies a single submodel to each FPN level *)
Definition __apply_model (model : Model) (features : list tensor) (name : string)
    : result tensor :=
  outs ← mapM (call model) features;
  Ok (Apply (Concatenate 1 name) outs).

(** The default arguments of [__build_anchors]. *)
Definition default_sizes : list R := [32; 64; 128; 256; 512]%R.
Definition default_strides : list R := [8; 16; 32; 64; 128]%R.
Definition default_ratios : list R := [0.5; 1; 2]%R.
Definition default_scales : list R :=
  [Rpower 2 0; Rpower 2 (1 / 3); Rpower 2 (2 / 3)]%R.

(** [xs[i]] *)
Definition index {A} (xs : list A) (i : nat) : result A :=
  match xs !! i with
  | Some x => Ok x
  | None => Raise (Builtin IndexError)
  end.

(** The loop [for i, f in enumerate(features)] of [__build_anchors], from
    position [i] on. *)
Fixpoint build_level_anchors (sizes strides ratios scales : list R)
    (i : nat) (features : list tensor) : result (list tensor) :=
  match features with
  | [] => Ok []
  | f :: features' =>
    size ← index sizes i;
    stride ← index strides i;
    let anchor := Apply (Anchors size stride ratios scales ("anchors_" +:+ pretty i)) [f] in
    anchors ← build_level_anchors sizes strides ratios scales (S i) features';
    Ok (anchor :: anchors)
  end.

(** The [Anchors] layers that the loop creates when every index is in
    range: level [i + j] gets [sizes[j]] and [strides[j]] of the lists
    given here (the lists from position [i] on). *)
Fixpoint anchors_of (ratios scales : list R) (i : nat)
    (features : list tensor) (sizes strides : list R) : list tensor :=
  match features, sizes, strides with
  | f :: features', size :: sizes', stride :: strides' =>
    Apply (Anchors size stride ratios scales ("anchors_" +:+ pretty i)) [f]
      :: anchors_of ratios scales (S i) features' sizes' strides'
  | _, _, _ => []
  end.

(** A pyramid level as [__build_anchors] sees it: the feature tensor with
    the size and the stride of its position in the lists. *)
Record level := { feature : tensor; size : R; stride : R }.

Definition pyramid_levels (features : list tensor) (sizes strides : list R)
    : list level :=
  zip_with (fun f ss => {| feature := f; size := ss.1; stride := ss.2 |})
    features (zip sizes strides).

(** Builds anchors based on shape of features *)
Definition __build_anchors (features : list tensor)
    (sizes strides ratios scales : list R) : result tensor :=
  _ ← py_assert (bool_decide (length features = length sizes)) "Must have 5 anchor sizes";
  _ ← py_assert (bool_decide (length features = length strides)) "Must have 5 anchor strides";
  anchors ← build_level_anchors sizes strides ratios scales 0 features;
  Ok (Apply (Concatenate 1 "anchors") anchors).

(** Builds a pyramid of features *)
Definition __build_pyramid_features (C3 C4 C5 : tensor) (feature_size : nat)
    : tensor * tensor * tensor * tensor * tensor :=
  let conv k s n := Conv2D feature_size k s same linear glorot_uniform zeros n in
  (* upsample C5 to get P5 from the FPN paper *)
  let P5 := Apply (conv 1 1 "C5_reduced")%nat [C5] in
  let P5_upsampled := Apply (ResizeTo "P5_upsampled") [P5; C4] in
  let P5 := Apply (conv 3 1 "P5")%nat [P5] in
  (* add P5 elementwise to C4 *)
  let P4 := Apply (conv 1 1 "C4_reduced")%nat [C4] in
  let P4 := Apply (Add "P4_merged") [P5_upsampled; P4] in
  let P4_upsampled := Apply (ResizeTo "P4_upsampled") [P4; C3] in
  let P4 := Apply (conv 3 1 "P4")%nat [P4] in
  (* add P4 elementwise to C3 *)
  let P3 := Apply (conv 1 1 "C3_reduced")%nat [C3] in
  let P3 := Apply (Add "P3_merged") [P4_upsampled; P3] in
  let P3 := Apply (conv 3 1 "P3")%nat [P3] in
  (* "P6 is obtained via a 3x3 stride-2 conv on C5" *)
  let P6 := Apply (conv 3 2 "P6")%nat [C5] in
  (* "P7 is computed by applying ReLU followed by a 3x3 stride-2 conv on P6" *)
  let P7 := Apply (Activation relu "C6_relu") [P6] in
  let P7 := Apply (conv 3 2 "P7")%nat [P7] in
  (P3, P4, P5, P6, P7).

(** Build a retinanet model with initial weights for training. Compiling
    the model attaches the losses and the optimizer and leaves the graph
    as it is. *)
Definition RetinaNetTrain (config : RetinaNetConfig) : result Model :=
  (* Get input_tensor *)
  let input := input_tensor config in
  (* Generate pyramid features *)
  let backbone := Backbone (backbone_name config) (freeze_backbone config) in
  let C3 := backbone 2%nat input in
  let C4 := backbone 3%nat input in
  let C5 := backbone 4%nat input in
  let '(P3, P4, P5, P6, P7) :=
    __build_pyramid_features C3 C4 C5 (pyramid_feature_size config) in
  let features := [P3; P4; P5; P6; P7] in
  (* Create classification and regression models *)
  let classification_model :=
    default_classification_model
      (num_classes config) (get_num_anchors config)
      (pyramid_feature_size config) (classification_feature_size config)
      0.01 "classification_submodel" in
  let regression_model :=
    default_regression_model
      (get_num_anchors config)
      (pyramid_feature_size config) (regression_feature_size config)
      "regression_submodel" in
  (* Build anchors and calculate classification and regression *)
  classification ← __apply_model classification_model features "classification";
  regression ← __apply_model regression_model features "regression";
  (* Build model *)
  Ok {| inputs := input; outputs := [classification; regression];
        name := config_name config |}.

(** The five levels that [__build_pyramid_features] returns, as the list
    that the heads are applied to. *)
Definition feature_list (features : tensor * tensor * tensor * tensor * tensor)
    : list tensor :=
  let '(P3, P4, P5, P6, P7) := features in [P3; P4; P5; P6; P7].

(** The pyramid features of the training model of [config]. *)
Definition training_features (config : RetinaNetConfig) : list tensor :=
  let backbone := Backbone (backbone_name config) (freeze_backbone config) in
  feature_list
    (__build_pyramid_features
       (backbone 2%nat (input_tensor config))
       (backbone 3%nat (input_tensor config))
       (backbone 4%nat (input_tensor config))
       (pyramid_feature_size config)).

(** Build a retinanet model for inference from a training model *)
Definition RetinaNetFromTrain (model : Model) (config : RetinaNetConfig)
    : result Model :=
  (* Extract input and pyramid level features from the model *)
  let input := inputs model in
  features ← mapM (get_layer_output model) ["P3"; "P4"; "P5"; "P6"; "P7"];
  (* Get classification, regression and anchors *)
  match outputs model with
  | [classification; regression] =>
    anchors ← __build_anchors features
                (anchor_sizes config) (anchor_strides config)
                (anchor_ratios config) (anchor_scales config);
    (* Apply predicted regression to anchors *)
    let boxes := Apply (RegressBoxes "boxes") [anchors; regression] in
    let boxes := Apply (ClipBoxes "clipped_boxes") [input; boxes] in
    (* Calculate detections *)
    let detections := Apply (FilterDetections "nms") [boxes; classification] in
    (* Define outputs *)
    let outputs := detections in
    Ok {| inputs := input; outputs := [outputs]; name := config_name config |}
  | [_] => Raise (Builtin TypeError)    (* a single tensor is not unpacked *)
  | _ => Raise (Builtin ValueError)
  end.

(** The graph that [RetinaNetFromTrain] returns. *)
Definition inference_output (model : Model) (config : RetinaNetConfig)
    (features : list tensor) (classification regression : tensor) : tensor :=
  Apply (FilterDetections "nms")
    [ Apply (ClipBoxes "clipped_boxes")
        [ inputs model;
          Apply (RegressBoxes "boxes")
            [ Apply (Concatenate 1 "anchors")
                (anchors_of (anchor_ratios config) (anchor_scales config) 0
                   features (anchor_sizes config) (anchor_strides config));
              regression ] ];
      classification ].

(** A configuration with the default anchor parameters, for 80 classes. *)
Definition example_config : RetinaNetConfig := {|
  config_name := "retinanet";
  input_tensor := Input [None; None; Some 3%nat];
  input_shape := [None; None; Some 3%nat];
  backbone_name := "resnet50";
  freeze_backbone := false;
  num_classes := 80;
  get_num_anchors := 9;
  pyramid_feature_size := 256;
  classification_feature_size := 256;
  regression_feature_size := 256;
  anchor_sizes := default_sizes;
  anchor_strides := default_strides;
  anchor_ratios := default_ratios;
  anchor_scales := default_scales;
  classification_loss_options := [];
  regression_loss_options := [];
|}.

(** The training model of [example_config]. *)
Definition example_training_model : Model :=
  match RetinaNetTrain example_config with
  | Ok m => m
  | Raise _ => {| inputs := Input []; outputs := []; name := "" |}
  end.

(** Build a retinanet model with initial weights for inference *)
Definition RetinaNet (config : RetinaNetConfig) : result Model :=
  training_model ← RetinaNetTrain config;
  prediction_model ← RetinaNetFromTrain training_model config;
  Ok prediction_model.

(** What the dictionary of custom objects maps a name to: one of the layer
    classes of [keras_pipeline.layers], a loss function made by
    [keras_pipeline.losses] from its options, or an object of the backbone. *)
Inductive custom_object :=
| layers_ResizeTo
| layers_RegressBoxes
| layers_FilterDetections
| layers_Anchors
| layers_ClipBoxes
| make_detection_focal_loss (options : loss_options)
| make_detection_smooth_l1_loss (options : loss_options)
| backbone_object (backbone : string) (key : string).

(** Dictionary of custom layers used in the RetinaNet *)
Definition retinanet_custom_objects
    (detection_focal_loss detection_smooth_l1_loss : custom_object)
    : gmap string custom_object :=
<["ResizeTo" := layers_ResizeTo]>
(<["RegressBoxes" := layers_RegressBoxes]>
(<["FilterDetections" := layers_FilterDetections]>
(<["Anchors" := layers_Anchors]>
(<["ClipBoxes" := layers_ClipBoxes]>
(<["detection_focal_loss" := detection_focal_loss]>
(<["detection_smooth_l1_loss" := detection_smooth_l1_loss]> ∅)))))).

Section LoadRetinaNet.

(** [load_backbone_custom_objects] belongs to the backbone module and
    [keras.models.load_model] reads the file: both are parameters. *)
Variable load_backbone_custom_objects : string -> gmap string custom_object.
Variable load_model : string -> gmap string custom_object -> result Model.

(** The dictionary that [LoadRetinaNet] hands to [load_model]:
    [d.update(e)] keeps the entries of [e] where both have one. *)
Definition custom_objects (backbone_name : string) (config : option RetinaNetConfig)
    : gmap string custom_object :=
(* Load loss configs if config object is provided *)
let detection_focal_loss := make_detection_focal_loss [] in
let detection_smooth_l1_loss := make_detection_smooth_l1_loss [] in
let '(detection_focal_loss, detection_smooth_l1_loss) :=
  match config with
  | Some config =>
    (make_detection_focal_loss (classification_loss_options config),
     make_detection_smooth_l1_loss (regression_loss_options config))
  | None => (detection_focal_loss, detection_smooth_l1_loss)
  end in
let custom_objects :=
  retinanet_custom_objects detection_focal_loss detection_smooth_l1_loss in
(* Get backbone custom objects *)
load_backbone_custom_objects backbone_name ∪ custom_objects.

(** Load a retinanet model from a h5 file *)
Definition LoadRetinaNet (file_path backbone_name : string)
    (config : option RetinaNetConfig) : result Model :=
load_model file_path (custom_objects backbone_name config).

End LoadRetinaNet.

End retinanet.

(** ** [keras_pipeline/backend/_tensorflow_backend.py] *)

Module backend.

(** A box given by two opposite corners, [(x1, y1)] and [(x2, y2)]. *)
Record box := { x1 : Q; y1 : Q; x2 : Q; y2 : Q }.

Definition Qltb (a b : Q) : bool := negb (Qle_bool b a).

(** *** Single precision

    The suppression kernel of TensorFlow computes on [float] values, IEEE
    754 binary32. They are the numbers of [SpecFloat] with a mantissa of 24
    bits and the exponent 128 for the infinities; every operation rounds to
    the nearest number, ties to even. A value of the tensor is a
    [spec_float] that is [valid_binary 24 128]. *)
Definition float32 : Type := SpecFloat.spec_float.

(** The number [m * 2^e], rounded. *)
Definition float32_of_dyadic (m e : Z) : float32 :=
  SpecFloat.binary_normalize 24 128 m e false.
Definition float32_of_Z (n : Z) : float32 := float32_of_dyadic n 0.
Definition float32_zero : float32 := float32_of_Z 0.
Definition float32_one : float32 := float32_of_Z 1.

Definition fadd (x y : float32) : float32 := SpecFloat.SFadd 24 128 x y.
Definition fsub (x y : float32) : float32 := SpecFloat.SFsub 24 128 x y.
Definition fmul (x y : float32) : float32 := SpecFloat.SFmul 24 128 x y.
Definition fdiv (x y : float32) : float32 := SpecFloat.SFdiv 24 128 x y.
(** [x < y] and [x <= y], false when one of them is not a number *)
Definition fltb (x y : float32) : bool := SpecFloat.SFltb x y.
Definition fleb (x y : float32) : bool := SpecFloat.SFleb x y.
(** [std::min<float>(x, y)] and [std::max<float>(x, y)] *)
Definition fmin (x y : float32) : float32 := if fltb y x then y else x.
Definition fmax (x y : float32) : float32 := if fltb x y then y else x.

(** A row of the [boxes] tensor: two opposite corners, which the kernel
    reads as [(y1, x1, y2, x2)]. *)
Record box32 := { fy1 : float32; fx1 : float32; fy2 : float32; fx2 : float32 }.

Definition area (a : box32) : float32 :=
  fmul (fsub (fmax (fy1 a) (fy2 a)) (fmin (fy1 a) (fy2 a)))
       (fsub (fmax (fx1 a) (fx2 a)) (fmin (fx1 a) (fx2 a))).

Definition intersection_area (a b : box32) : float32 :=
  let ymin := fmax (fmin (fy1 a) (fy2 a)) (fmin (fy1 b) (fy2 b)) in
  let xmin := fmax (fmin (fx1 a) (fx2 a)) (fmin (fx1 b) (fx2 b)) in
  let ymax := fmin (fmax (fy1 a) (fy2 a)) (fmax (fy1 b) (fy2 b)) in
  let xmax := fmin (fmax (fx1 a) (fx2 a)) (fmax (fx1 b) (fx2 b)) in
  fmul (fmax (fsub ymax ymin) float32_zero) (fmax (fsub xmax xmin) float32_zero).

(** Intersection over union as the kernel computes it:
    [intersection_area / (area_i + area_j - intersection_area)], each
    operation rounded. *)
Definition iou (a b : box32) : float32 :=
  fdiv (intersection_area a b)
       (fsub (fadd (area a) (area b)) (intersection_area a b)).

(** The overlap test of the kernel: the computed IoU is greater than the
    threshold; a box whose computed area is not positive overlaps nothing. *)
Definition iou_greater_than_threshold (iou_threshold : float32) (a b : box32) : bool :=
  if fleb (area a) float32_zero || fleb (area b) float32_zero then false
  else fltb iou_threshold (iou a b).

(** A candidate of the suppression: its index in the input, its score and
    its box. The scores are only compared, which is exact: a score is
    modelled by the rational number it is. *)
Record candidate := { index : nat; score : Q; cbox : box32 }.

(** The candidates in the order of decreasing score, an earlier index first
    among equal scores: [c] goes before the first candidate of a smaller
    score. *)
Fixpoint insert_by_score (c : candidate) (sorted : list candidate) : list candidate :=
  match sorted with
  | [] => [c]
  | d :: sorted' =>
    if Qltb (score d) (score c) then c :: d :: sorted'
    else d :: insert_by_score c sorted'
  end.

Definition sort_by_score (cands : list candidate) : list candidate :=
  fold_left (fun sorted c => insert_by_score c sorted) cands [].

(** The selection loop of the kernel: the candidates are taken in order; one
    is selected unless it overlaps a candidate selected before it; the loop
    ends when [max_output_size] candidates are selected. *)
Fixpoint select (iou_threshold : float32) (max_output_size : nat)
    (selected cands : list candidate) : list candidate :=
  match cands with
  | [] => selected
  | c :: cands' =>
    if (max_output_size <=? length selected)%nat then selected
    else if existsb (fun s => iou_greater_than_threshold iou_threshold (cbox c) (cbox s))
                    selected
    then select iou_threshold max_output_size selected cands'
    else select iou_threshold max_output_size (selected ++ [c]) cands'
  end.

Definition candidates (boxes : list box32) (scores : list Q) : list candidate :=
  imap (fun i bs => {| index := i; score := bs.2; cbox := bs.1 |}) (zip boxes scores).

(** The kernel requires [0 <= iou_threshold <= 1]. *)
Definition valid_threshold (iou_threshold : float32) : bool :=
  fleb float32_zero iou_threshold && fleb iou_threshold float32_one.

(** [non_max_suppression(boxes, scores, max_output_size, iou_threshold)]
    hands its arguments to [tensorflow.image.non_max_suppression], which
    returns the indices of the selected boxes, and raises for a threshold
    outside [0, 1] and for scores that are not as many as the boxes. *)
Definition non_max_suppression (boxes : list box32) (scores : list Q)
    (max_output_size : nat) (iou_threshold : float32) : result (list nat) :=
  if negb (valid_threshold iou_threshold)
  then Raise (Builtin InvalidArgumentError)
  else if bool_decide (length boxes = length scores)
  then Ok (map index
             (select iou_threshold max_output_size []
                (sort_by_score (candidates boxes scores))))
  else Raise (Builtin InvalidArgumentError).

(** [tensorflow.image.ResizeMethod] *)
Inductive ResizeMethod := BILINEAR | NEAREST_NEIGHBOR | BICUBIC | AREA.

Definition methods : gmap string ResizeMethod :=
  list_to_map
    [ ("bilinear", BILINEAR);
      ("nearest", NEAREST_NEIGHBOR);
      ("bicubic", BICUBIC);
      ("area", AREA) ].

Section resize_images.

(** [tensorflow.image.resize_images] is a parameter. *)
Context {images size resized : Type}.
Variable tensorflow_image_resize_images :
  images -> size -> ResizeMethod -> bool -> result resized.

(** [methods[method]] raises [KeyError] for a name that is no key. *)
Definition resize_images (imgs : images) (sz : size)
    (method : string) (align_corners : bool) : result resized :=
  match methods !! method with
  | Some m => tensorflow_image_resize_images imgs sz m align_corners
  | None => Raise (Builtin KeyError)
  end.

(** [resize_images(images, size)], with the default arguments. *)
Definition resize_images_default (imgs : images) (sz : size) : result resized :=
  resize_images imgs sz "bilinear" false.

End resize_images.

End backend.

(** ** The custom layers of [keras_pipeline.layers] *)

Module layers.

(** Modelled from the spec: the anchor generator of the [Anchors] layer
    (the layer class is in [keras_pipeline/layers], not in the files at
    hand). Section 4.1: for each (ratio, scale) pair
    [area = (size * scale)^2], [width = sqrt (area / ratio)],
    [height = width * ratio], in the order of the product ratios x scales. *)
Definition anchor_shapes (size : R) (ratios scales : list R) : list (R * R) :=
  flat_map
    (fun ratio =>
       map (fun scale =>
              let area := ((size * scale) ^ 2)%R in
              let width := sqrt (area / ratio) in
              (width, (width * ratio)%R))
           scales)
    ratios.

(** Modelled from the spec: the box of one anchor at the cell of row [y] and
    column [x], centered at [stride / 2 + k * stride]:
    [(x1, y1, x2, y2) = (cx - width/2, cy - height/2, cx + width/2, cy + height/2)]. *)
Definition anchor_box (stride : R) (y x : nat) (shape : R * R) : list R :=
  let cx := (stride / 2 + INR x * stride)%R in
  let cy := (stride / 2 + INR y * stride)%R in
  [cx - shape.1 / 2; cy - shape.2 / 2; cx + shape.1 / 2; cy + shape.2 / 2]%R.

(** Modelled from the spec: the anchors of a feature map of [h] rows and
    [w] columns, in row-major order over the cells and, within a cell, in
    the order of [anchor_shapes]. *)
Definition anchors_for_shape (h w : nat) (size stride : R)
    (ratios scales : list R) : list (list R) :=
  flat_map
    (fun y =>
       flat_map
         (fun x => map (anchor_box stride y x) (anchor_shapes size ratios scales))
         (seq 0 w))
    (seq 0 h).

(** Modelled from the spec: the anchor at position [(y, x, a)] of a level,
    the box number [a] of [anchor_shapes] centered on the cell of row [y]
    and column [x]. *)
Definition anchor_at (size stride : R) (ratios scales : list R)
    (p : nat * nat * nat) : list R :=
  anchor_box stride p.1.1 p.1.2 (nth p.2 (anchor_shapes size ratios scales) (0, 0)%R).

(** *** The box coder *)

Import backend.

(** A regression vector [(dx1, dy1, dx2, dy2)]. *)
Record deltas := { dx1 : Q; dy1 : Q; dx2 : Q; dy2 : Q }.

Definition box_eq (a b : box) : Prop :=
  (x1 a == x1 b /\ y1 a == y1 b /\ x2 a == x2 b /\ y2 a == y2 b)%Q.

(** A box of non-negative width and height. *)
Definition valid (b : box) : Prop := (x1 b <= x2 b /\ y1 b <= y2 b)%Q.

Section box_coder.

(** The fixed normalization constant of the coder. *)
Variable scale : Q.

(** Modelled from the spec: the encoder of the regression targets (it is in
    the generator and layer files of the package, which are not at hand).
    Section 4.3: the offset that transforms the anchor into the box, scaled
    by the fixed normalization constant. *)
Definition encode (anchor b : box) : deltas := {|
  dx1 := (x1 b - x1 anchor) / scale;
  dy1 := (y1 b - y1 anchor) / scale;
  dx2 := (x2 b - x2 anchor) / scale;
  dy2 := (y2 b - y2 anchor) / scale;
|}.

(** Modelled from the spec: the decoder of the [RegressBoxes] layer.
    Section 4.3: it inverts the transform of [encode]; section 7: a result
    with [x2 < x1] or [y2 < y1] is clamped to zero area. *)
Definition decode (anchor : box) (d : deltas) : box :=
  let bx1 := (x1 anchor + dx1 d * scale)%Q in
  let by1 := (y1 anchor + dy1 d * scale)%Q in
  let bx2 := (x2 anchor + dx2 d * scale)%Q in
  let by2 := (y2 anchor + dy2 d * scale)%Q in
  {| x1 := bx1; y1 := by1; x2 := Qmax bx1 bx2; y2 := Qmax by1 by2 |}.

End box_coder.

(** *** The detection filter, one class at a time *)

(** [gather(xs, indices)] *)
Definition gather {A} (xs : list A) (indices : list nat) : result (list A) :=
  mapM (fun i => match xs !! i with
                 | Some x => Ok x
                 | None => Raise (Builtin IndexError)
                 end) indices.

(** The boxes of one class that pass the score threshold, with the index
    they have in the input. *)
Definition above_threshold (score_threshold : Q) (boxes : list box32)
    (scores : list Q) : list candidate :=
  List.filter (fun c => Qle_bool score_threshold (score c)) (candidates boxes scores).

(** Modelled from the spec: steps 1 and 2 of the [FilterDetections] layer
    for the scores of one class (the layer class is in
    [keras_pipeline/layers], not in the files at hand). Section 4.5: the
    boxes with a score below [score_threshold] are discarded; non-max
    suppression, done by [backend.non_max_suppression], runs on the others
    until no candidate remains; the result is the list of the indices of the
    boxes that are kept, in the order of selection. *)
Definition filter_class (score_threshold : Q) (nms_iou_threshold : float32)
    (boxes : list box32) (scores : list Q) : result (list nat) :=
  let kept := above_threshold score_threshold boxes scores in
  nms_indices ← non_max_suppression (map cbox kept) (map score kept)
                   (length kept) nms_iou_threshold;
  gather (map index kept) nms_indices.

(** Modelled from the spec: the filter runs for each class independently, on
    column [c] of the score matrix (one row for each box). *)
Definition filter_classes (score_threshold : Q) (nms_iou_threshold : float32)
    (boxes : list box32) (scores : list (list Q)) (num_classes : nat)
    : result (list (list nat)) :=
  mapM (fun c => filter_class score_threshold nms_iou_threshold boxes
                   (map (fun row => nth c row 0%Q) scores))
       (seq 0 num_classes).

(** Greedy non-max suppression in the words of the specification: the first
    of the sorted candidates is selected, the others that overlap it are
    suppressed, and this repeats on what remains. [fuel] bounds the number
    of rounds; the number of candidates is enough. *)
Fixpoint greedy_nms (overlaps : box32 -> box32 -> bool) (fuel : nat)
    (cands : list candidate) : list candidate :=
  match fuel, cands with
  | S fuel', c :: rest =>
    c :: greedy_nms overlaps fuel'
           (List.filter (fun d => negb (overlaps (cbox d) (cbox c))) rest)
  | _, _ => []
  end.

(** The suppression rule in the words of the specification: a box is
    suppressed when its IoU with the selected box is at least the
    threshold. *)
Definition iou_at_least_threshold (iou_threshold : float32) (a b : box32) : bool :=
  fleb iou_threshold (iou a b).

(** The filter of one class as the specification words it, to be compared
    with [filter_class]. *)
Definition spec_filter_class (score_threshold : Q) (nms_iou_threshold : float32)
    (boxes : list box32) (scores : list Q) : list nat :=
  let kept := above_threshold score_threshold boxes scores in
  map index
    (greedy_nms (iou_at_least_threshold nms_iou_threshold) (length kept)
       (sort_by_score kept)).

(** The box with the corners [(0, 0)] and [(y, x)]. *)
Definition box_to (y x : Z) : box32 := {|
  fy1 := float32_zero; fx1 := float32_zero;
  fy2 := float32_of_Z y; fx2 := float32_of_Z x;
|}.

(** Two copies of one box, with the scores 0.9 and 0.8. *)
Definition twin_boxes : list box32 := [box_to 10 10; box_to 10 10].
Definition twin_scores : list Q := [9 # 10; 8 # 10].

(** The threshold 0.5. *)
Definition one_half : float32 := float32_of_dyadic 1 (-1).

(** The order of the sorted candidates: [c] comes before [d] when it has the
    greater score, or the same score and the smaller index. *)
Definition before (c d : candidate) : Prop :=
  (score d < score c)%Q ∨ ((score d == score c)%Q ∧ (index c < index d)%nat).

(** The filter of one class with the suppression rule of the kernel: greedy
    rounds in which a box is suppressed when its IoU with the selected box
    is greater than the threshold. *)
Definition greedy_filter_class (score_threshold : Q) (nms_iou_threshold : float32)
    (boxes : list box32) (scores : list Q) : list nat :=
  let kept := above_threshold score_threshold boxes scores in
  map index
    (greedy_nms (iou_greater_than_threshold nms_iou_threshold) (length kept)
       (sort_by_score kept)).

(** The candidate that stands for another one when the boxes that passed the
    threshold are numbered anew for the suppression. *)
Definition same_box (kept : list candidate) (c' c : candidate) : Prop :=
  score c' = score c ∧ cbox c' = cbox c
  ∧ map index kept !! index c' = Some (index c).

End layers.

(** ** Values of tensors and the meaning of layers *)

Module semantics.
Import keras.

(** The value of a tensor for one image of the batch (the layers act on
    each image of a batch independently, so the batch axis is left out;
    axis 1 of the program is the first axis here):
    - a feature map of shape [(h, w, c)] with the entry at row [y], column
      [x] and channel [k] given by [px y x k];
    - a matrix given by its rows;
    - [Invalid] where Keras rejects the shapes. *)
Inductive value :=
  | FeatureMap (h w c : nat) (px : nat -> nat -> nat -> R)
  | Rows (rows : list (list R))
  | Invalid.

Definition pixel (v : value) (y x k : nat) : R :=
  match v with
  | FeatureMap _ _ _ px => px y x k
  | _ => 0%R
  end.

Definition act_fn (a : activation) (t : R) : R :=
  match a with
  | linear => t
  | relu => Rmax 0 t
  | sigmoid => (1 / (1 + exp (- t)))%R
  end.

(** The output length of a convolution along one axis. *)
Definition conv_out_dim (pad : padding) (kernel_size strides n : nat) : nat :=
  match pad with
  | same => (n + strides - 1) / strides
  | valid => if (n <? kernel_size)%nat then 0 else (n - kernel_size) / strides + 1
  end.

(** The entries of a feature map in row-major (C) order. *)
Definition flatten (h w c : nat) (px : nat -> nat -> nat -> R) : list R :=
  flat_map (fun y => flat_map (fun x => map (px y x) (seq 0 c)) (seq 0 w)) (seq 0 h).

(** [n] consecutive rows of [k] entries. *)
Fixpoint chunks (n k : nat) (l : list R) : list (list R) :=
  match n with
  | O => []
  | S n' => take k l :: chunks n' k (drop k l)
  end.

(** [Reshape((-1, k))]: the row count is inferred from the number of
    entries, which [k] has to divide. *)
Definition reshape_rows (k : nat) (l : list R) : value :=
  if bool_decide (0 < k)%nat && bool_decide (length l `mod` k = 0)%nat
  then Rows (chunks (length l / k) k l)
  else Invalid.

Fixpoint concat_rows (vs : list value) : option (list (list R)) :=
  match vs with
  | [] => Some []
  | Rows r :: vs' => app r <$> concat_rows vs'
  | _ :: _ => None
  end.

(** The positions of a head output or of an anchor set over a feature map
    of [h] rows and [w] columns with [A] anchors for each cell: row [y],
    column [x], anchor [a], in row-major order. *)
Definition cells (h w A : nat) : list (nat * nat * nat) :=
  flat_map
    (fun y => flat_map (fun x => map (fun a => (y, x, a)) (seq 0 A)) (seq 0 w))
    (seq 0 h).

(** The rows that hold, for each position [(y, x, a)], the [K] channels
    [a * K], ..., [a * K + K - 1] of [out] at row [y] and column [x]. *)
Definition head_rows (K A h w : nat) (out : nat -> nat -> nat -> R) : list (list R) :=
  map (fun p : nat * nat * nat =>
         map (fun k => out p.1.1 p.1.2 (p.2 * K + k)%nat) (seq 0 K))
      (cells h w A).

(** The positions over all the levels, level by level: [(l, y, x, a)]. *)
Definition level_cells (shapes : list (nat * nat)) (A : nat)
    : list (nat * (nat * nat * nat)) :=
  concat (imap (fun l hw => map (pair l) (cells hw.1 hw.2 A)) shapes).

Section layer_sem.

(** The trained part of the model and the layers whose code is not in
    the model file are parameters:
    - [conv2d name kernel_size strides pad h w c px y x f] is the linear
      response (kernel and bias, before the activation) of the
      convolution layer [name] on the feature map [px], at output
      position [(y, x)] and filter [f];
    - [resize] is the interpolation of [ResizeTo];
    - [custom] is the meaning of [RegressBoxes], [ClipBoxes] and
      [FilterDetections]. *)
Variable conv2d : string -> nat -> nat -> padding ->
                  nat -> nat -> nat -> (nat -> nat -> nat -> R) ->
                  nat -> nat -> nat -> R.
Variable resize : nat -> nat -> nat -> (nat -> nat -> nat -> R) ->
                  nat -> nat -> nat -> nat -> nat -> R.
Variable custom : layer -> list value -> value.

Definition layer_sem (l : layer) (ins : list value) : value :=
  match l, ins with
  | Conv2D filters k s pad act _ _ name, [FeatureMap h w c px] =>
    FeatureMap (conv_out_dim pad k s h) (conv_out_dim pad k s w) filters
      (fun y x f => act_fn act (conv2d name k s pad h w c px y x f))
  | Reshape [-1; k] _, [FeatureMap h w c px] =>
    if 0 <? k then reshape_rows (Z.to_nat k) (flatten h w c px) else Invalid
  | Reshape [-1; k] _, [Rows rows] =>
    if 0 <? k then reshape_rows (Z.to_nat k) (concat rows) else Invalid
  | Activation act _, [FeatureMap h w c px] =>
    FeatureMap h w c (fun y x f => act_fn act (px y x f))
  | Activation act _, [Rows rows] => Rows (map (map (act_fn act)) rows)
  | Concatenate 1 _, vs =>
    match concat_rows vs with
    | Some rows => Rows rows
    | None => Invalid
    end
  | Add _, [FeatureMap h w c px; FeatureMap h' w' c' px'] =>
    if bool_decide (h = h' ∧ w = w' ∧ c = c')
    then FeatureMap h w c (fun y x f => (px y x f + px' y x f)%R)
    else Invalid
  | ResizeTo _, [FeatureMap h w c px; FeatureMap h' w' _ _] =>
    FeatureMap h' w' c (resize h w c px h' w')
  | Anchors size stride ratios scales _, [FeatureMap h w _ _] =>
    Rows (layers.anchors_for_shape h w size stride ratios scales)
  | (RegressBoxes _ | ClipBoxes _ | FilterDetections _), _ => custom l ins
  | _, _ => Invalid
  end.

End layer_sem.

Section eval.
Context {V : Type}.
Variable interp : layer -> list V -> V.
Variable backbone : string -> bool -> nat -> V -> V.

(** The value of a tensor expression, given the value of the input of
    the model it belongs to. *)
Fixpoint eval (input : V) (t : tensor) : V :=
  match t with
  | Input _ => input
  | Apply l ins => interp l (map (eval input) ins)
  | Call _ body x => eval (eval input x) body
  | Backbone n freeze i x => backbone n freeze i (eval input x)
  end.

End eval.

Definition height (v : value) : nat :=
  match v with
  | FeatureMap h _ _ _ => h
  | _ => 0
  end.

Definition width (v : value) : nat :=
  match v with
  | FeatureMap _ w _ _ => w
  | _ => 0
  end.

(** The positions of the anchors and of the predictions over a list of
    levels: level by level, and within a level as [cells] lists them. Each
    position carries its level. *)
Definition positions {T} (shape : T -> nat * nat) (A : nat) (levels : list T)
    : list (T * (nat * nat * nat)) :=
  flat_map (fun t => map (pair t) (cells (shape t).1 (shape t).2 A)) levels.

Section heads.

Variable conv2d : string -> nat -> nat -> padding ->
                  nat -> nat -> nat -> (nat -> nat -> nat -> R) ->
                  nat -> nat -> nat -> R.
Variable resize : nat -> nat -> nat -> (nat -> nat -> nat -> R) ->
                  nat -> nat -> nat -> nat -> nat -> R.
Variable custom : layer -> list value -> value.
Variable backbone : string -> bool -> nat -> value -> value.

(** The scores that the classification head gives position [p] of the
    feature map [v]: the sigmoid of the channels [a * K + k] of its last
    convolution at the cell of [p]. *)
Definition classification_scores (K pyramid_feature_size classification_feature_size : nat)
    (v : value) (p : nat * nat * nat) : list R :=
  let stack :=
    eval (layer_sem conv2d resize custom) backbone v
      (retinanet.classification_stack pyramid_feature_size classification_feature_size) in
  let logits :=
    conv2d "pyramid_classification" 3%nat 1%nat same (height v) (width v)
      classification_feature_size (pixel stack) in
  map (fun k => (1 / (1 + exp (- logits p.1.1 p.1.2 (p.2 * K + k)%nat)))%R) (seq 0 K).

(** The four values that the regression head gives position [p] of the
    feature map [v]. *)
Definition regression_deltas (pyramid_feature_size regression_feature_size : nat)
    (v : value) (p : nat * nat * nat) : list R :=
  let stack :=
    eval (layer_sem conv2d resize custom) backbone v
      (retinanet.regression_stack pyramid_feature_size regression_feature_size) in
  let deltas :=
    conv2d "pyramid_regression" 3%nat 1%nat same (height v) (width v)
      regression_feature_size (pixel stack) in
  map (fun j => deltas p.1.1 p.1.2 (p.2 * 4 + j)%nat) (seq 0 4).

End heads.

End semantics.

(** ** The training scripts [demo/train.py] and [basic_demo/train.py] *)

(** [keras.callbacks] and the callbacks of [keras_pipeline.callbacks], as
    the scripts construct them; the generator class belongs to the package
    and is a parameter. *)
Module callbacks.

#[warnings="-register-all"]
Inductive callback (generator : Type) :=
  | TensorBoard (log_dir : string) (histogram_freq batch_size : Z)
                (write_graph write_grads write_images : bool) (embeddings_freq : Z)
  | ModelCheckpoint (filepath : string) (verbose : Z) (save_weights_only : bool)
  | Evaluate (validation_generator : generator) (tensorboard : option (callback generator))
  | RedirectModel (cb : callback generator) (model : keras.Model)
  | ReduceLROnPlateau (monitor : string) (factor : Q) (patience verbose : Z)
                      (mode : string) (epsilon : Q) (cooldown min_lr : Z).

Arguments TensorBoard {generator}.
Arguments ModelCheckpoint {generator}.
Arguments Evaluate {generator}.
Arguments RedirectModel {generator}.
Arguments ReduceLROnPlateau {generator}.

(** [format(n, '02d')]: the decimal digits, with a zero in front when this
    is one character. *)
Definition format_02d (n : Z) : string :=
  let s := pretty n in
  if (String.length s <? 2)%nat then "0" +:+ s else s.

(** Where the scan of a format string stands: in the text, after an opening
    brace, within a replacement field, after a closing brace. *)
Inductive scan := in_text | after_open | in_field (field : string) | after_close.

(** [template.format(epoch=epoch)], for the templates whose replacement
    fields are [{epoch}] and [{epoch:02d}]: doubled braces give a brace, a
    field with another name raises [KeyError], a field without a name
    raises [IndexError], a brace that is not paired raises [ValueError]. *)
Fixpoint format_scan (st : scan) (template : string) (epoch : Z) : result string :=
  match template, st with
  | EmptyString, in_text => Ok EmptyString
  | EmptyString, _ => Raise (Builtin ValueError)
  | String c rest, in_text =>
    if Ascii.eqb c "{"%char then format_scan after_open rest epoch
    else if Ascii.eqb c "}"%char then format_scan after_close rest epoch
    else String c <$> format_scan in_text rest epoch
  | String c rest, after_open =>
    if Ascii.eqb c "{"%char then String "{"%char <$> format_scan in_text rest epoch
    else if Ascii.eqb c "}"%char then Raise (Builtin IndexError)
    else format_scan (in_field (String c EmptyString)) rest epoch
  | String c rest, in_field field =>
    if Ascii.eqb c "}"%char then
      if String.eqb field "epoch" then
        String.append (pretty epoch) <$> format_scan in_text rest epoch
      else if String.eqb field "epoch:02d" then
        String.append (format_02d epoch) <$> format_scan in_text rest epoch
      else Raise (Builtin KeyError)
    else if Ascii.eqb c "{"%char then Raise (Builtin ValueError)
    else format_scan (in_field (field +:+ String c EmptyString)) rest epoch
  | String c rest, after_close =>
    if Ascii.eqb c "}"%char then String "}"%char <$> format_scan in_text rest epoch
    else Raise (Builtin ValueError)
  end.

(** The string holds no brace. *)
Fixpoint no_braces (s : string) : bool :=
  match s with
  | EmptyString => true
  | String c rest =>
    negb (Ascii.eqb c "{"%char) && negb (Ascii.eqb c "}"%char) && no_braces rest
  end.

Definition format (template : string) (epoch : Z) : result string :=
  format_scan in_text template epoch.

(** The file that [ModelCheckpoint] writes at the end of the epoch number
    [epoch] (counted from 0): [filepath.format(epoch=epoch + 1)]. *)
Definition checkpoint_file {generator} (cb : callback generator) (epoch : Z)
    : result string :=
  match cb with
  | ModelCheckpoint filepath _ _ => format filepath (epoch + 1)
  | _ => Raise (Builtin TypeError)
  end.

End callbacks.

(** [os.path.join(a, b)] on a POSIX system. *)
Definition os_path_join (a b : string) : string :=
  match b with
  | String "/"%char _ => b
  | _ =>
    match rev (String.list_ascii_of_string a) with
    | [] => b
    | last :: _ => if Ascii.eqb last "/"%char then a +:+ b else a +:+ "/" +:+ b
    end
  end.

Module demo.
Import keras retinanet callbacks.

(** The arguments of the script, as [parse_args] returns them. *)
Record Namespace := {
  num_gpu : Z;
  batch_size : Z;
  coco_path : option string;
  snapshot_path : string;
  snapshots : bool;
  tensorboard_dir : string;
  evaluation : bool;
  freeze_backbone : bool;
}.

Definition check_args (args : Namespace) : result Namespace :=
  _ ← py_assert (bool_decide (coco_path args ≠ None)) "Must have the COCO dataset";
  _ ← py_assert (1 <=? num_gpu args) "Must train with atleast 1 GPU";
  _ ← py_assert (num_gpu args <=? batch_size args)
        "Batch size must be equal or greater than number of GPUs used";
  Ok args.

Section create_callback.

(** The directories of the file system are a parameter: [isdir] is
    [os.path.isdir] and [os_makedirs] is [os.makedirs]. *)
Context {generator fs : Type}.
Variable isdir : fs -> string -> bool.
Variable os_makedirs : string -> fs -> result fs.

Definition makedirs (path : string) (s : fs) : result fs :=
  if negb (isdir s path) then os_makedirs path s else Ok s.

Definition create_callback (training_model prediction_model : Model)
    (validation_generator : generator) (args : Namespace) (s : fs)
    : result (list (callback generator) * fs) :=
  let callbacks := [] in
  let tensorboard_callback := None in
  '(callbacks, tensorboard_callback, s) ←
    (if negb (String.eqb (tensorboard_dir args) EmptyString) then
       s ← makedirs (tensorboard_dir args) s;
       let tensorboard_callback :=
         TensorBoard (tensorboard_dir args) 0 (batch_size args) true false false 0 in
       Ok (callbacks ++ [tensorboard_callback], Some tensorboard_callback, s)
     else Ok (callbacks, tensorboard_callback, s));
  (* Save model *)
  '(callbacks, s) ←
    (if snapshots args then
       (* ensure directory created first; otherwise h5py will error after epoch. *)
       s ← makedirs (snapshot_path args) s;
       let checkpoint :=
         ModelCheckpoint
           (os_path_join (snapshot_path args) "Inception_COCO_{{epoch:02d}}.h5")
           1 false in
       Ok (callbacks ++ [checkpoint], s)
     else Ok (callbacks, s));
  let callbacks :=
    if evaluation args then
      let evaluation := Evaluate validation_generator tensorboard_callback in
      let evaluation := RedirectModel evaluation prediction_model in
      callbacks ++ [evaluation]
    else callbacks in
  let callbacks :=
    callbacks ++ [ReduceLROnPlateau "loss" (1 # 10) 2 1 "auto" (1 # 10000) 0 0] in
  Ok (callbacks, s).

End create_callback.

Definition create_models (args : Namespace) (model_config : RetinaNetConfig)
    : result (Model * Model) :=
  training_model ← RetinaNetTrain model_config;
  prediction_model ← RetinaNetFromTrain training_model model_config;
  Ok (training_model, prediction_model).

End demo.

Module basic_demo.
Import keras retinanet callbacks.

Record Namespace := {
  num_gpu : Z;
  batch_size : Z;
  coco_path : option string;
  snapshot_path : string;
  snapshots : bool;
  tensorboard_dir : string;
  evaluation : bool;
  visualize_model : bool;
  freeze_backbone : bool;
}.

Definition check_args (args : Namespace) : result Namespace :=
  _ ← py_assert (bool_decide (coco_path args ≠ None)) "Must have the COCO dataset";
  _ ← py_assert (1 <=? num_gpu args) "Must train with atleast 1 GPU";
  _ ← py_assert (num_gpu args <=? batch_size args)
        "Batch size must be equal or greater than number of GPUs used";
  Ok args.

Section create_callback.

Context {generator fs : Type}.
Variable isdir : fs -> string -> bool.
Variable os_makedirs : string -> fs -> result fs.

Definition makedirs (path : string) (s : fs) : result fs :=
  if negb (isdir s path) then os_makedirs path s else Ok s.

Definition create_callback (training_model prediction_model : Model)
    (validation_generator : generator) (args : Namespace) (s : fs)
    : result (list (callback generator) * fs) :=
  let callbacks := [] in
  let tensorboard_callback := None in
  '(callbacks, tensorboard_callback, s) ←
    (if negb (String.eqb (tensorboard_dir args) EmptyString) then
       s ← makedirs (tensorboard_dir args) s;
       let tensorboard_callback :=
         TensorBoard (tensorboard_dir args) 0 (batch_size args) true false false 0 in
       Ok (callbacks ++ [tensorboard_callback], Some tensorboard_callback, s)
     else Ok (callbacks, tensorboard_callback, s));
  (* Save model *)
  '(callbacks, s) ←
    (if snapshots args then
       (* ensure directory created first; otherwise h5py will error after epoch. *)
       s ← makedirs (snapshot_path args) s;
       let checkpoint :=
         ModelCheckpoint
           (os_path_join (snapshot_path args) "retinanet_resnet_coco_{epoch:02d}.h5")
           1 true in
       Ok (callbacks ++ [checkpoint], s)
     else Ok (callbacks, s));
  let callbacks :=
    if evaluation args then
      let evaluation := Evaluate validation_generator tensorboard_callback in
      let evaluation := RedirectModel evaluation prediction_model in
      callbacks ++ [evaluation]
    else callbacks in
  let callbacks :=
    callbacks ++ [ReduceLROnPlateau "loss" (1 # 10) 2 1 "auto" (1 # 10000) 0 0] in
  Ok (callbacks, s).

End create_callback.

(** Plotting and printing the models does not change them. *)
Definition make_models (model_config : RetinaNetConfig) (args : Namespace)
    : result (Model * Model) :=
  (* Make model based on config *)
  training_model ← RetinaNetTrain model_config;
  prediction_model ← RetinaNetFromTrain training_model model_config;
  Ok (training_model, prediction_model).

End basic_demo.

(** * Properties *)

(** ** [get_image_size] on bitmap files *)

Section bmp.
Import pybytes image.

Lemma startswith_cons_ne (b c : byte) (data p : list byte) :
  b ≠ c → startswith (b :: data) (c :: p) = false.
Proof.
  intros Hne. unfold startswith. apply bool_decide_eq_false_2.
  simpl. congruence.
Qed.

Lemma slice_0_cons_ne (n : nat) (b c : byte) (data p : list byte) :
  b ≠ c → bool_decide (slice 0 n (b :: data) = c :: p) = false.
Proof.
  intros Hne. apply bool_decide_eq_false_2. unfold slice.
  destruct n; simpl; congruence.
Qed.

(** A file that starts with ['BM'] is taken by none of the branches that
    come before the bitmap branch. *)
Lemma bm_dispatch (rest : list byte) :
  let contents := "B"%byte :: "M"%byte :: rest in
  get_image_size contents =
    if bool_decide (26 ≤ length contents)%nat
    then bmp_size (take 26 contents)
    else Raise (UnknownImageFormat (Text sorry)).
Proof.
  intros contents. unfold get_image_size, read. cbn [fst].
  assert (Hd : take 26 contents = "B"%byte :: "M"%byte :: take 24 rest) by reflexivity.
  rewrite Hd.
  unfold GIF87a, GIF89a, TIFF_II, TIFF_MM, PNG_magic, JPEG_magic.
  rewrite !slice_0_cons_ne by discriminate.
  rewrite !startswith_cons_ne by discriminate.
  rewrite !andb_false_r. cbn [orb andb].
  replace (startswith _ BM) with true by reflexivity.
  rewrite andb_true_r.
  destruct (bool_decide (26 ≤ length contents)%nat); [reflexivity|].
  replace (bool_decide (2 ≤ length contents)%nat) with true
    by (symmetry; apply bool_decide_eq_true_2; simpl; lia).
  reflexivity.
Qed.

End bmp.

Section bmp_height.
Import pybytes image.

Lemma slice_take (a b n : nat) (l : list byte) :
  (b ≤ n)%nat → slice a b (take n l) = slice a b l.
Proof.
  intros Hb. unfold slice.
  rewrite skipn_firstn_comm, take_take. f_equal. lia.
Qed.

Lemma take_slice (k a b : nat) (l : list byte) :
  (a + k ≤ b)%nat → take k (slice a b l) = slice a (a + k) l.
Proof.
  intros Hk. unfold slice. rewrite take_take. f_equal. lia.
Qed.

Lemma drop_slice (k a b : nat) (l : list byte) :
  drop k (slice a b l) = slice (a + k) b l.
Proof.
  unfold slice. rewrite skipn_firstn_comm, drop_drop. f_equal. lia.
Qed.

Lemma length_slice (a b : nat) (l : list byte) :
  (b ≤ length l)%nat → length (slice a b l) = (b - a)%nat.
Proof.
  intros Hb. unfold slice. rewrite length_take, length_drop. lia.
Qed.

Lemma unpack1_ok (signed : bool) (o : byte_order) (n : nat) (bs : list byte) :
  length bs = n →
  unpack1 signed o n bs = Ok (if signed then sint o bs else uint o bs).
Proof. intros H. unfold unpack1. by rewrite bool_decide_eq_true_2. Qed.

Lemma unpack2_ok (signed : bool) (o : byte_order) (n : nat) (bs : list byte) :
  length bs = (2 * n)%nat →
  unpack2 signed o n bs =
    Ok ((if signed then sint o else uint o) (take n bs),
        (if signed then sint o else uint o) (drop n bs)).
Proof. intros H. unfold unpack2. by rewrite bool_decide_eq_true_2. Qed.

Lemma bmp_size_large (data : list byte) :
  (26 ≤ length data)%nat → 40 ≤ dib_header_size data →
  bmp_size data = Ok (dib_width data, Z.abs (dib_height data)).
Proof.
  intros Hlen Hh. unfold bmp_size.
  rewrite (unpack1_ok false LittleEndian 4) by (rewrite length_slice; lia).
  cbn [mbind result_bind]. fold (dib_header_size data).
  destruct (Z.eqb_spec (dib_header_size data) 12) as [E|_]; [lia|].
  destruct (Z.leb_spec 40 (dib_header_size data)) as [_|E]; [|lia].
  rewrite (unpack2_ok true LittleEndian 4) by (rewrite length_slice; lia).
  cbn [mbind result_bind].
  rewrite (take_slice 4 18 26), (drop_slice 4 18 26) by lia.
  reflexivity.
Qed.

Lemma bmp_size_unknown (data : list byte) :
  (26 ≤ length data)%nat →
  dib_header_size data ≠ 12 → dib_header_size data < 40 →
  bmp_size data =
    Raise (UnknownImageFormat
             (Text ("Unkown DIB header size:" +:+ pretty (dib_header_size data)))).
Proof.
  intros Hlen Hne Hlt. unfold bmp_size.
  rewrite (unpack1_ok false LittleEndian 4) by (rewrite length_slice; lia).
  cbn [mbind result_bind]. fold (dib_header_size data).
  destruct (Z.eqb_spec (dib_header_size data) 12) as [E|_]; [lia|].
  destruct (Z.leb_spec 40 (dib_header_size data)) as [E|_]; [lia|].
  reflexivity.
Qed.

Lemma dib_fields_take (contents : list byte) :
  dib_header_size (take 26 contents) = dib_header_size contents
  ∧ dib_width (take 26 contents) = dib_width contents
  ∧ dib_height (take 26 contents) = dib_height contents.
Proof.
  unfold dib_header_size, dib_width, dib_height.
  rewrite !slice_take by lia. auto.
Qed.

End bmp_height.

(** ** C10 *)

(** C10. For a bitmap file (it starts with ['BM']) that holds the 26 bytes
    the function reads and whose DIB header size is at least 40,
    [get_image_size] returns the width field and the absolute value of the
    signed 32-bit height field, so that a file whose height field is the
    negation (rows stored in the other direction) gives the same height.
    When the header size field is neither 12 nor at least 40 the function
    raises [UnknownImageFormat] and returns no size. *)
Theorem get_image_size_bmp (contents : list byte) :
  take 2 contents = image.BM →
  ((26 ≤ length contents)%nat → 40 ≤ image.dib_header_size contents →
     image.get_image_size contents
       = Ok (image.dib_width contents, Z.abs (image.dib_height contents))
     ∧ ∀ flipped : list byte,
         take 2 flipped = image.BM → (26 ≤ length flipped)%nat →
         40 ≤ image.dib_header_size flipped →
         image.dib_height flipped = - image.dib_height contents →
         snd <$> image.get_image_size flipped = snd <$> image.get_image_size contents)
  ∧ ((18 ≤ length contents)%nat →
     image.dib_header_size contents ≠ 12 → image.dib_header_size contents < 40 →
     ∃ m, image.get_image_size contents = Raise (UnknownImageFormat m)).
Proof.
  assert (Hbig : ∀ c : list byte, take 2 c = image.BM → (26 ≤ length c)%nat →
            40 ≤ image.dib_header_size c →
            image.get_image_size c
              = Ok (image.dib_width c, Z.abs (image.dib_height c))).
  { intros c Hbm Hlen Hh.
    destruct c as [|b0 [|b1 rest]]; try discriminate Hbm.
    injection Hbm as -> ->.
    rewrite bm_dispatch. rewrite bool_decide_eq_true_2 by exact Hlen.
    destruct (dib_fields_take ("B"%byte :: "M"%byte :: rest)) as (Hs & Hw & Hht).
    rewrite bmp_size_large.
    - by rewrite Hw, Hht.
    - rewrite length_take. lia.
    - by rewrite Hs. }
  intros Hbm. split.
  - intros Hlen Hh. split; [by apply Hbig|].
    intros flipped Hbm' Hlen' Hh' Hneg.
    rewrite !Hbig by done. cbn. by rewrite Hneg, Z.abs_opp.
  - intros Hlen Hne Hlt.
    destruct contents as [|b0 [|b1 rest]]; try discriminate Hbm.
    injection Hbm as -> ->.
    rewrite bm_dispatch. case_bool_decide as Hlen26; [|by eexists].
    destruct (dib_fields_take ("B"%byte :: "M"%byte :: rest)) as (Hs & _ & _).
    rewrite bmp_size_unknown.
    + by eexists.
    + rewrite length_take. lia.
    + by rewrite Hs.
    + by rewrite Hs.
Qed.

Lemma get_image_size_bmp_witness :
  image.get_image_size image.bmp_top_down = Ok (2, 3)
  ∧ snd <$> image.get_image_size image.bmp_bottom_up
    = snd <$> image.get_image_size image.bmp_top_down
  ∧ ∃ m, image.get_image_size image.bmp_odd_header = Raise (UnknownImageFormat m).
Proof.
  pose proof (get_image_size_bmp image.bmp_top_down eq_refl) as [Hbig _].
  pose proof (get_image_size_bmp image.bmp_odd_header eq_refl) as [_ Hodd].
  assert (H26 : (26 ≤ length image.bmp_top_down)%nat) by (simpl; lia).
  assert (H40 : 40 ≤ image.dib_header_size image.bmp_top_down) by (vm_compute; congruence).
  destruct (Hbig H26 H40) as [Hsize Hflip].
  split; [exact Hsize|]. split.
  - apply Hflip; [reflexivity | simpl; lia | vm_compute; congruence | reflexivity].
  - apply Hodd; [simpl; lia | vm_compute; congruence | reflexivity].
Defined.

(** ** Building the anchors and the inference model *)

Section build_anchors.
Import keras retinanet.

Lemma mapM_result_length {A B} (f : A → result B) (l : list A) (k : list B) :
  mapM f l = Ok k → length k = length l.
Proof.
  revert k. induction l as [|x l IH]; intros k; simpl.
  - by intros [= <-].
  - destruct (f x) as [y|e]; simpl; [|done].
    destruct (mapM f l) as [k'|e]; simpl; [|done].
    intros [= <-]. simpl. f_equal. by apply IH.
Qed.

Lemma build_level_anchors_ok (ratios scales sizes strides : list R)
    (features : list tensor) (i : nat) :
  (i + length features = length sizes)%nat →
  (i + length features = length strides)%nat →
  build_level_anchors sizes strides ratios scales i features
    = Ok (anchors_of ratios scales i features (drop i sizes) (drop i strides)).
Proof.
  revert i. induction features as [|f features IH]; intros i Hs Ht; simpl.
  - reflexivity.
  - simpl in Hs, Ht. unfold index.
    destruct (lookup_lt_is_Some_2 sizes i) as [size Hsize]; [lia|].
    destruct (lookup_lt_is_Some_2 strides i) as [stride Hstride]; [lia|].
    rewrite Hsize, Hstride. simpl.
    rewrite IH by lia. simpl.
    by rewrite (drop_S _ _ _ Hsize), (drop_S _ _ _ Hstride).
Qed.

Lemma build_anchors_ok (features : list tensor) (sizes strides ratios scales : list R) :
  length features = length sizes → length features = length strides →
  __build_anchors features sizes strides ratios scales
    = Ok (Apply (Concatenate 1 "anchors")
            (anchors_of ratios scales 0 features sizes strides)).
Proof.
  intros Hs Ht. unfold __build_anchors, py_assert.
  rewrite !bool_decide_eq_true_2 by done. simpl.
  rewrite build_level_anchors_ok by done. reflexivity.
Qed.

Lemma build_anchors_assert (features : list tensor) (sizes strides ratios scales : list R) :
  length features ≠ length sizes ∨ length features ≠ length strides →
  ∃ msg, __build_anchors features sizes strides ratios scales
         = Raise (Builtin (AssertionError msg)).
Proof.
  intros Hbad. unfold __build_anchors, py_assert.
  destruct (decide (length features = length sizes)) as [Hs|Hs].
  - rewrite (bool_decide_eq_true_2 _ Hs). cbn.
    destruct (decide (length features = length strides)) as [Ht|Ht]; [tauto|].
    rewrite (bool_decide_eq_false_2 _ Ht). by eexists.
  - rewrite (bool_decide_eq_false_2 _ Hs). by eexists.
Qed.

End build_anchors.

Section inference_model.
Import keras retinanet semantics.

(** The five names that [RetinaNetFromTrain] looks up. *)
Lemma pyramid_layers_inv (model : Model) (features : list tensor) :
  mapM (get_layer_output model) ["P3"; "P4"; "P5"; "P6"; "P7"] = Ok features →
  ∃ P3 P4 P5 P6 P7,
    features = [P3; P4; P5; P6; P7]
    ∧ get_layer_output model "P3" = Ok P3
    ∧ get_layer_output model "P4" = Ok P4
    ∧ get_layer_output model "P5" = Ok P5
    ∧ get_layer_output model "P6" = Ok P6
    ∧ get_layer_output model "P7" = Ok P7.
Proof.
  cbn.
  destruct (get_layer_output model "P3") as [P3|]; cbn; [|done].
  destruct (get_layer_output model "P4") as [P4|]; cbn; [|done].
  destruct (get_layer_output model "P5") as [P5|]; cbn; [|done].
  destruct (get_layer_output model "P6") as [P6|]; cbn; [|done].
  destruct (get_layer_output model "P7") as [P7|]; cbn; [|done].
  intros [= <-]. by exists P3, P4, P5, P6, P7.
Qed.

Lemma RetinaNetFromTrain_ok (model : Model) (config : RetinaNetConfig)
    (features : list tensor) (classification regression : tensor) :
  mapM (get_layer_output model) ["P3"; "P4"; "P5"; "P6"; "P7"] = Ok features →
  outputs model = [classification; regression] →
  length (anchor_sizes config) = 5%nat →
  length (anchor_strides config) = 5%nat →
  RetinaNetFromTrain model config
    = Ok {| inputs := inputs model;
            outputs := [inference_output model config features
                          classification regression];
            name := config_name config |}.
Proof.
  intros Hf Hout Hs Ht. unfold RetinaNetFromTrain.
  pose proof (mapM_result_length _ _ _ Hf) as Hlen. simpl in Hlen.
  rewrite Hf, Hout. cbn [mbind result_bind].
  rewrite build_anchors_ok by congruence. reflexivity.
Qed.

Lemma RetinaNetFromTrain_inv (model : Model) (config : RetinaNetConfig)
    (pm : Model) :
  RetinaNetFromTrain model config = Ok pm →
  ∃ features classification regression,
    mapM (get_layer_output model) ["P3"; "P4"; "P5"; "P6"; "P7"] = Ok features
    ∧ outputs model = [classification; regression]
    ∧ length (anchor_sizes config) = 5%nat
    ∧ length (anchor_strides config) = 5%nat.
Proof.
  unfold RetinaNetFromTrain.
  destruct (mapM _ _) as [features|] eqn:Hf; cbn [mbind result_bind]; [|done].
  pose proof (mapM_result_length _ _ _ Hf) as Hlen. simpl in Hlen.
  destruct (outputs model) as [|c [|r [|]]]; try done.
  intros Hok. exists features, c, r.
  destruct (decide (length features = length (anchor_sizes config))) as [Hs|Hs];
    [destruct (decide (length features = length (anchor_strides config))) as [Ht|Ht]|].
  - repeat split; congruence.
  - destruct (build_anchors_assert features (anchor_sizes config)
                (anchor_strides config) (anchor_ratios config)
                (anchor_scales config)) as [msg Hm]; [by right|].
    rewrite Hm in Hok. done.
  - destruct (build_anchors_assert features (anchor_sizes config)
                (anchor_strides config) (anchor_ratios config)
                (anchor_scales config)) as [msg Hm]; [by left|].
    rewrite Hm in Hok. done.
Qed.

End inference_model.

(** ** C2 *)

(** C2. When the training model has the five pyramid layers and the two
    outputs (classification, regression) and the configuration lists five
    sizes and five strides, [RetinaNetFromTrain] returns a model over the
    same input whose single output is, for every meaning of the layers and
    every input: the regression output decoded against the generated anchors
    by [RegressBoxes], then clipped against the input image by [ClipBoxes],
    then filtered together with the classification output by
    [FilterDetections], with nothing in between. *)
Theorem RetinaNetFromTrain_pipeline
    (model : keras.Model) (config : retinanet.RetinaNetConfig)
    (features : list keras.tensor) (classification regression : keras.tensor) :
  mapM (keras.get_layer_output model) ["P3"; "P4"; "P5"; "P6"; "P7"] = Ok features →
  keras.outputs model = [classification; regression] →
  length (retinanet.anchor_sizes config) = 5%nat →
  length (retinanet.anchor_strides config) = 5%nat →
  ∃ (pm : keras.Model) (anchors : keras.tensor),
    retinanet.RetinaNetFromTrain model config = Ok pm
    ∧ retinanet.__build_anchors features
        (retinanet.anchor_sizes config) (retinanet.anchor_strides config)
        (retinanet.anchor_ratios config) (retinanet.anchor_scales config)
      = Ok anchors
    ∧ keras.inputs pm = keras.inputs model
    ∧ ∀ (V : Type) (interp : keras.layer → list V → V)
        (backbone : string → bool → nat → V → V) (input : V),
        let value := semantics.eval interp backbone input in
        map value (keras.outputs pm) =
          [ interp (keras.FilterDetections "nms")
              [ interp (keras.ClipBoxes "clipped_boxes")
                  [ value (keras.inputs model);
                    interp (keras.RegressBoxes "boxes")
                      [ value anchors; value regression ] ];
                value classification ] ].
Proof.
  intros Hf Hout Hs Ht.
  pose proof (mapM_result_length _ _ _ Hf) as Hlen. simpl in Hlen.
  eexists _, _. split; [by apply RetinaNetFromTrain_ok|].
  split; [apply build_anchors_ok; congruence|].
  split; [reflexivity|]. intros V interp backbone input. reflexivity.
Qed.

Lemma RetinaNetFromTrain_pipeline_witness :
  ∃ pm : keras.Model,
    retinanet.RetinaNetFromTrain retinanet.example_training_model
      retinanet.example_config = Ok pm
    ∧ keras.inputs pm = keras.Input [None; None; Some 3%nat].
Proof.
  destruct (RetinaNetFromTrain_pipeline
              retinanet.example_training_model retinanet.example_config
              _ _ _ eq_refl eq_refl eq_refl eq_refl)
    as (pm & anchors & Hpm & _ & Hin & _).
  exists pm. split; [exact Hpm | exact Hin].
Defined.

(** ** C3 *)

(** C3. When the list of anchor sizes or the list of anchor strides does not
    have as many entries as there are feature levels, [__build_anchors]
    raises an [AssertionError] and builds no anchors, and so does
    [RetinaNetFromTrain] on a configuration with these lists: no model is
    returned, with defaults or otherwise. *)
Theorem malformed_anchor_configuration_fails
    (features : list keras.tensor) (sizes strides ratios scales : list R) :
  length sizes ≠ length features ∨ length strides ≠ length features →
  (∃ msg, retinanet.__build_anchors features sizes strides ratios scales
          = Raise (Builtin (AssertionError msg)))
  ∧ ∀ (model : keras.Model) (config : retinanet.RetinaNetConfig),
      mapM (keras.get_layer_output model) ["P3"; "P4"; "P5"; "P6"; "P7"] = Ok features →
      length (keras.outputs model) = 2%nat →
      retinanet.anchor_sizes config = sizes →
      retinanet.anchor_strides config = strides →
      retinanet.anchor_ratios config = ratios →
      retinanet.anchor_scales config = scales →
      ∃ msg, retinanet.RetinaNetFromTrain model config
             = Raise (Builtin (AssertionError msg)).
Proof.
  intros Hbad.
  assert (Hraise : ∃ msg, retinanet.__build_anchors features sizes strides ratios scales
                          = Raise (Builtin (AssertionError msg))).
  { apply build_anchors_assert. destruct Hbad; [left|right]; congruence. }
  split; [exact Hraise|].
  intros model config Hf Hout <- <- <- <-.
  destruct Hraise as [msg Hmsg]. exists msg.
  unfold retinanet.RetinaNetFromTrain. rewrite Hf. cbn [mbind result_bind].
  destruct (keras.outputs model) as [|c [|r [|]]]; try discriminate Hout.
  by rewrite Hmsg.
Qed.

Lemma malformed_anchor_configuration_fails_witness :
  ∃ msg,
    retinanet.__build_anchors
      [keras.Input []; keras.Input []; keras.Input []; keras.Input []; keras.Input []]
      [32; 64; 128; 256]%R retinanet.default_strides
      retinanet.default_ratios retinanet.default_scales
    = Raise (Builtin (AssertionError msg)).
Proof.
  apply (malformed_anchor_configuration_fails
           [keras.Input []; keras.Input []; keras.Input []; keras.Input []; keras.Input []]
           [32; 64; 128; 256]%R retinanet.default_strides
           retinanet.default_ratios retinanet.default_scales).
  left. simpl. lia.
Defined.

(** ** C7 *)

(** C7. Whenever [RetinaNetFromTrain] returns a model, its anchors are built
    over exactly five feature levels, the outputs of the layers P3, P4, P5,
    P6, P7 of the training model in this order, level number [i] with entry
    [i] of the configured sizes and entry [i] of the configured strides; and
    with the default arguments of [__build_anchors] the five levels get the
    sizes 32, 64, 128, 256, 512 paired with the strides 8, 16, 32, 64, 128. *)
Theorem inference_anchor_levels :
  (∀ (model : keras.Model) (config : retinanet.RetinaNetConfig) (pm : keras.Model),
     retinanet.RetinaNetFromTrain model config = Ok pm →
     ∃ P3 P4 P5 P6 P7 s3 s4 s5 s6 s7 t3 t4 t5 t6 t7 classification regression,
       keras.get_layer_output model "P3" = Ok P3
       ∧ keras.get_layer_output model "P4" = Ok P4
       ∧ keras.get_layer_output model "P5" = Ok P5
       ∧ keras.get_layer_output model "P6" = Ok P6
       ∧ keras.get_layer_output model "P7" = Ok P7
       ∧ retinanet.anchor_sizes config = [s3; s4; s5; s6; s7]
       ∧ retinanet.anchor_strides config = [t3; t4; t5; t6; t7]
       ∧ keras.outputs model = [classification; regression]
       ∧ let anchors_layer size stride name :=
             keras.Anchors size stride (retinanet.anchor_ratios config)
               (retinanet.anchor_scales config) name in
         keras.outputs pm =
           [ keras.Apply (keras.FilterDetections "nms")
               [ keras.Apply (keras.ClipBoxes "clipped_boxes")
                   [ keras.inputs model;
                     keras.Apply (keras.RegressBoxes "boxes")
                       [ keras.Apply (keras.Concatenate 1 "anchors")
                           [ keras.Apply (anchors_layer s3 t3 "anchors_0") [P3];
                             keras.Apply (anchors_layer s4 t4 "anchors_1") [P4];
                             keras.Apply (anchors_layer s5 t5 "anchors_2") [P5];
                             keras.Apply (anchors_layer s6 t6 "anchors_3") [P6];
                             keras.Apply (anchors_layer s7 t7 "anchors_4") [P7] ];
                         regression ] ];
                 classification ] ])
  ∧ (∀ P3 P4 P5 P6 P7 : keras.tensor,
       let anchors_layer size stride name :=
           keras.Anchors size stride retinanet.default_ratios
             retinanet.default_scales name in
       retinanet.__build_anchors [P3; P4; P5; P6; P7]
         retinanet.default_sizes retinanet.default_strides
         retinanet.default_ratios retinanet.default_scales
       = Ok (keras.Apply (keras.Concatenate 1 "anchors")
               [ keras.Apply (anchors_layer 32 8 "anchors_0")%R [P3];
                 keras.Apply (anchors_layer 64 16 "anchors_1")%R [P4];
                 keras.Apply (anchors_layer 128 32 "anchors_2")%R [P5];
                 keras.Apply (anchors_layer 256 64 "anchors_3")%R [P6];
                 keras.Apply (anchors_layer 512 128 "anchors_4")%R [P7] ])).
Proof.
  split.
  - intros model config pm Hpm.
    destruct (RetinaNetFromTrain_inv _ _ _ Hpm)
      as (features & c & r & Hf & Hout & Hs & Ht).
    rewrite (RetinaNetFromTrain_ok _ _ _ _ _ Hf Hout Hs Ht) in Hpm.
    injection Hpm as <-.
    destruct (pyramid_layers_inv _ _ Hf)
      as (P3 & P4 & P5 & P6 & P7 & -> & H3 & H4 & H5 & H6 & H7).
    unfold retinanet.inference_output. cbn [keras.outputs].
    destruct (retinanet.anchor_sizes config)
      as [|s3 [|s4 [|s5 [|s6 [|s7 [|]]]]]]; try discriminate Hs.
    destruct (retinanet.anchor_strides config)
      as [|t3 [|t4 [|t5 [|t6 [|t7 [|]]]]]]; try discriminate Ht.
    exists P3, P4, P5, P6, P7, s3, s4, s5, s6, s7, t3, t4, t5, t6, t7, c, r.
    repeat (split; [done|]). reflexivity.
  - intros P3 P4 P5 P6 P7 anchors_layer.
    rewrite build_anchors_ok by reflexivity. reflexivity.
Qed.

Lemma inference_anchor_levels_witness :
  ∃ P3 P7 : keras.tensor,
    keras.get_layer_output retinanet.example_training_model "P3" = Ok P3
    ∧ keras.get_layer_output retinanet.example_training_model "P7" = Ok P7
    ∧ retinanet.anchor_sizes retinanet.example_config = [32; 64; 128; 256; 512]%R.
Proof.
  destruct (proj1 inference_anchor_levels
              retinanet.example_training_model retinanet.example_config _ eq_refl)
    as (P3 & _ & _ & _ & P7 & s3 & s4 & s5 & s6 & s7 & _ & _ & _ & _ & _ & _ & _
        & H3 & _ & _ & _ & H7 & Hs & _).
  exists P3, P7. split; [exact H3 | split; [exact H7 | reflexivity]].
Defined.

(** ** C8 *)

(** C8. [LoadRetinaNet] loads the model with one dictionary of custom
    objects and nothing else: a finite map from names to constructors whose
    own entries are exactly 'ResizeTo', 'RegressBoxes', 'FilterDetections',
    'Anchors', 'ClipBoxes', 'detection_focal_loss' and
    'detection_smooth_l1_loss' (the two losses made from the options of the
    configuration when one is given), extended with the custom objects of
    the backbone, which take precedence on a name that both define. *)
Theorem LoadRetinaNet_custom_objects
    (load_backbone_custom_objects : string → gmap string retinanet.custom_object)
    (load_model : string → gmap string retinanet.custom_object → result keras.Model)
    (file_path backbone_name : string) (config : option retinanet.RetinaNetConfig) :
  let backbone := load_backbone_custom_objects backbone_name in
  let objects := retinanet.custom_objects load_backbone_custom_objects backbone_name config in
  let focal_options :=
    match config with
    | Some c => retinanet.classification_loss_options c
    | None => []
    end in
  let smooth_l1_options :=
    match config with
    | Some c => retinanet.regression_loss_options c
    | None => []
    end in
  let own :=
    retinanet.retinanet_custom_objects
      (retinanet.make_detection_focal_loss focal_options)
      (retinanet.make_detection_smooth_l1_loss smooth_l1_options) in
  retinanet.LoadRetinaNet load_backbone_custom_objects load_model
    file_path backbone_name config = load_model file_path objects
  ∧ dom own = list_to_set
      ["ResizeTo"; "RegressBoxes"; "FilterDetections"; "Anchors"; "ClipBoxes";
       "detection_focal_loss"; "detection_smooth_l1_loss"]
  ∧ own !! "ResizeTo" = Some retinanet.layers_ResizeTo
  ∧ own !! "RegressBoxes" = Some retinanet.layers_RegressBoxes
  ∧ own !! "FilterDetections" = Some retinanet.layers_FilterDetections
  ∧ own !! "Anchors" = Some retinanet.layers_Anchors
  ∧ own !! "ClipBoxes" = Some retinanet.layers_ClipBoxes
  ∧ own !! "detection_focal_loss"
    = Some (retinanet.make_detection_focal_loss focal_options)
  ∧ own !! "detection_smooth_l1_loss"
    = Some (retinanet.make_detection_smooth_l1_loss smooth_l1_options)
  ∧ dom objects = dom own ∪ dom backbone
  ∧ ∀ key : string,
      objects !! key =
        match backbone !! key with
        | Some o => Some o
        | None => own !! key
        end.
Proof.
  intros backbone objects focal_options smooth_l1_options own.
  assert (Hobjects : objects = backbone ∪ own).
  { subst objects own focal_options smooth_l1_options backbone.
    unfold retinanet.custom_objects. by destruct config. }
  split; [reflexivity|].
  split.
  { subst own. unfold retinanet.retinanet_custom_objects.
    rewrite !dom_insert_L, dom_empty_L. set_solver. }
  do 7 (split; [reflexivity|]).
  split.
  - rewrite Hobjects, dom_union_L. apply (comm_L (∪)).
  - intros key. rewrite Hobjects, lookup_union.
    destruct (backbone !! key), (own !! key); reflexivity.
Qed.

(** ** C9 *)

(** C9. When the file opens as an image of height [h] and width [w], in any
    of the modes (1-bit, grey, grey with alpha, palette, RGB, RGB with
    alpha), [read_image] returns an array of three axes with [h] rows of [w]
    pixels of exactly 3 entries, and the entry at row [y], column [x] is the
    red, green and blue value, in this order, of the pixel converted to
    RGB. *)
Theorem read_image_shape
    (Image_open : string → result image.Image) (path : string) (img : image.Image) :
  Image_open path = Ok img →
  ∃ rows : list (list (list Z)),
    image.read_image Image_open path = Ok (image.Array3 rows)
    ∧ length rows = image.im_height img
    ∧ Forall (λ row, length row = image.im_width img
                     ∧ Forall (λ px, length px = 3%nat) row) rows
    ∧ ∀ (y x : nat) (r g b : Z),
        (y < image.im_height img)%nat → (x < image.im_width img)%nat →
        image.to_rgb (image.im_mode img) (image.palette img)
          (image.getpixel img x y) = (r, g, b) →
        rows !! y ≫= (.!! x) = Some [r; g; b].
Proof.
  intros Hopen. unfold image.read_image. rewrite Hopen. cbn [mbind result_bind].
  eexists. split; [reflexivity|]. cbn [image.convert_RGB image.im_width
    image.im_height image.getpixel image.im_mode].
  split; [by rewrite length_map, length_seq|]. split.
  - apply Forall_map, Forall_forall. intros y _. cbn.
    split; [by rewrite length_map, length_seq|].
    apply Forall_map, Forall_forall. by intros x _.
  - intros y x r g b Hy Hx Hrgb.
    rewrite list_lookup_fmap, lookup_seq_lt by done. cbn.
    rewrite list_lookup_fmap, lookup_seq_lt by done. cbn.
    by rewrite Hrgb.
Qed.

Lemma read_image_shape_witness :
  ∃ rows : list (list (list Z)),
    image.read_image (λ _, Ok image.grey_2x1) "grey.png" = Ok (image.Array3 rows)
    ∧ length rows = 1%nat
    ∧ rows !! 0%nat ≫= (.!! 1%nat) = Some [200; 200; 200].
Proof.
  destruct (read_image_shape (λ _, Ok image.grey_2x1) "grey.png" image.grey_2x1 eq_refl)
    as (rows & Hread & Hh & _ & Hpx).
  exists rows. split; [exact Hread|]. split; [exact Hh|].
  apply Hpx; [simpl; lia | simpl; lia | reflexivity].
Defined.

(** ** C1 *)

Section box_coder_facts.
Import layers.
Local Open Scope Q_scope.

Lemma decode_coordinate (scale a b : Q) :
  ~ scale == 0 → a + (b - a) / scale * scale == b.
Proof. intros Hs. field. exact Hs. Qed.

End box_coder_facts.

(** C1. For a non-zero normalization constant, every anchor and every valid
    box (x1 <= x2 and y1 <= y2): decoding the encoded target against the
    same anchor gives the box back, coordinate for coordinate, in exact
    arithmetic. *)
Theorem decode_encode (scale : Q) (anchor b : backend.box) :
  ~ (scale == 0)%Q → layers.valid b →
  layers.box_eq (layers.decode scale anchor (layers.encode scale anchor b)) b.
Proof.
  intros Hs [Hx Hy]. unfold layers.box_eq, layers.decode, layers.encode. cbn.
  rewrite !decode_coordinate by exact Hs.
  repeat split; try reflexivity.
  - apply Q.max_r. exact Hx.
  - apply Q.max_r. exact Hy.
Qed.

Lemma decode_encode_witness :
  let anchor := {| backend.x1 := 0; backend.y1 := 0; backend.x2 := 10; backend.y2 := 10 |}%Q in
  let b := {| backend.x1 := 1; backend.y1 := 1; backend.x2 := 9; backend.y2 := 9 |}%Q in
  layers.box_eq (layers.decode (1 # 5) anchor (layers.encode (1 # 5) anchor b)) b.
Proof.
  intros anchor b. apply (decode_encode (1 # 5) anchor b).
  - discriminate.
  - split; discriminate.
Defined.

(** ** C5 *)

Example filter_class_twins :
  layers.filter_class (1 # 2) backend.float32_one layers.twin_boxes layers.twin_scores
  = Ok [0; 1]%nat.
Proof. vm_compute. reflexivity. Qed.

Example spec_filter_class_twins :
  layers.spec_filter_class (1 # 2) backend.float32_one layers.twin_boxes layers.twin_scores
  = [0]%nat.
Proof. vm_compute. reflexivity. Qed.

Section nms_facts.
Import backend layers.

Lemma filter_filter_andb {A} (f g : A → bool) (l : list A) :
  List.filter g (List.filter f l) = List.filter (λ x, f x && g x) l.
Proof.
  induction l as [|x l IH]; simpl; [done|].
  destruct (f x); simpl; [|done]. destruct (g x); by rewrite IH.
Qed.

Lemma filter_all {A} (f : A → bool) (l : list A) :
  (∀ x, f x = true) → List.filter f l = l.
Proof.
  intros Hf. induction l as [|x l IH]; simpl; [done|]. by rewrite Hf, IH.
Qed.

Lemma length_filter_le {A} (f : A → bool) (l : list A) :
  (length (List.filter f l) ≤ length l)%nat.
Proof. induction l as [|x l IH]; simpl; [lia|]. destruct (f x); simpl; lia. Qed.

Lemma filter_all_in {A} (f : A → bool) (l : list A) :
  (∀ x, x ∈ l → f x = true) → List.filter f l = l.
Proof.
  induction l as [|x l IH]; intros Hf; simpl; [done|].
  rewrite Hf by left. rewrite IH; [done|]. intros y Hy. apply Hf. by right.
Qed.

Lemma greedy_nms_nil (overlaps : box32 → box32 → bool) (fuel : nat) :
  greedy_nms overlaps fuel [] = [].
Proof. by destruct fuel. Qed.

(** The loop of the kernel, which tests a candidate against all the boxes
    selected so far, selects what the greedy rounds select. *)
Lemma select_greedy (thr : float32) (m : nat) (cands selected : list candidate) (fuel : nat) :
  (length selected + length cands ≤ m)%nat → (length cands ≤ fuel)%nat →
  select thr m selected cands =
    selected ++
    greedy_nms (iou_greater_than_threshold thr) fuel
      (List.filter
         (λ c, negb (existsb (λ s, iou_greater_than_threshold thr (cbox c) (cbox s))
                       selected))
         cands).
Proof.
  revert selected fuel.
  induction cands as [|c cands IH]; intros selected fuel Hm Hfuel; simpl.
  - by rewrite greedy_nms_nil, app_nil_r.
  - simpl in Hm, Hfuel.
    destruct (Nat.leb_spec m (length selected)) as [Hle|_]; [lia|].
    destruct (existsb _ selected) eqn:Hex; simpl.
    + apply IH; lia.
    + destruct fuel as [|fuel]; [lia|]. simpl.
      rewrite (IH (selected ++ [c]) fuel) by (rewrite ?length_app; simpl; lia).
      rewrite <- app_assoc. simpl. do 3 f_equal.
      rewrite filter_filter_andb. apply List.filter_ext. intros d.
      rewrite existsb_app. simpl. rewrite orb_false_r.
      apply negb_orb.
Qed.

(** Candidates no two of which overlap are all selected. *)
Lemma greedy_nms_no_overlap (overlaps : box32 → box32 → bool) (fuel : nat)
    (cands : list candidate) :
  (∀ c d, c ∈ cands → d ∈ cands → overlaps (cbox d) (cbox c) = false) →
  (length cands ≤ fuel)%nat →
  greedy_nms overlaps fuel cands = cands.
Proof.
  revert fuel. induction cands as [|c cands IH]; intros fuel Hno Hfuel.
  - apply greedy_nms_nil.
  - destruct fuel as [|fuel]; simpl in *; [lia|].
    rewrite filter_all_in.
    + f_equal. apply IH; [|lia]. intros a b Ha Hb. apply Hno; by right.
    + intros d Hd. rewrite Hno; [done|by left|by right].
Qed.

Lemma candidates_lookup (boxes : list box32) (scores : list Q) (c : candidate) :
  c ∈ candidates boxes scores →
  boxes !! index c = Some (cbox c) ∧ scores !! index c = Some (score c).
Proof.
  intros [i Hc]%list_elem_of_lookup. unfold candidates in Hc.
  rewrite list_lookup_imap, lookup_zip_with in Hc.
  destruct (boxes !! i) as [b|] eqn:Hb; [|done].
  destruct (scores !! i) as [s|] eqn:Hs; [|done].
  simpl in Hc. injection Hc as <-. done.
Qed.

(** A candidate that passes the score threshold carries a box of the
    input. *)
Lemma above_threshold_box (score_threshold : Q) (boxes : list box32) (scores : list Q)
    (c : candidate) :
  c ∈ above_threshold score_threshold boxes scores → cbox c ∈ boxes.
Proof.
  intros Hc. apply list_elem_of_In, filter_In in Hc as [Hc _].
  apply list_elem_of_In, candidates_lookup in Hc as [Hb _].
  by eapply list_elem_of_lookup_2.
Qed.

Lemma length_insert_by_score (c : candidate) (l : list candidate) :
  length (insert_by_score c l) = S (length l).
Proof.
  induction l as [|d l IH]; simpl; [done|].
  destruct (Qltb _ _); simpl; by rewrite ?IH.
Qed.

Lemma length_fold_insert (l acc : list candidate) :
  length (fold_left (λ sorted c, insert_by_score c sorted) l acc)
  = (length l + length acc)%nat.
Proof.
  revert acc. induction l as [|c l IH]; intros acc; simpl; [done|].
  rewrite IH, length_insert_by_score. lia.
Qed.

Lemma length_sort_by_score (l : list candidate) :
  length (sort_by_score l) = length l.
Proof. unfold sort_by_score. rewrite length_fold_insert. simpl. lia. Qed.

End nms_facts.

Section relabel.
Import backend layers.

Lemma candidates_same_box (kept : list candidate) :
  Forall2 (same_box kept) (candidates (map cbox kept) (map score kept)) kept.
Proof.
  apply Forall2_same_length_lookup. split.
  - unfold candidates. rewrite length_imap, length_zip, !length_map. lia.
  - intros i c' c Hc' Hc. unfold candidates in Hc'.
    rewrite list_lookup_imap in Hc'.
    rewrite lookup_zip_with, !list_lookup_fmap, Hc in Hc'. simpl in Hc'.
    injection Hc' as <-. unfold same_box. simpl.
    by rewrite list_lookup_fmap, Hc.
Qed.

Lemma insert_same_box (kept : list candidate) (c' c : candidate)
    (l' l : list candidate) :
  same_box kept c' c → Forall2 (same_box kept) l' l →
  Forall2 (same_box kept) (insert_by_score c' l') (insert_by_score c l).
Proof.
  intros Hc Hl. induction Hl as [|d' d l' l Hd Hl IH]; simpl.
  - constructor; [exact Hc | constructor].
  - rewrite (proj1 Hc), (proj1 Hd). destruct (Qltb _ _).
    + constructor; [exact Hc|]. constructor; [exact Hd | exact Hl].
    + constructor; [exact Hd | exact IH].
Qed.

Lemma fold_insert_same_box (kept l' l acc' acc : list candidate) :
  Forall2 (same_box kept) l' l → Forall2 (same_box kept) acc' acc →
  Forall2 (same_box kept)
    (fold_left (λ sorted c, insert_by_score c sorted) l' acc')
    (fold_left (λ sorted c, insert_by_score c sorted) l acc).
Proof.
  intros Hl. revert acc' acc.
  induction Hl as [|c' c l' l Hc Hl IH]; intros acc' acc Hacc; simpl; [done|].
  apply IH. by apply insert_same_box.
Qed.

Lemma existsb_same_box (kept : list candidate) (thr : float32) (b : box32)
    (l' l : list candidate) :
  Forall2 (same_box kept) l' l →
  existsb (λ s, iou_greater_than_threshold thr b (cbox s)) l'
  = existsb (λ s, iou_greater_than_threshold thr b (cbox s)) l.
Proof.
  induction 1 as [|d' d l' l (_ & Hb & _) Hl IH]; simpl; [done|].
  by rewrite Hb, IH.
Qed.

Lemma select_same_box (kept : list candidate) (thr : float32) (m : nat)
    (cands' cands selected' selected : list candidate) :
  Forall2 (same_box kept) cands' cands →
  Forall2 (same_box kept) selected' selected →
  Forall2 (same_box kept) (select thr m selected' cands') (select thr m selected cands).
Proof.
  intros Hc. revert selected' selected.
  induction Hc as [|c' c cands' cands Hcc Hc IH]; intros selected' selected Hs;
    simpl; [done|].
  rewrite (Forall2_length _ _ _ Hs).
  destruct (m <=? length selected)%nat; [done|].
  rewrite (existsb_same_box kept thr (cbox c') selected' selected Hs).
  destruct Hcc as (Hsc & Hb & Hi). rewrite Hb.
  destruct (existsb _ selected); apply IH; [done|].
  apply Forall2_app; [done|]. constructor; [|constructor].
  by split.
Qed.

Lemma gather_same_box (kept selected' selected : list candidate) :
  Forall2 (same_box kept) selected' selected →
  gather (map index kept) (map index selected') = Ok (map index selected).
Proof.
  unfold gather.
  induction 1 as [|c' c l' l (_ & _ & Hi) Hl IH]; simpl; [done|].
  rewrite Hi. cbn. rewrite IH. reflexivity.
Qed.

(** [filter_class] in terms of the candidates of the input. *)
Lemma filter_class_select (score_threshold : Q) (thr : float32) (boxes : list box32)
    (scores : list Q) :
  let kept := above_threshold score_threshold boxes scores in
  valid_threshold thr = true →
  filter_class score_threshold thr boxes scores
  = Ok (map index (select thr (length kept) [] (sort_by_score kept))).
Proof.
  intros kept Hthr. unfold filter_class, non_max_suppression. fold kept.
  rewrite Hthr. cbn [negb].
  rewrite bool_decide_eq_true_2 by (by rewrite !length_map).
  cbn [mbind result_bind].
  apply gather_same_box, select_same_box; [|constructor].
  apply fold_insert_same_box; [|constructor]. apply candidates_same_box.
Qed.

(** The kernel refuses a threshold outside [0, 1] before it looks at a
    box. *)
Lemma filter_class_invalid_threshold (score_threshold : Q) (thr : float32)
    (boxes : list box32) (scores : list Q) :
  valid_threshold thr = false →
  filter_class score_threshold thr boxes scores = Raise (Builtin InvalidArgumentError).
Proof.
  intros Hthr. unfold filter_class, non_max_suppression. by rewrite Hthr.
Qed.

End relabel.

Section sorting.
Import backend layers.

Lemma insert_by_score_perm (c : candidate) (l : list candidate) :
  Permutation (insert_by_score c l) (c :: l).
Proof.
  induction l as [|d l IH]; simpl; [done|].
  destruct (Qltb _ _); [done|]. rewrite IH. apply perm_swap.
Qed.

Lemma fold_insert_perm (l acc : list candidate) :
  Permutation (fold_left (λ sorted c, insert_by_score c sorted) l acc) (l ++ acc).
Proof.
  revert acc. induction l as [|c l IH]; intros acc; simpl; [done|].
  rewrite IH, insert_by_score_perm. by rewrite Permutation_middle.
Qed.

Lemma sort_by_score_perm (l : list candidate) : Permutation (sort_by_score l) l.
Proof. unfold sort_by_score. by rewrite fold_insert_perm, app_nil_r. Qed.

Lemma Qltb_lt (a b : Q) : Qltb a b = true ↔ (a < b)%Q.
Proof.
  unfold Qltb. rewrite negb_true_iff. split.
  - intros Hb. apply Qnot_le_lt. intros Hle. apply Qle_bool_iff in Hle. congruence.
  - intros Hlt. destruct (Qle_bool b a) eqn:Hb; [|done].
    apply Qle_bool_iff in Hb. Lqa.lra.
Qed.

Lemma insert_by_score_sorted (c : candidate) (l : list candidate) :
  StronglySorted before l → Forall (λ d, (index d < index c)%nat) l →
  StronglySorted before (insert_by_score c l).
Proof.
  induction 1 as [|d l Hl IH Hd]; intros Hidx; simpl.
  - repeat constructor.
  - apply Forall_cons in Hidx as [Hdc Hidx].
    destruct (Qltb (score d) (score c)) eqn:Hlt.
    + apply Qltb_lt in Hlt. constructor; [by constructor|].
      constructor; [by left|].
      eapply Forall_impl; [exact Hd|]. intros x [Hx|[Hx _]]; left; Lqa.lra.
    + constructor; [by apply IH|].
      rewrite insert_by_score_perm. constructor; [|done].
      destruct (Qlt_le_dec (score c) (score d)) as [Hcd|Hcd]; [by left|].
      right. split; [|done]. apply Qle_antisym; [|done].
      apply Qnot_lt_le. intros Hdc'. apply Qltb_lt in Hdc'. congruence.
Qed.

Lemma fold_insert_sorted (l acc : list candidate) :
  StronglySorted before acc →
  StronglySorted (λ c d, (index c < index d)%nat) l →
  Forall (λ a, Forall (λ c, (index a < index c)%nat) l) acc →
  StronglySorted before (fold_left (λ sorted c, insert_by_score c sorted) l acc).
Proof.
  revert acc. induction l as [|c l IH]; intros acc Hacc Hl Hlt; simpl; [done|].
  apply StronglySorted_inv in Hl as [Hl Hc].
  apply IH; [|done|].
  - apply insert_by_score_sorted; [done|].
    eapply Forall_impl; [exact Hlt|]. intros a Ha. by apply Forall_cons in Ha as [? _].
  - rewrite insert_by_score_perm. constructor; [done|].
    eapply Forall_impl; [exact Hlt|]. intros a Ha. by apply Forall_cons in Ha as [_ ?].
Qed.

Lemma filter_index_sorted (f : candidate → bool) (l : list candidate) :
  StronglySorted (λ c d, (index c < index d)%nat) l →
  StronglySorted (λ c d, (index c < index d)%nat) (List.filter f l).
Proof.
  induction 1 as [|c l Hl IH Hc]; simpl; [constructor|].
  destruct (f c); [|done]. constructor; [done|].
  apply Forall_forall. intros d Hd.
  apply list_elem_of_In, filter_In in Hd as [Hd _].
  rewrite Forall_forall in Hc. by apply Hc, list_elem_of_In.
Qed.

Lemma imap_index_sorted {A} (f : nat → A → candidate) (l : list A) (k : nat) :
  (∀ i x, index (f i x) = (k + i)%nat) →
  StronglySorted (λ c d, (index c < index d)%nat) (imap f l).
Proof.
  revert f k. induction l as [|x l IH]; intros f k Hf; simpl; [constructor|].
  constructor.
  - apply (IH _ (S k)). intros i y. unfold compose. rewrite Hf. lia.
  - apply Forall_forall. intros d Hd.
    apply list_elem_of_lookup in Hd as [i Hd].
    rewrite list_lookup_imap in Hd.
    destruct (l !! i) as [y|]; simpl in Hd; [|done].
    injection Hd as <-. unfold compose. rewrite !Hf. lia.
Qed.

Lemma sort_by_score_sorted (score_threshold : Q) (boxes : list box32) (scores : list Q) :
  StronglySorted before (sort_by_score (above_threshold score_threshold boxes scores)).
Proof.
  unfold sort_by_score. apply fold_insert_sorted; [constructor| |constructor].
  apply filter_index_sorted. unfold candidates. by apply (imap_index_sorted _ _ 0).
Qed.

Lemma mapM_result_Ok {A B} (f : A → result B) (g : A → B) (l : list A) :
  (∀ x, f x = Ok (g x)) → mapM f l = Ok (map g l).
Proof.
  intros Hf. induction l as [|x l IH]; simpl; [done|].
  rewrite Hf. cbn. rewrite IH. reflexivity.
Qed.

Lemma filter_class_greedy_filter (score_threshold : Q) (thr : float32)
    (boxes : list box32) (scores : list Q) :
  valid_threshold thr = true →
  filter_class score_threshold thr boxes scores
  = Ok (greedy_filter_class score_threshold thr boxes scores).
Proof.
  intros Hthr. rewrite filter_class_select by exact Hthr. unfold greedy_filter_class.
  set (kept := above_threshold _ _ _).
  rewrite (select_greedy thr (length kept) (sort_by_score kept) [] (length kept))
    by (rewrite length_sort_by_score; simpl; lia).
  simpl. by rewrite filter_all.
Qed.

End sorting.

(** The overlap test is decided by the rounding of single precision. The
    boxes [(0, 0, 4150, 4109)] and [(0, 0, 2905, 2935)] have an IoU of
    exactly one half, the computed IoU is above 0.5: the second box is
    suppressed. The boxes [(0, 0, 3677, 4587)] and [(0, 0, 2900, 2908)] have
    an IoU above one half, the computed IoU is 0.5: both are kept. *)
Example filter_class_rounded_up :
  layers.filter_class (1 # 2) layers.one_half
    [layers.box_to 4150 4109; layers.box_to 2905 2935] layers.twin_scores
  = Ok [0]%nat.
Proof. vm_compute. reflexivity. Qed.

Example filter_class_rounded_down :
  layers.filter_class (1 # 2) layers.one_half
    [layers.box_to 3677 4587; layers.box_to 2900 2908] layers.twin_scores
  = Ok [0; 1]%nat.
Proof. vm_compute. reflexivity. Qed.




(** ** Reshaping a feature map into rows *)

Section reshape.
Import keras semantics.

Lemma chunks_app (n1 n2 K : nat) (l1 l2 : list R) :
  length l1 = (n1 * K)%nat →
  chunks (n1 + n2) K (l1 ++ l2) = chunks n1 K l1 ++ chunks n2 K l2.
Proof.
  revert l1. induction n1 as [|n1 IH]; intros l1 Hlen; simpl.
  - by destruct l1.
  - simpl in Hlen.
    rewrite take_app_le, drop_app_le by lia.
    rewrite IH by (rewrite length_drop; lia). reflexivity.
Qed.

Lemma map_seq_shift {B} (f : nat → B) (s n : nat) :
  map f (seq s n) = map (λ k, f (s + k)%nat) (seq 0 n).
Proof.
  revert f s. induction n as [|n IH]; intros f s; simpl; [done|].
  rewrite Nat.add_0_r. f_equal.
  rewrite (IH f (S s)), (IH (λ k, f (s + k)%nat) 1%nat). apply map_ext. intros k.
  f_equal. lia.
Qed.

(** The channels of one cell, cut into [A] rows of [K]. *)
Lemma chunks_cell (A K : nat) (f : nat → R) (s : nat) :
  chunks A K (map f (seq s (A * K)))
  = map (λ a, map (λ k, f (s + a * K + k)%nat) (seq 0 K)) (seq 0 A).
Proof.
  revert s. induction A as [|A IH]; intros s; simpl; [done|].
  rewrite seq_app, map_app.
  rewrite take_app_length' by (by rewrite length_map, length_seq).
  rewrite drop_app_length' by (by rewrite length_map, length_seq).
  f_equal.
  - rewrite map_seq_shift. apply map_ext. intros k. f_equal. lia.
  - rewrite IH. rewrite <- seq_shift, map_map. apply map_ext. intros a.
    apply map_ext. intros k. f_equal. lia.
Qed.

Lemma length_flat_map_const {A B} (f : A → list B) (l : list A) (n : nat) :
  (∀ x, length (f x) = n) → length (flat_map f l) = (length l * n)%nat.
Proof.
  intros Hf. induction l as [|x l IH]; simpl; [done|].
  by rewrite length_app, Hf, IH.
Qed.

Lemma chunks_flat_map {B} (A K : nat) (f : B → list R) (l : list B) :
  (∀ x, length (f x) = (A * K)%nat) →
  chunks (length l * A) K (flat_map f l) = flat_map (λ x, chunks A K (f x)) l.
Proof.
  intros Hf. induction l as [|x l IH]; simpl; [done|].
  rewrite chunks_app by apply Hf. by rewrite IH.
Qed.

Lemma length_chunks (n K : nat) (l : list R) : length (chunks n K l) = n.
Proof. revert l. induction n as [|n IH]; intros l; simpl; [done|]. by rewrite IH. Qed.

Lemma length_flatten (h w c : nat) (px : nat → nat → nat → R) :
  length (flatten h w c px) = (h * (w * c))%nat.
Proof.
  unfold flatten.
  rewrite (length_flat_map_const _ _ (w * c)), length_seq; [done|].
  intros y. rewrite (length_flat_map_const _ _ c), length_seq; [done|].
  intros x. by rewrite length_map, length_seq.
Qed.

Lemma length_cells (h w A : nat) : length (cells h w A) = (h * (w * A))%nat.
Proof.
  unfold cells.
  rewrite (length_flat_map_const _ _ (w * A)), length_seq; [done|].
  intros y. rewrite (length_flat_map_const _ _ A), length_seq; [done|].
  intros x. by rewrite length_map, length_seq.
Qed.

Lemma map_flat_map {B C D} (g : C → D) (f : B → list C) (l : list B) :
  map g (flat_map f l) = flat_map (λ x, map g (f x)) l.
Proof.
  induction l as [|x l IH]; simpl; [done|]. by rewrite map_app, IH.
Qed.

Lemma flat_map_ext' {B C} (f g : B → list C) (l : list B) :
  (∀ x, f x = g x) → flat_map f l = flat_map g l.
Proof. intros Hfg. induction l as [|x l IH]; simpl; [done|]. by rewrite Hfg, IH. Qed.

(** A feature map of [A * K] channels, flattened and cut into rows of [K]. *)
Lemma chunks_flatten (h w A K : nat) (px : nat → nat → nat → R) :
  chunks (h * (w * A)) K (flatten h w (A * K) px) = head_rows K A h w px.
Proof.
  unfold flatten, head_rows, cells.
  rewrite <- (length_seq h 0) at 1.
  rewrite (Nat.mul_comm (length (seq 0 h))).
  rewrite map_flat_map.
  replace (w * A * length (seq 0 h))%nat with (length (seq 0 h) * (w * A))%nat by lia.
  rewrite (chunks_flat_map (w * A) K).
  - apply flat_map_ext'. intros y. rewrite map_flat_map.
    rewrite <- (length_seq w 0) at 1.
    rewrite (chunks_flat_map A K).
    + apply flat_map_ext'. intros x. rewrite map_map. simpl.
      rewrite chunks_cell. reflexivity.
    + intros x. by rewrite length_map, length_seq.
  - intros y. rewrite (length_flat_map_const _ _ (A * K)), length_seq; [lia|].
    intros x. by rewrite length_map, length_seq.
Qed.

Lemma reshape_rows_flatten (h w A K : nat) (px : nat → nat → nat → R) :
  (0 < K)%nat →
  reshape_rows K (flatten h w (A * K) px) = Rows (head_rows K A h w px).
Proof.
  intros HK. unfold reshape_rows. rewrite length_flatten.
  replace (h * (w * (A * K)))%nat with (h * (w * A) * K)%nat by lia.
  rewrite Nat.Div0.mod_mul, Nat.div_mul by lia.
  rewrite !bool_decide_eq_true_2 by done. simpl.
  by rewrite chunks_flatten.
Qed.

End reshape.

(** ** The prediction heads *)

Section heads.
Import keras retinanet semantics.

Variable conv2d : string → nat → nat → padding →
                  nat → nat → nat → (nat → nat → nat → R) → nat → nat → nat → R.
Variable resize : nat → nat → nat → (nat → nat → nat → R) →
                  nat → nat → nat → nat → nat → R.
Variable custom : layer → list value → value.
Variable backbone : string → bool → nat → value → value.

Local Abbreviation value_of := (eval (layer_sem conv2d resize custom) backbone).

Lemma conv_out_dim_same_1 (k n : nat) : conv_out_dim same k 1 n = n.
Proof. unfold conv_out_dim. rewrite Nat.add_sub. apply Nat.div_1_r. Qed.

(** Convolutions with padding [same] and stride 1 keep the height and the
    width of the feature map. *)
Lemma eval_conv_stack (filters : nat) (act : activation) (ki bi : initializer)
    (prefix : string) (idxs : list nat) (input : value) (t : tensor)
    (h w c : nat) (px : nat → nat → nat → R) :
  value_of input t = FeatureMap h w c px →
  ∃ px',
    value_of input (conv_stack (Conv2D filters 3 1 same act ki bi) prefix idxs t)
    = FeatureMap h w (match idxs with [] => c | _ :: _ => filters end) px'.
Proof.
  revert t c px. induction idxs as [|i idxs IH]; intros t c px Ht; simpl.
  - by exists px.
  - edestruct (IH (Apply (Conv2D filters 3 1 same act ki bi (prefix +:+ pretty i)) [t]))
      as [px' Hpx'].
    { cbn [eval map]. rewrite Ht. cbn [layer_sem].
      rewrite !conv_out_dim_same_1. reflexivity. }
    exists px'. rewrite Hpx'. by destruct idxs.
Qed.

Lemma head_rows_map (g : R → R) (K A h w : nat) (out : nat → nat → nat → R) :
  map (map g) (head_rows K A h w out) = head_rows K A h w (λ y x f, g (out y x f)).
Proof.
  unfold head_rows. rewrite map_map. apply map_ext. intros p. by rewrite map_map.
Qed.

Lemma length_head_rows (K A h w : nat) (out : nat → nat → nat → R) :
  length (head_rows K A h w out) = (h * (w * A))%nat.
Proof. unfold head_rows. by rewrite length_map, length_cells. Qed.

Lemma head_rows_Forall (P : R → Prop) (K A h w : nat) (out : nat → nat → nat → R) :
  (∀ y x f, P (out y x f)) →
  Forall (λ row, length row = K ∧ Forall P row) (head_rows K A h w out).
Proof.
  intros HP. unfold head_rows. apply Forall_map, Forall_forall. intros p _. cbn.
  split; [by rewrite length_map, length_seq|].
  apply Forall_map, Forall_forall. intros k _. apply HP.
Qed.

Lemma sigmoid_range (t : R) : (0 <= 1 / (1 + exp (- t)) <= 1)%R.
Proof.
  pose proof (exp_pos (- t)) as He.
  assert (Hd : (0 < 1 + exp (- t))%R) by Lra.lra.
  split.
  - left. apply Rdiv_lt_0_compat; Lra.lra.
  - apply (Rmult_le_reg_r (1 + exp (- t))); [exact Hd|].
    unfold Rdiv. rewrite Rmult_assoc, Rinv_l by Lra.lra. Lra.lra.
Qed.

(** The value of the classification head on a feature map. *)
Lemma eval_classification_model (K A pfs cfs : nat) (prior : R) (name : string)
    (h w c : nat) (px : nat → nat → nat → R) :
  (0 < K)%nat →
  let input := FeatureMap h w c px in
  let logits :=
    conv2d "pyramid_classification" 3%nat 1%nat same h w cfs
      (pixel (value_of input (classification_stack pfs cfs))) in
  map (value_of input) (outputs (default_classification_model K A pfs cfs prior name))
  = [Rows (head_rows K A h w (λ y x f, 1 / (1 + exp (- logits y x f)))%R)].
Proof.
  intros HK input logits. subst logits.
  destruct (eval_conv_stack cfs relu (normal 0 0.01) zeros "pyramid_classification_"
              (seq 0 4) input (Input [None; None; Some pfs]) h w c px eq_refl)
    as [px' Hpx'].
  fold (classification_stack pfs cfs) in Hpx'. cbn [seq] in Hpx'.
  unfold default_classification_model. cbn [outputs map eval].
  fold (classification_stack pfs cfs). rewrite Hpx'.
  cbn [layer_sem]. rewrite !conv_out_dim_same_1.
  destruct (Z.ltb_spec 0 (Z.of_nat K)) as [_|Hle]; [|lia].
  rewrite Nat2Z.id, (Nat.mul_comm K A), reshape_rows_flatten by done.
  cbn [layer_sem]. rewrite head_rows_map. reflexivity.
Qed.

(** The value of the regression head on a feature map. *)
Lemma eval_regression_model (A pfs rfs : nat) (name : string)
    (h w c : nat) (px : nat → nat → nat → R) :
  let input := FeatureMap h w c px in
  let deltas :=
    conv2d "pyramid_regression" 3%nat 1%nat same h w rfs
      (pixel (value_of input (regression_stack pfs rfs))) in
  map (value_of input) (outputs (default_regression_model A pfs rfs name))
  = [Rows (head_rows 4 A h w deltas)].
Proof.
  intros input deltas. subst deltas.
  destruct (eval_conv_stack rfs relu (normal 0 0.01) zeros "pyramid_regression_"
              (seq 0 4) input (Input [None; None; Some pfs]) h w c px eq_refl)
    as [px' Hpx'].
  fold (regression_stack pfs rfs) in Hpx'. cbn [seq] in Hpx'.
  unfold default_regression_model. cbn [outputs map eval].
  fold (regression_stack pfs rfs). rewrite Hpx'.
  cbn [layer_sem]. rewrite !conv_out_dim_same_1.
  change (0 <? 4) with true. cbn iota.
  change (Z.to_nat 4) with 4%nat.
  rewrite reshape_rows_flatten by lia. reflexivity.
Qed.

End heads.

(** ** C6 *)

(** C6. On a feature map of [h] rows and [w] columns, for every trained
    convolution, the default classification head returns one row for each
    position (row, column, anchor), in row-major order, of [num_classes]
    scores, each the sigmoid of the response of the last convolution and so
    in [0, 1]; the default regression head returns, in the same order, rows
    of exactly 4 values, which are the response of its last convolution as
    it is, without an activation. *)
Theorem default_heads_rows
    (conv2d : string → nat → nat → keras.padding →
              nat → nat → nat → (nat → nat → nat → R) → nat → nat → nat → R)
    (resize : nat → nat → nat → (nat → nat → nat → R) →
              nat → nat → nat → nat → nat → R)
    (custom : keras.layer → list semantics.value → semantics.value)
    (backbone : string → bool → nat → semantics.value → semantics.value)
    (num_classes num_anchors : nat)
    (pyramid_feature_size classification_feature_size regression_feature_size : nat)
    (prior_probability : R) (h w c : nat) (px : nat → nat → nat → R) :
  (0 < num_classes)%nat →
  let value :=
    semantics.eval (semantics.layer_sem conv2d resize custom) backbone
      (semantics.FeatureMap h w c px) in
  let logits :=
    conv2d "pyramid_classification" 3%nat 1%nat keras.same h w
      classification_feature_size
      (semantics.pixel
         (value (retinanet.classification_stack pyramid_feature_size
                   classification_feature_size))) in
  let deltas :=
    conv2d "pyramid_regression" 3%nat 1%nat keras.same h w
      regression_feature_size
      (semantics.pixel
         (value (retinanet.regression_stack pyramid_feature_size
                   regression_feature_size))) in
  let scores :=
    semantics.head_rows num_classes num_anchors h w
      (λ y x f, 1 / (1 + exp (- logits y x f)))%R in
  let regression := semantics.head_rows 4 num_anchors h w deltas in
  map value
    (keras.outputs
       (retinanet.default_classification_model num_classes num_anchors
          pyramid_feature_size classification_feature_size prior_probability
          "classification_submodel"))
  = [semantics.Rows scores]
  ∧ length scores = (h * (w * num_anchors))%nat
  ∧ Forall (λ row, length row = num_classes
                   ∧ Forall (λ s, (0 <= s <= 1)%R) row) scores
  ∧ map value
      (keras.outputs
         (retinanet.default_regression_model num_anchors
            pyramid_feature_size regression_feature_size "regression_submodel"))
    = [semantics.Rows regression]
  ∧ length regression = (h * (w * num_anchors))%nat
  ∧ Forall (λ row, length row = 4%nat) regression.
Proof.
  intros HK value logits deltas scores regression.
  split; [by apply eval_classification_model|].
  split; [apply length_head_rows|].
  split; [apply head_rows_Forall; intros y x f; apply sigmoid_range|].
  split; [apply eval_regression_model|].
  split; [apply length_head_rows|].
  eapply Forall_impl; [apply (head_rows_Forall (λ _, True)); done|].
  by intros row [Hlen _].
Qed.

Lemma default_heads_rows_witness :
  let value :=
    semantics.eval
      (semantics.layer_sem (λ _ _ _ _ _ _ _ _ _ _ _, 0%R) (λ _ _ _ _ _ _ _ _ _, 0%R)
         (λ _ _, semantics.Invalid))
      (λ _ _ _ v, v)
      (semantics.FeatureMap 1 1 1 (λ _ _ _, 0%R)) in
  map value
    (keras.outputs
       (retinanet.default_classification_model 2 1 256 256 0.01
          "classification_submodel"))
  = [semantics.Rows
       (semantics.head_rows 2 1 1 1 (λ _ _ _, 1 / (1 + exp (- 0)))%R)].
Proof.
  intros value.
  apply (default_heads_rows (λ _ _ _ _ _ _ _ _ _ _ _, 0%R) (λ _ _ _ _ _ _ _ _ _, 0%R)
           (λ _ _, semantics.Invalid) (λ _ _ _ v, v) 2 1 256 256 256 0.01 1 1 1
           (λ _ _ _, 0%R)).
  lia.
Defined.

(** ** Anchors and predictions, position by position *)

Section alignment.
Import keras retinanet layers semantics.

Variable conv2d : string → nat → nat → padding →
                  nat → nat → nat → (nat → nat → nat → R) → nat → nat → nat → R.
Variable resize : nat → nat → nat → (nat → nat → nat → R) →
                  nat → nat → nat → nat → nat → R.
Variable custom : layer → list value → value.
Variable backbone : string → bool → nat → value → value.
Variable input : value.

Local Abbreviation value_of := (eval (layer_sem conv2d resize custom) backbone input).
Local Abbreviation shape_of :=
  (λ t : level, (height (value_of (feature t)), width (value_of (feature t)))).

Lemma map_nth_seq {B C} (g : B → C) (l : list B) (d : B) :
  map g l = map (λ a, g (nth a l d)) (seq 0 (length l)).
Proof.
  induction l as [|x l IH]; simpl; [done|]. f_equal.
  rewrite (map_seq_shift _ 1). exact IH.
Qed.

Lemma length_anchor_shapes (size : R) (ratios scales : list R) :
  length (anchor_shapes size ratios scales) = (length ratios * length scales)%nat.
Proof.
  unfold anchor_shapes. apply length_flat_map_const. intros r. apply length_map.
Qed.

Lemma anchors_for_shape_cells (h w : nat) (size stride : R) (ratios scales : list R) :
  anchors_for_shape h w size stride ratios scales
  = map (anchor_at size stride ratios scales)
      (cells h w (length ratios * length scales)).
Proof.
  unfold anchors_for_shape, cells. rewrite map_flat_map.
  apply flat_map_ext'. intros y. rewrite map_flat_map.
  apply flat_map_ext'. intros x. rewrite map_map.
  rewrite <- length_anchor_shapes with (size := size).
  apply (map_nth_seq (anchor_box stride y x) _ (0, 0)%R).
Qed.

Lemma positions_cons {T} (shape : T → nat * nat) (A : nat) (t : T) (levels : list T) :
  positions shape A (t :: levels)
  = map (pair t) (cells (shape t).1 (shape t).2 A) ++ positions shape A levels.
Proof. reflexivity. Qed.

(** The anchors of all the levels. *)
Lemma eval_anchors_of (ratios scales : list R) (features : list tensor) :
  Forall (λ f, ∃ h w c px, value_of f = FeatureMap h w c px) features →
  ∀ (k : nat) (sizes strides : list R),
    length sizes = length features → length strides = length features →
    concat_rows (map value_of (anchors_of ratios scales k features sizes strides))
    = Some (map (λ tp : level * (nat * nat * nat),
                   anchor_at (size tp.1) (stride tp.1) ratios scales tp.2)
              (positions shape_of (length ratios * length scales)
                 (pyramid_levels features sizes strides))).
Proof.
  induction 1 as [|f features (h & w & c & px & Hf) _ IH];
    intros k sizes strides Hs Ht.
  - by destruct sizes, strides.
  - destruct sizes as [|s sizes], strides as [|t strides]; try discriminate.
    injection Hs as Hs. injection Ht as Ht.
    cbn [anchors_of map eval]. rewrite Hf. cbn [layer_sem concat_rows].
    rewrite (IH (S k) sizes strides Hs Ht). cbn [fmap option_fmap option_map].
    f_equal. unfold pyramid_levels. cbn [zip_with]. rewrite positions_cons.
    rewrite map_app, map_map. cbn [feature fst snd size stride]. rewrite Hf.
    cbn [height width]. by rewrite anchors_for_shape_cells.
Qed.

(** The outputs of a head on all the levels. *)
Lemma eval_head_calls (A : nat) (name : string) (body : tensor)
    (rows_at : value → nat * nat * nat → list R) (features : list tensor) :
  (∀ h w c px,
     eval (layer_sem conv2d resize custom) backbone (FeatureMap h w c px) body
     = Rows (map (rows_at (FeatureMap h w c px)) (cells h w A))) →
  Forall (λ f, ∃ h w c px, value_of f = FeatureMap h w c px) features →
  ∀ sizes strides : list R,
    length sizes = length features → length strides = length features →
    concat_rows (map value_of (map (Call name body) features))
    = Some (map (λ tp : level * (nat * nat * nat),
                   rows_at (value_of (feature tp.1)) tp.2)
              (positions shape_of A (pyramid_levels features sizes strides))).
Proof.
  intros Hbody.
  induction 1 as [|f features (h & w & c & px & Hf) _ IH]; intros sizes strides Hs Ht.
  - by destruct sizes, strides.
  - destruct sizes as [|s sizes], strides as [|t strides]; try discriminate.
    injection Hs as Hs. injection Ht as Ht.
    cbn [map eval]. rewrite Hf, Hbody. cbn [concat_rows].
    rewrite (IH sizes strides Hs Ht). cbn [fmap option_fmap option_map].
    f_equal. unfold pyramid_levels. cbn [zip_with]. rewrite positions_cons.
    rewrite map_app, map_map. cbn [feature fst snd]. rewrite Hf.
    reflexivity.
Qed.

Lemma apply_model_ok (model : Model) (body : tensor) (features : list tensor)
    (n : string) :
  outputs model = [body] →
  __apply_model model features n
  = Ok (Apply (Concatenate 1 n) (map (Call (name model) body) features)).
Proof.
  intros Hout. unfold __apply_model.
  rewrite (mapM_result_Ok _ (Call (name model) body)); [reflexivity|].
  intros f. unfold call. by rewrite Hout.
Qed.

End alignment.

Section level_order.
Import keras retinanet semantics.

Lemma StronglySorted_lookup_le {T} (R : relation T) `{!Reflexive R}
    (l : list T) (i j : nat) (a b : T) :
  StronglySorted R l → (i ≤ j)%nat → l !! i = Some a → l !! j = Some b → R a b.
Proof.
  intros Hl. revert i j. induction Hl as [|x l Hl IH Hx]; intros i j Hij Ha Hb.
  - done.
  - destruct i as [|i], j as [|j]; simpl in *; try lia.
    + injection Ha as <-. injection Hb as <-. reflexivity.
    + injection Ha as <-. rewrite Forall_forall in Hx.
      apply Hx. by eapply list_elem_of_lookup_2.
    + apply (IH i j); [lia|done|done].
Qed.

Lemma positions_fst {T} (shape : T → nat * nat) (A : nat) (levels : list T)
    (tp : T * (nat * nat * nat)) :
  tp ∈ positions shape A levels → tp.1 ∈ levels.
Proof.
  induction levels as [|t levels IH]; simpl; [by intros ?%elem_of_nil|].
  rewrite elem_of_app. intros [Hin|Hin].
  - apply list_elem_of_fmap in Hin as (p & -> & _). simpl. apply list_elem_of_here.
  - apply list_elem_of_further. by apply IH.
Qed.

(** The positions keep the order of the levels. *)
Lemma positions_sorted {T} (R : relation T) `{!Reflexive R}
    (shape : T → nat * nat) (A : nat) (levels : list T) :
  StronglySorted R levels →
  StronglySorted (λ a b : T * (nat * nat * nat), R a.1 b.1) (positions shape A levels).
Proof.
  induction 1 as [|t levels Hl IH Ht]; simpl; [constructor|].
  apply StronglySorted_app_2; [| |exact IH].
  - intros x1 x2 Hx1 Hx2.
    apply list_elem_of_fmap in Hx1 as (p & -> & _). simpl.
    rewrite Forall_forall in Ht. by apply Ht, (positions_fst shape A).
  - induction (cells _ _ A) as [|p ps IHp]; simpl; [constructor|].
    constructor; [exact IHp|]. apply Forall_forall.
    intros x Hx. apply list_elem_of_fmap in Hx as (q & -> & _). simpl. reflexivity.
Qed.

Lemma pyramid_levels_Forall (P : R → Prop) (features : list tensor)
    (sizes strides : list R) :
  Forall P strides →
  Forall (λ t, P (stride t)) (pyramid_levels features sizes strides).
Proof.
  intros HP. revert features sizes.
  induction HP as [|t strides Ht HP IH]; intros features sizes.
  - destruct features, sizes; constructor.
  - destruct features as [|f features], sizes as [|s sizes]; try constructor.
    + exact Ht.
    + apply IH.
Qed.

(** Levels listed with increasing strides stay so when they are paired with
    the features and the sizes. *)
Lemma pyramid_levels_sorted (features : list tensor) (sizes strides : list R) :
  StronglySorted Rle strides →
  StronglySorted (λ t t', (stride t <= stride t')%R)
    (pyramid_levels features sizes strides).
Proof.
  intros Hs. revert features sizes.
  induction Hs as [|t strides Hs IH Ht]; intros features sizes.
  - destruct features, sizes; constructor.
  - destruct features as [|f features], sizes as [|s sizes]; try constructor.
    + apply IH.
    + by apply pyramid_levels_Forall.
Qed.

End level_order.

(** ** C4 *)

(** C4. For feature tensors that evaluate to feature maps, with as many
    sizes and strides as features and [num_anchors] the number of (ratio,
    scale) pairs: [__build_anchors] and the two calls of [__apply_model]
    succeed, and the anchors, the classification output and the regression
    output are the rows over one and the same list of positions, level by
    level in the order of the features and row-major within a level. The
    row at a position (level, row, column, anchor) is, respectively, the
    anchor of that level centered on that cell, the scores and the
    regression values that the heads compute at that cell of the feature
    map of that level. When the strides are listed in increasing order, the
    strides of the positions increase along the rows (finest level first). *)
Theorem anchors_aligned_with_predictions
    (conv2d : string → nat → nat → keras.padding →
              nat → nat → nat → (nat → nat → nat → R) → nat → nat → nat → R)
    (resize : nat → nat → nat → (nat → nat → nat → R) →
              nat → nat → nat → nat → nat → R)
    (custom : keras.layer → list semantics.value → semantics.value)
    (backbone : string → bool → nat → semantics.value → semantics.value)
    (input : semantics.value)
    (features : list keras.tensor) (sizes strides ratios scales : list R)
    (num_classes num_anchors : nat)
    (pyramid_feature_size classification_feature_size regression_feature_size : nat)
    (prior_probability : R) :
  let value :=
    semantics.eval (semantics.layer_sem conv2d resize custom) backbone input in
  let levels := retinanet.pyramid_levels features sizes strides in
  let shape := λ t : retinanet.level,
    (semantics.height (value (retinanet.feature t)),
     semantics.width (value (retinanet.feature t))) in
  let positions := semantics.positions shape num_anchors levels in
  Forall (λ f, ∃ h w c px, value f = semantics.FeatureMap h w c px) features →
  length sizes = length features →
  length strides = length features →
  (0 < num_classes)%nat →
  num_anchors = (length ratios * length scales)%nat →
  ∃ anchors classification regression : keras.tensor,
    retinanet.__build_anchors features sizes strides ratios scales = Ok anchors
    ∧ retinanet.__apply_model
        (retinanet.default_classification_model num_classes num_anchors
           pyramid_feature_size classification_feature_size prior_probability
           "classification_submodel")
        features "classification" = Ok classification
    ∧ retinanet.__apply_model
        (retinanet.default_regression_model num_anchors
           pyramid_feature_size regression_feature_size "regression_submodel")
        features "regression" = Ok regression
    ∧ value anchors
      = semantics.Rows
          (map (λ tp : retinanet.level * (nat * nat * nat),
                  layers.anchor_at (retinanet.size tp.1) (retinanet.stride tp.1)
                    ratios scales tp.2)
             positions)
    ∧ value classification
      = semantics.Rows
          (map (λ tp : retinanet.level * (nat * nat * nat),
                  semantics.classification_scores conv2d resize custom backbone
                    num_classes pyramid_feature_size classification_feature_size
                    (value (retinanet.feature tp.1)) tp.2)
             positions)
    ∧ value regression
      = semantics.Rows
          (map (λ tp : retinanet.level * (nat * nat * nat),
                  semantics.regression_deltas conv2d resize custom backbone
                    pyramid_feature_size regression_feature_size
                    (value (retinanet.feature tp.1)) tp.2)
             positions)
    ∧ (StronglySorted Rle strides →
       ∀ (i j : nat) (ti tj : retinanet.level * (nat * nat * nat)),
         (i ≤ j)%nat → positions !! i = Some ti → positions !! j = Some tj →
         (retinanet.stride ti.1 <= retinanet.stride tj.1)%R).
Proof.
  intros value levels shape positions Hfm Hs Ht HK ->.
  set (cls := retinanet.default_classification_model _ _ _ _ _ _).
  set (reg := retinanet.default_regression_model _ _ _ _).
  assert (Hcls : ∃ body, keras.outputs cls = [body]) by (eexists; reflexivity).
  assert (Hreg : ∃ body, keras.outputs reg = [body]) by (eexists; reflexivity).
  destruct Hcls as [cbody Hcls], Hreg as [rbody Hreg].
  eexists _, _, _.
  split; [by apply build_anchors_ok|].
  split; [by apply apply_model_ok|].
  split; [by apply apply_model_ok|].
  split; [|split; [|split]].
  - subst positions shape levels value.
    cbn [semantics.eval semantics.layer_sem]. by rewrite eval_anchors_of.
  - subst positions shape levels value.
    cbn [semantics.eval semantics.layer_sem].
    rewrite (eval_head_calls conv2d resize custom backbone input
               (length ratios * length scales) (keras.name cls) cbody
               (semantics.classification_scores conv2d resize custom backbone
                  num_classes pyramid_feature_size classification_feature_size)
               features) with (sizes := sizes) (strides := strides);
      [reflexivity| |done|done|done].
    intros h w c px.
    pose proof (eval_classification_model conv2d resize custom backbone
                  num_classes (length ratios * length scales) pyramid_feature_size
                  classification_feature_size prior_probability
                  "classification_submodel" h w c px HK) as Heval.
    fold cls in Heval. rewrite Hcls in Heval. cbn [map] in Heval.
    injection Heval as ->. reflexivity.
  - subst positions shape levels value.
    cbn [semantics.eval semantics.layer_sem].
    rewrite (eval_head_calls conv2d resize custom backbone input
               (length ratios * length scales) (keras.name reg) rbody
               (semantics.regression_deltas conv2d resize custom backbone
                  pyramid_feature_size regression_feature_size)
               features) with (sizes := sizes) (strides := strides);
      [reflexivity| |done|done|done].
    intros h w c px.
    pose proof (eval_regression_model conv2d resize custom backbone
                  (length ratios * length scales) pyramid_feature_size
                  regression_feature_size "regression_submodel" h w c px) as Heval.
    fold reg in Heval. rewrite Hreg in Heval. cbn [map] in Heval.
    injection Heval as ->. reflexivity.
  - intros Hsorted i j ti tj Hij Hi Hj.
    assert (Hlevel : Reflexive (λ t t' : retinanet.level,
                        (retinanet.stride t <= retinanet.stride t')%R))
      by (intros t; apply Rle_refl).
    assert (Hposition : Reflexive (λ a b : retinanet.level * (nat * nat * nat),
                        (retinanet.stride a.1 <= retinanet.stride b.1)%R))
      by (intros a; apply Rle_refl).
    apply (StronglySorted_lookup_le
             (λ a b : retinanet.level * (nat * nat * nat),
                (retinanet.stride a.1 <= retinanet.stride b.1)%R)
             positions i j ti tj); [|done|done|done].
    apply (positions_sorted
             (λ t t' : retinanet.level,
                (retinanet.stride t <= retinanet.stride t')%R)).
    by apply pyramid_levels_sorted.
Qed.

Lemma anchors_aligned_with_predictions_witness :
  let input := semantics.FeatureMap 1 1 1 (λ _ _ _, 0%R) in
  let features := [keras.Input []; keras.Input []] in
  ∃ anchors classification regression : keras.tensor,
    retinanet.__build_anchors features [32; 64]%R [8; 16]%R [1]%R [1]%R = Ok anchors
    ∧ retinanet.__apply_model
        (retinanet.default_classification_model 1 1 256 256 0.01
           "classification_submodel")
        features "classification" = Ok classification
    ∧ retinanet.__apply_model
        (retinanet.default_regression_model 1 256 256 "regression_submodel")
        features "regression" = Ok regression.
Proof.
  intros input features.
  destruct (anchors_aligned_with_predictions
              (λ _ _ _ _ _ _ _ _ _ _ _, 0%R) (λ _ _ _ _ _ _ _ _ _, 0%R)
              (λ _ _, semantics.Invalid) (λ _ _ _ v, v) input
              features [32; 64]%R [8; 16]%R [1]%R [1]%R 1 1 256 256 256 0.01)
    as (anchors & classification & regression & Ha & Hc & Hr & _).
  - repeat constructor; by exists 1%nat, 1%nat, 1%nat, (λ _ _ _, 0%R).
  - reflexivity.
  - reflexivity.
  - lia.
  - reflexivity.
  - by exists anchors, classification, regression.
Defined.

(** ** The marker loop of the JPEG branch ends *)

Section jpeg.
Import pybytes image.

Lemma read_while_progress (p : Z → bool) (rest b b' rest' : list byte) :
  read_while p b rest = Ok (b', rest') →
  (∃ c', b' = [c'] ∧ p (ord1 c') = false)
  ∧ (length rest' ≤ length rest)%nat
  ∧ (∀ c, b = [c] → p (ord1 c) = true → (length rest' < length rest)%nat).
Proof.
  revert b. induction rest as [|x rest IH]; intros b.
  - destruct b as [|c [|]]; cbn; try done.
    destruct (p (ord1 c)) eqn:Hp; [done|].
    intros Heq. injection Heq as <- <-.
    split; [by exists c|]. split; [done|]. intros c' [= <-]. congruence.
  - destruct b as [|c [|]]; cbn; try done.
    destruct (p (ord1 c)) eqn:Hp.
    + intros Hrec. apply IH in Hrec as (Hb' & Hle & _).
      split; [done|]. split; simpl; [lia|]. intros; lia.
    + intros Heq. injection Heq as <- <-.
      split; [by exists c|]. split; [done|]. intros c' [= <-]. congruence.
Qed.

Lemma read_int_length (n : Z) (rest b rest' : list byte) :
  read_int n rest = Ok (b, rest') → (length rest' ≤ length rest)%nat.
Proof.
  unfold read_int, read.
  destruct (n <? -1); [done|]. destruct (n =? -1).
  - intros [= <- <-]. simpl. lia.
  - intros [= <- <-]. rewrite length_drop. lia.
Qed.

(** Once the fuel exceeds the number of bytes left, more fuel changes
    nothing: the bound of [jpeg_size] is never reached. *)
Lemma jpeg_scan_fuel (fuel1 fuel2 : nat) (b rest : list byte) :
  (length rest < fuel1)%nat → (length rest < fuel2)%nat →
  jpeg_scan fuel1 b rest = jpeg_scan fuel2 b rest.
Proof.
  revert fuel2 b rest.
  induction fuel1 as [|fuel1 IH]; intros fuel2 b rest H1 H2; [lia|].
  destruct fuel2 as [|fuel2]; [lia|]. simpl.
  destruct b as [|c [|]]; try done. cbn.
  destruct (ord1 c =? 218); [done|].
  destruct (read_while _ [c] rest) as [[b1 r1]|] eqn:Hw1; cbn; [|done].
  destruct (read_while _ b1 r1) as [[b2 r2]|] eqn:Hw2; cbn; [|done].
  destruct (ord b2) as [c2|]; cbn; [|done].
  destruct ((192 <=? c2) && (c2 <=? 195)); [done|].
  destruct (unpack1 _ _ _ _) as [n|]; cbn; [|done].
  destruct (read_int _ _) as [[skipped r4]|] eqn:Hr; cbn; [|done].
  apply read_while_progress in Hw1 as ((c1 & -> & Hc1) & Hle1 & _).
  apply read_while_progress in Hw2 as (_ & _ & Hlt2).
  apply negb_false_iff in Hc1. specialize (Hlt2 c1 eq_refl Hc1).
  apply read_int_length in Hr. unfold read in Hr. cbn in Hr.
  rewrite length_drop in Hr.
  apply IH; unfold read; cbn; rewrite length_drop; lia.
Qed.

End jpeg.

(** * Further properties of the code *)

(** ** [get_image_size]: the other formats *)

Section image_formats.
Import pybytes image.

Lemma ord1_range (c : byte) : 0 ≤ ord1 c < 256.
Proof. unfold ord1. pose proof (Byte.to_N_bounded c). lia. Qed.

Lemma le_uint_range (bs : list byte) : 0 ≤ le_uint bs < 256 ^ Z.of_nat (length bs).
Proof.
  induction bs as [|b bs IH]; simpl le_uint; [simpl; lia|].
  pose proof (ord1_range b).
  replace (Z.of_nat (length (b :: bs))) with (Z.succ (Z.of_nat (length bs)))
    by (simpl; lia).
  rewrite Z.pow_succ_r by lia. lia.
Qed.

Lemma uint_range (o : byte_order) (bs : list byte) :
  0 ≤ uint o bs < 256 ^ Z.of_nat (length bs).
Proof.
  destruct o; simpl; [apply le_uint_range|].
  rewrite <- length_rev. apply le_uint_range.
Qed.

Lemma take_take_le (n m : nat) (l : list byte) :
  (n ≤ m)%nat → take n (take m l) = take n l.
Proof. intros. rewrite take_take. f_equal. lia. Qed.

Lemma slice_0 (n : nat) (l : list byte) : slice 0 n l = take n l.
Proof. unfold slice. simpl. f_equal. lia. Qed.

(** The two integers that [unpack2] reads from a slice of the first 26
    bytes. *)
Lemma unpack2_slice (signed : bool) (o : byte_order) (n a : nat) (contents : list byte) :
  (a + 2 * n ≤ 26)%nat → (a + 2 * n ≤ length contents)%nat →
  unpack2 signed o n (slice a (a + 2 * n) (take 26 contents))
  = Ok ((if signed then sint o else uint o) (slice a (a + n) contents),
        (if signed then sint o else uint o) (slice (a + n) (a + 2 * n) contents)).
Proof.
  intros H26 Hlen. rewrite slice_take by lia.
  rewrite unpack2_ok by (rewrite length_slice; lia).
  rewrite take_slice, drop_slice by lia. reflexivity.
Qed.

(** X1. A file of at least 10 bytes that starts with 'GIF87a' or 'GIF89a'
    has the size given by the two little-endian 16-bit fields at the bytes
    6..9, so both numbers are between 0 and 65535. *)
Theorem get_image_size_gif (contents : list byte) :
  (10 ≤ length contents)%nat →
  take 6 contents = GIF87a ∨ take 6 contents = GIF89a →
  get_image_size contents
    = Ok (uint LittleEndian (slice 6 8 contents), uint LittleEndian (slice 8 10 contents))
  ∧ 0 ≤ uint LittleEndian (slice 6 8 contents) < 65536
  ∧ 0 ≤ uint LittleEndian (slice 8 10 contents) < 65536.
Proof.
  intros Hlen Hmagic. split.
  - unfold get_image_size, read. cbn [fst].
    rewrite (bool_decide_eq_true_2 (10 ≤ length contents)%nat) by done.
    rewrite !slice_0, !take_take_le by lia.
    replace (bool_decide (take 6 contents = GIF87a) || bool_decide (take 6 contents = GIF89a))
      with true.
    2:{ symmetry. apply orb_true_iff.
        destruct Hmagic; [left|right]; by apply bool_decide_eq_true_2. }
    cbn [andb].
    rewrite (unpack2_slice false LittleEndian 2 6) by lia. reflexivity.
  - pose proof (uint_range LittleEndian (slice 6 8 contents)) as H1.
    pose proof (uint_range LittleEndian (slice 8 10 contents)) as H2.
    rewrite length_slice in H1 by lia. rewrite length_slice in H2 by lia.
    exact (conj H1 H2).
Qed.

Lemma get_image_size_gif_witness :
  get_image_size (GIF89a ++ [x40; x01; xf0; x00]%byte) = Ok (320, 240).
Proof.
  apply (get_image_size_gif (GIF89a ++ [x40; x01; xf0; x00]%byte)).
  - unfold GIF89a. simpl. lia.
  - right. reflexivity.
Defined.

End image_formats.

Section png.
Import pybytes image.

(** A file that starts with the PNG signature is taken by the first PNG
    branch when it has 24 bytes and 'IHDR' at the bytes 12..15, and by the
    second one when it has 16 bytes. *)
Lemma png_dispatch (contents : list byte) :
  take 8 contents = PNG_magic →
  get_image_size contents =
    if bool_decide (24 ≤ length contents)%nat && bool_decide (slice 12 16 contents = IHDR)
    then '(w, h) ← unpack2 false BigEndian 4 (slice 16 24 (take 26 contents)); Ok (w, h)
    else if bool_decide (16 ≤ length contents)%nat
    then '(w, h) ← unpack2 false BigEndian 4 (slice 8 16 (take 26 contents)); Ok (w, h)
    else Raise (UnknownImageFormat (Text sorry)).
Proof.
  intros Hmagic.
  assert (H6 : take 6 contents = take 6 PNG_magic)
    by (by rewrite <- Hmagic, take_take_le by lia).
  assert (H4 : take 4 contents = take 4 PNG_magic)
    by (by rewrite <- Hmagic, take_take_le by lia).
  assert (H2 : take 2 contents = take 2 PNG_magic)
    by (by rewrite <- Hmagic, take_take_le by lia).
  assert (Hlen : (8 ≤ length contents)%nat).
  { apply (f_equal length) in Hmagic. rewrite length_take in Hmagic.
    change (length PNG_magic) with 8%nat in Hmagic. lia. }
  unfold get_image_size, read, startswith. cbn [fst].
  rewrite !slice_0. simpl length.
  rewrite !take_take_le by lia. rewrite (slice_take 12 16 26) by lia.
  rewrite H6, H4, H2, Hmagic.
  replace (bool_decide (take 6 PNG_magic = GIF87a)) with false by reflexivity.
  replace (bool_decide (take 6 PNG_magic = GIF89a)) with false by reflexivity.
  replace (bool_decide (PNG_magic = PNG_magic)) with true by reflexivity.
  replace (bool_decide (take 2 PNG_magic = JPEG_magic)) with false by reflexivity.
  replace (bool_decide (take 2 PNG_magic = BM)) with false by reflexivity.
  replace (bool_decide (take 4 PNG_magic = TIFF_II)) with false by reflexivity.
  replace (bool_decide (take 4 PNG_magic = TIFF_MM)) with false by reflexivity.
  rewrite !andb_false_r, !andb_true_r. cbn [orb andb].
  destruct (bool_decide (24 ≤ length contents)%nat && bool_decide (slice 12 16 contents = IHDR));
    [reflexivity|].
  destruct (bool_decide (16 ≤ length contents)%nat); [reflexivity|].
  rewrite (bool_decide_eq_true_2 (2 ≤ length contents)%nat) by lia.
  unfold ico_size, read_at. cbn [Z.to_nat drop].
  change (Z.to_nat 0) with 0%nat. rewrite drop_0, H2. reflexivity.
Qed.

(** X2. A file of at least 24 bytes with the PNG signature and 'IHDR' at
    the bytes 12..15 has the size given by the two big-endian 32-bit fields
    at the bytes 16..23; both numbers are between 0 and 2^32 - 1. *)
Theorem get_image_size_png (contents : list byte) :
  (24 ≤ length contents)%nat →
  take 8 contents = PNG_magic →
  slice 12 16 contents = IHDR →
  get_image_size contents
    = Ok (uint BigEndian (slice 16 20 contents), uint BigEndian (slice 20 24 contents))
  ∧ 0 ≤ uint BigEndian (slice 16 20 contents) < 2 ^ 32
  ∧ 0 ≤ uint BigEndian (slice 20 24 contents) < 2 ^ 32.
Proof.
  intros Hlen Hmagic Hihdr. split.
  - rewrite png_dispatch by done.
    rewrite !bool_decide_eq_true_2 by done. cbn [andb].
    rewrite (unpack2_slice false BigEndian 4 16) by lia. reflexivity.
  - pose proof (uint_range BigEndian (slice 16 20 contents)) as H1.
    pose proof (uint_range BigEndian (slice 20 24 contents)) as H2.
    rewrite length_slice in H1 by lia. rewrite length_slice in H2 by lia.
    exact (conj H1 H2).
Qed.

Lemma get_image_size_png_witness :
  get_image_size
    (PNG_magic ++ [x00; x00; x00; x0d]%byte ++ IHDR
       ++ [x00; x00; x02; x80; x00; x00; x01; xe0]%byte)
  = Ok (640, 480).
Proof.
  apply (get_image_size_png
           (PNG_magic ++ [x00; x00; x00; x0d]%byte ++ IHDR
              ++ [x00; x00; x02; x80; x00; x00; x01; xe0]%byte)).
  - unfold PNG_magic, IHDR. simpl. lia.
  - reflexivity.
  - reflexivity.
Defined.

(** X3. A file of at least 16 bytes with the PNG signature that is too
    short for the first PNG branch, or has no 'IHDR' at the bytes 12..15, is
    read as an older PNG: the size is given by the two big-endian 32-bit
    fields at the bytes 8..15. *)
Theorem get_image_size_old_png (contents : list byte) :
  (16 ≤ length contents)%nat →
  take 8 contents = PNG_magic →
  (length contents < 24)%nat ∨ slice 12 16 contents ≠ IHDR →
  get_image_size contents
  = Ok (uint BigEndian (slice 8 12 contents), uint BigEndian (slice 12 16 contents)).
Proof.
  intros Hlen Hmagic Hno. rewrite png_dispatch by done.
  replace (bool_decide (24 ≤ length contents)%nat && bool_decide (slice 12 16 contents = IHDR))
    with false.
  2:{ symmetry. apply andb_false_iff.
      destruct Hno; [left|right]; apply bool_decide_eq_false_2; [lia|done]. }
  rewrite bool_decide_eq_true_2 by done.
  rewrite (unpack2_slice false BigEndian 4 8) by lia. reflexivity.
Qed.

Lemma get_image_size_old_png_witness :
  get_image_size (PNG_magic ++ [x00; x00; x02; x80; x00; x00; x01; xe0]%byte)
  = Ok (640, 480).
Proof.
  apply (get_image_size_old_png
           (PNG_magic ++ [x00; x00; x02; x80; x00; x00; x01; xe0]%byte)).
  - unfold PNG_magic. simpl. lia.
  - reflexivity.
  - left. unfold PNG_magic. simpl. lia.
Defined.

End png.

Section bmp_os2.
Import pybytes image.

(** X4. A bitmap file (it starts with 'BM' and holds the 26 bytes read)
    whose DIB header size is 12 has the size given by the two unsigned
    little-endian 16-bit fields at the bytes 18..21: the height is not
    read as a signed number here, and both numbers are below 65536. *)
Theorem get_image_size_bmp_core (contents : list byte) :
  take 2 contents = BM →
  (26 ≤ length contents)%nat →
  dib_header_size contents = 12 →
  get_image_size contents
    = Ok (uint LittleEndian (slice 18 20 contents), uint LittleEndian (slice 20 22 contents))
  ∧ 0 ≤ uint LittleEndian (slice 18 20 contents) < 65536
  ∧ 0 ≤ uint LittleEndian (slice 20 22 contents) < 65536.
Proof.
  intros Hbm Hlen Hh. split.
  - destruct contents as [|b0 [|b1 rest]]; try discriminate Hbm.
    injection Hbm as -> ->.
    rewrite bm_dispatch. rewrite bool_decide_eq_true_2 by exact Hlen.
    destruct (dib_fields_take ("B"%byte :: "M"%byte :: rest)) as (Hs & _ & _).
    unfold bmp_size.
    rewrite (unpack1_ok false LittleEndian 4)
      by (rewrite length_slice; [lia|rewrite length_take; lia]).
    cbn [mbind result_bind].
    fold (dib_header_size (take 26 ("B"%byte :: "M"%byte :: rest))).
    rewrite Hs, Hh. cbn [Z.eqb Pos.eqb].
    rewrite (unpack2_slice false LittleEndian 2 18) by lia. reflexivity.
  - pose proof (uint_range LittleEndian (slice 18 20 contents)) as H1.
    pose proof (uint_range LittleEndian (slice 20 22 contents)) as H2.
    rewrite length_slice in H1 by lia. rewrite length_slice in H2 by lia.
    exact (conj H1 H2).
Qed.

Lemma get_image_size_bmp_core_witness :
  get_image_size
    (bmp_prefix ++ [x0c; x00; x00; x00; x02; x00; xfd; xff; x00; x00; x00; x00]%byte)
  = Ok (2, 65533).
Proof.
  apply (get_image_size_bmp_core
           (bmp_prefix ++ [x0c; x00; x00; x00; x02; x00; xfd; xff; x00; x00; x00; x00]%byte)).
  - reflexivity.
  - unfold bmp_prefix. simpl. lia.
  - reflexivity.
Defined.

End bmp_os2.

(** ** [get_image_size]: the icon branch *)

Section ico.
Import pybytes image.

(** A file that starts with two zero bytes is taken by the icon branch. *)
Lemma ico_dispatch (contents : list byte) :
  take 2 contents = [x00; x00]%byte →
  get_image_size contents = ico_size contents.
Proof.
  intros H0.
  destruct contents as [|b0 [|b1 rest]]; try discriminate H0.
  injection H0 as -> ->.
  unfold get_image_size, read. cbn [fst].
  assert (Hd : take 26 (x00 :: x00 :: rest) = x00 :: x00 :: take 24 rest)
    by reflexivity.
  rewrite Hd.
  unfold GIF87a, GIF89a, TIFF_II, TIFF_MM, PNG_magic, JPEG_magic, BM.
  rewrite !slice_0_cons_ne by discriminate.
  rewrite !startswith_cons_ne by discriminate.
  rewrite !andb_false_r. cbn [orb andb].
  rewrite bool_decide_eq_true_2 by (simpl; lia).
  reflexivity.
Qed.

(** The icon branch after the reserved field has been read as zero. *)
Lemma ico_size_reserved (contents : list byte) :
  take 2 contents = [x00; x00]%byte →
  ico_size contents =
    (format ← unpack1 false LittleEndian 2 (slice 2 4 contents);
     _ ← py_assert (1 =? format) EmptyString;
     num ← unpack1 false LittleEndian 2 (slice 4 6 contents);
     width ← ord (slice 6 7 contents);
     height ← ord (slice 7 8 contents);
     Ok (width, height)).
Proof.
  intros H0. unfold ico_size, read_at.
  change (Z.to_nat 0) with 0%nat. rewrite drop_0, H0. reflexivity.
Qed.

Lemma slice_1 (a : nat) (l : list byte) :
  (a < length l)%nat → ∃ c, slice a (S a) l = [c].
Proof.
  intros Ha. unfold slice. replace (S a - a)%nat with 1%nat by lia.
  destruct (drop a l) as [|c t] eqn:E.
  - apply (f_equal length) in E. rewrite length_drop in E. simpl in E. lia.
  - by exists c.
Qed.

(** X5. A file of at least 8 bytes that starts with the icon header
    (reserved field 0, type field 1, both little-endian 16-bit) has the
    size given by its bytes 6 and 7, each read as one unsigned byte: both
    numbers are between 0 and 255. *)
Theorem get_image_size_ico (contents : list byte) :
  (8 ≤ length contents)%nat →
  take 4 contents = [x00; x00; x01; x00]%byte →
  get_image_size contents
    = Ok (uint LittleEndian (slice 6 7 contents), uint LittleEndian (slice 7 8 contents))
  ∧ 0 ≤ uint LittleEndian (slice 6 7 contents) < 256
  ∧ 0 ≤ uint LittleEndian (slice 7 8 contents) < 256.
Proof.
  intros Hlen H4.
  assert (H2 : take 2 contents = [x00; x00]%byte)
    by (by rewrite <- (take_take_le 2 4), H4 by lia).
  assert (Hf : slice 2 4 contents = [x01; x00]%byte).
  { rewrite <- (slice_take 2 4 4) by lia. by rewrite H4. }
  split.
  - rewrite ico_dispatch, ico_size_reserved by done.
    rewrite Hf.
    change (unpack1 false LittleEndian 2 [x01; x00]%byte) with (Ok (A:=Z) 1).
    rewrite (unpack1_ok false LittleEndian 2 (slice 4 6 contents))
      by (rewrite length_slice; lia).
    destruct (slice_1 6 contents) as [w ->]; [lia|].
    destruct (slice_1 7 contents) as [h ->]; [lia|].
    cbn [mbind result_bind ord uint le_uint py_assert Z.eqb Pos.eqb].
    f_equal. f_equal; lia.
  - pose proof (uint_range LittleEndian (slice 6 7 contents)) as H1.
    pose proof (uint_range LittleEndian (slice 7 8 contents)) as H3.
    rewrite length_slice in H1 by lia. rewrite length_slice in H3 by lia.
    exact (conj H1 H3).
Qed.

Lemma get_image_size_ico_witness :
  get_image_size [x00; x00; x01; x00; x01; x00; x20; x10]%byte = Ok (32, 16).
Proof.
  apply (get_image_size_ico [x00; x00; x01; x00; x01; x00; x20; x10]%byte).
  - simpl. lia.
  - reflexivity.
Defined.

(** X6. A file of at least 4 bytes that starts with two zero bytes and
    whose type field (bytes 2..3, little-endian) is not 1 fails the
    assertion of the icon branch: the caller gets an [AssertionError], not
    an [UnknownImageFormat]. *)
Theorem get_image_size_ico_assertion (contents : list byte) :
  (4 ≤ length contents)%nat →
  take 2 contents = [x00; x00]%byte →
  uint LittleEndian (slice 2 4 contents) ≠ 1 →
  get_image_size contents = Raise (Builtin (AssertionError EmptyString)).
Proof.
  intros Hlen H2 Hf.
  rewrite ico_dispatch, ico_size_reserved by done.
  rewrite (unpack1_ok false LittleEndian 2 (slice 2 4 contents))
    by (rewrite length_slice; lia).
  cbn [mbind result_bind].
  destruct (Z.eqb_spec 1 (uint LittleEndian (slice 2 4 contents))) as [E|_];
    [congruence|reflexivity].
Qed.

Lemma get_image_size_ico_assertion_witness :
  get_image_size [x00; x00; x02; x00; x01; x00; x20; x20]%byte
  = Raise (Builtin (AssertionError EmptyString)).
Proof.
  apply (get_image_size_ico_assertion [x00; x00; x02; x00; x01; x00; x20; x20]%byte).
  - simpl. lia.
  - reflexivity.
  - discriminate.
Defined.

(** X7. A file that starts with the icon header but ends before its byte
    8 makes the icon branch fail with an exception of the library, which is
    not turned into [UnknownImageFormat]: [struct.error] when a 16-bit
    field is cut (fewer than 6 bytes), [TypeError] from [ord] when the
    width or the height byte is missing (6 or 7 bytes). *)
Theorem get_image_size_ico_truncated (contents : list byte) :
  take 2 contents = [x00; x00]%byte →
  (length contents < 8)%nat →
  ((4 ≤ length contents)%nat → slice 2 4 contents = [x01; x00]%byte) →
  get_image_size contents
  = Raise (Builtin (if bool_decide (length contents < 6)%nat
                    then StructError else TypeError)).
Proof.
  intros H2 Hlen Hf.
  rewrite ico_dispatch, ico_size_reserved by done.
  destruct contents as [|b0 [|b1 [|b2 [|b3 rest]]]]; try discriminate H2;
    try reflexivity.
  rewrite Hf by (simpl; lia).
  destruct rest as [|b4 [|b5 [|b6 [|b7 rest]]]]; try reflexivity.
  simpl in Hlen. lia.
Qed.

Lemma get_image_size_ico_truncated_witness :
  get_image_size [x00; x00; x01; x00; x01; x00; x20]%byte
  = Raise (Builtin TypeError).
Proof.
  apply (get_image_size_ico_truncated [x00; x00; x01; x00; x01; x00; x20]%byte).
  - reflexivity.
  - simpl. lia.
  - reflexivity.
Defined.

End ico.

(** ** [get_image_size]: the exceptions it raises *)

Section exceptions.
Import pybytes image.

Lemma ord1_0 (c : byte) : ord1 c = 0 → c = x00.
Proof.
  unfold ord1. intros H.
  assert (E : Byte.to_N c = 0%N) by lia.
  pose proof (Byte.of_to_N c) as Hc. rewrite E in Hc.
  by injection Hc as <-.
Qed.

Lemma jpeg_size_raises (contents : list byte) (e : exception) :
  jpeg_size contents = Raise e → ∃ m, e = UnknownImageFormat m.
Proof.
  unfold jpeg_size, try_except.
  destruct (_ ≫= _) as [wh|e0]; [done|].
  intros [= <-]. destruct e0 as [m|[]]; by eexists.
Qed.

Lemma tiff_size_raises (contents : list byte) (width height : Z) (e : exception) :
  (8 ≤ length contents)%nat →
  tiff_size contents (take 26 contents) width height = Raise e →
  ∃ m, e = UnknownImageFormat m.
Proof.
  intros Hlen. unfold tiff_size.
  rewrite (unpack1_ok false _ 4)
    by (rewrite length_slice; [lia|rewrite length_take; lia]).
  cbn [mbind result_bind]. unfold try_except.
  destruct (_ ≫= _) as [wh|e0]; [done|].
  intros [= <-]. by eexists.
Qed.

Lemma bmp_size_raises (data : list byte) (e : exception) :
  (26 ≤ length data)%nat →
  bmp_size data = Raise e → ∃ m, e = UnknownImageFormat m.
Proof.
  intros Hlen. unfold bmp_size.
  rewrite (unpack1_ok false LittleEndian 4) by (rewrite length_slice; lia).
  cbn [mbind result_bind].
  destruct (_ =? 12).
  - rewrite (unpack2_ok false LittleEndian 2) by (rewrite length_slice; lia). done.
  - destruct (40 <=? _).
    + rewrite (unpack2_ok true LittleEndian 4) by (rewrite length_slice; lia). done.
    + intros [= <-]. by eexists.
Qed.

Lemma ico_size_nonzero (contents : list byte) :
  (2 ≤ length contents)%nat →
  take 2 contents ≠ [x00; x00]%byte →
  ico_size contents = Raise (UnknownImageFormat (Text sorry)).
Proof.
  intros Hlen Hne. unfold ico_size, read_at.
  change (Z.to_nat 0) with 0%nat. rewrite drop_0.
  destruct contents as [|a [|b rest]]; simpl in Hlen; try lia.
  change (take 2 (a :: b :: rest)) with [a; b] in *.
  rewrite (unpack1_ok false LittleEndian 2 [a; b]) by reflexivity.
  cbn [mbind result_bind uint le_uint].
  destruct (Z.eqb_spec 0 (ord1 a + 256 * (ord1 b + 256 * 0))) as [E|_]; [|done].
  pose proof (ord1_range a). pose proof (ord1_range b).
  exfalso. apply Hne. f_equal; [|f_equal]; apply ord1_0; lia.
Qed.

(** X8. On a file that does not start with two zero bytes,
    [get_image_size] either returns a size or raises [UnknownImageFormat]:
    the exceptions of [struct] and [ord] and the unbound names of the JPEG
    and TIFF branches never reach the caller. (Files that start with two
    zero bytes go to the icon branch, which has no such handler.) *)
Theorem get_image_size_raises_unknown_format (contents : list byte) :
  take 2 contents ≠ [x00; x00]%byte →
  (∃ wh, get_image_size contents = Ok wh)
  ∨ (∃ m, get_image_size contents = Raise (UnknownImageFormat m)).
Proof.
  intros Hne.
  assert (Hres : ∀ r : result (Z * Z),
            (∀ e, r = Raise e → ∃ m, e = UnknownImageFormat m) →
            (∃ wh, r = Ok wh) ∨ (∃ m, r = Raise (UnknownImageFormat m))).
  { intros [wh|e] H; [left; by eexists|right].
    destruct (H e eq_refl) as [m ->]. by eexists. }
  unfold get_image_size, read. cbn [fst].
  destruct (bool_decide (10 ≤ length contents)%nat && _) eqn:Hgif.
  { apply andb_true_iff in Hgif as [Hlen%bool_decide_eq_true_1 _].
    rewrite (unpack2_slice false LittleEndian 2 6) by lia. left. by eexists. }
  destruct (bool_decide (24 ≤ length contents)%nat && _ && _) eqn:Hpng.
  { apply andb_true_iff in Hpng as [Hpng _].
    apply andb_true_iff in Hpng as [Hlen%bool_decide_eq_true_1 _].
    rewrite (unpack2_slice false BigEndian 4 16) by lia. left. by eexists. }
  destruct (bool_decide (16 ≤ length contents)%nat && _) eqn:Hold.
  { apply andb_true_iff in Hold as [Hlen%bool_decide_eq_true_1 _].
    rewrite (unpack2_slice false BigEndian 4 8) by lia. left. by eexists. }
  destruct (bool_decide (2 ≤ length contents)%nat && _) eqn:Hjpeg.
  { apply Hres, jpeg_size_raises. }
  destruct (bool_decide (26 ≤ length contents)%nat && _) eqn:Hbmp.
  { apply andb_true_iff in Hbmp as [Hlen%bool_decide_eq_true_1 _].
    apply Hres. intros e. apply bmp_size_raises. rewrite length_take. lia. }
  destruct (bool_decide (8 ≤ length contents)%nat && _) eqn:Htiff.
  { apply andb_true_iff in Htiff as [Hlen%bool_decide_eq_true_1 _].
    apply Hres. intros e. by apply tiff_size_raises. }
  destruct (bool_decide (2 ≤ length contents)%nat) eqn:Hico.
  { apply bool_decide_eq_true_1 in Hico.
    rewrite ico_size_nonzero by done. right. by eexists. }
  right. by eexists.
Qed.

Lemma get_image_size_raises_unknown_format_witness :
  (∃ wh, get_image_size [xff; xd8; xff]%byte = Ok wh)
  ∨ (∃ m, get_image_size [xff; xd8; xff]%byte = Raise (UnknownImageFormat m)).
Proof.
  apply (get_image_size_raises_unknown_format [xff; xd8; xff]%byte).
  discriminate.
Defined.

End exceptions.

(** ** [get_image_size]: the JPEG branch on well-formed segments *)

Section jpeg_segments.
Import pybytes image.

(** A file that starts with the JPEG signature is taken by the JPEG
    branch. *)
Lemma jpeg_dispatch (rest : list byte) :
  get_image_size (JPEG_magic ++ rest) = jpeg_size (JPEG_magic ++ rest).
Proof.
  unfold get_image_size, read. cbn [fst].
  assert (Hd : take 26 (JPEG_magic ++ rest) = xff :: xd8 :: take 24 rest) by reflexivity.
  rewrite Hd.
  unfold GIF87a, GIF89a, PNG_magic.
  rewrite !slice_0_cons_ne by discriminate.
  rewrite !startswith_cons_ne by discriminate.
  rewrite !andb_false_r. cbn [orb andb].
  replace (startswith _ JPEG_magic) with true by reflexivity.
  rewrite bool_decide_eq_true_2 by (simpl; lia).
  reflexivity.
Qed.

Lemma read_while_stop (p : Z → bool) (c : byte) (rest : list byte) :
  p (ord1 c) = false → read_while p [c] rest = Ok ([c], rest).
Proof. intros H. destruct rest; cbn; by rewrite H. Qed.

Lemma read_while_step (p : Z → bool) (c x : byte) (rest : list byte) :
  p (ord1 c) = true → read_while p [c] (x :: rest) = read_while p [x] rest.
Proof. intros H. cbn. by rewrite H. Qed.

(** The two inner loops on a marker: the fill byte is passed and the
    marker byte is the one looked at. *)
Lemma read_marker (m : byte) (rest : list byte) :
  ord1 m ≠ 255 →
  ('(b1, r1) ← read_while (fun c => negb (c =? 0xFF)) [xff] (m :: rest);
   read_while (fun c => c =? 0xFF) b1 r1)
  = Ok ([m], rest).
Proof.
  intros Hm.
  rewrite (read_while_stop _ xff) by reflexivity. cbn [mbind result_bind].
  rewrite (read_while_step _ xff) by reflexivity.
  apply read_while_stop. by apply Z.eqb_neq.
Qed.

Lemma jpeg_scan_marker (fuel : nat) (m : byte) (rest : list byte) :
  ord1 m ≠ 255 →
  jpeg_scan (S fuel) [xff] (m :: rest) =
    if (0xC0 <=? ord1 m) && (ord1 m <=? 0xC3) then
      '(h, w) ← unpack2 false BigEndian 2 (take 4 (drop 3 rest));
      Ok (Some (w, h))
    else
      n ← unpack1 false BigEndian 2 (take 2 rest);
      '(_, r4) ← read_int (n - 2) (drop 2 rest);
      jpeg_scan fuel (take 1 r4) (drop 1 r4).
Proof.
  intros Hm. pose proof (read_marker m rest Hm) as H.
  cbn [jpeg_scan ord mbind result_bind].
  change (ord1 xff =? 218) with false. cbv iota.
  destruct (read_while _ [xff] (m :: rest)) as [[b1 r1]|e]; [|done].
  cbn [mbind result_bind] in *. rewrite H. reflexivity.
Qed.

(** One round of the marker loop on a plain segment: the segment is
    skipped. *)
Lemma jpeg_scan_segment (fuel : nat) (s : segment) (tail : list byte) :
  plain_segment s →
  jpeg_scan (S fuel) [xff] (drop 1 (segment_bytes s) ++ tail)
  = jpeg_scan fuel (take 1 tail) (drop 1 tail).
Proof.
  intros (Hff & Hsof & Hlen).
  destruct s as [m hi lo p]. cbn [marker length_hi length_lo payload] in *.
  unfold segment_bytes. cbn [marker length_hi length_lo payload drop app].
  rewrite jpeg_scan_marker by done.
  replace ((192 <=? ord1 m) && (ord1 m <=? 195)) with false.
  2:{ symmetry. apply andb_false_iff.
      destruct (Z.leb_spec 192 (ord1 m)); [right|by left].
      apply Z.leb_gt. lia. }
  change (take 2 (hi :: lo :: p ++ tail)) with [hi; lo].
  change (drop 2 (hi :: lo :: p ++ tail)) with (p ++ tail).
  rewrite (unpack1_ok false BigEndian 2 [hi; lo]) by reflexivity.
  cbn [mbind result_bind uint rev app le_uint].
  replace (ord1 lo + 256 * (ord1 hi + 256 * 0) - 2) with (Z.of_nat (length p)) by lia.
  unfold read_int.
  destruct (Z.ltb_spec (Z.of_nat (length p)) (-1)); [lia|].
  destruct (Z.eqb_spec (Z.of_nat (length p)) (-1)); [lia|].
  cbn [mbind result_bind]. unfold read. cbn [fst snd].
  by rewrite Nat2Z.id, drop_app_length.
Qed.

(** The marker loop skips a sequence of plain segments. *)
Lemma jpeg_scan_segments (segs : list segment) (tail : list byte) (fuel : nat) :
  Forall plain_segment segs →
  (length (flat_map segment_bytes segs ++ tail) < fuel)%nat →
  jpeg_scan fuel (take 1 (flat_map segment_bytes segs ++ tail))
                 (drop 1 (flat_map segment_bytes segs ++ tail))
  = jpeg_scan fuel (take 1 tail) (drop 1 tail).
Proof.
  intros Hsegs. revert fuel.
  induction Hsegs as [|s segs Hs _ IH]; intros fuel Hfuel; [done|].
  destruct fuel as [|fuel]; [lia|].
  cbn [flat_map] in *. rewrite <- app_assoc in *.
  change (take 1 (segment_bytes s ++ flat_map segment_bytes segs ++ tail))
    with [xff].
  change (drop 1 (segment_bytes s ++ flat_map segment_bytes segs ++ tail))
    with (drop 1 (segment_bytes s) ++ flat_map segment_bytes segs ++ tail).
  rewrite jpeg_scan_segment by done.
  rewrite length_app in Hfuel.
  assert (Hseg : (4 ≤ length (segment_bytes s))%nat) by (simpl; lia).
  rewrite IH by lia.
  rewrite length_app in Hfuel.
  apply jpeg_scan_fuel; rewrite length_drop; lia.
Qed.

(** X9. A JPEG file made of the signature, any number of plain segments
    and then a frame header with a marker in [0xC0..0xC3] has the size
    given by the frame header: the height and the width are its two
    big-endian 16-bit fields after the precision byte, whatever follows. *)
Theorem get_image_size_jpeg (segs : list segment)
    (sof l1 l2 precision h1 h2 w1 w2 : byte) (rest : list byte) :
  Forall plain_segment segs →
  0xC0 ≤ ord1 sof ≤ 0xC3 →
  get_image_size
    (JPEG_magic ++ flat_map segment_bytes segs
       ++ frame_header sof l1 l2 precision h1 h2 w1 w2 ++ rest)
  = Ok (256 * ord1 w1 + ord1 w2, 256 * ord1 h1 + ord1 h2).
Proof.
  intros Hsegs Hsof.
  rewrite jpeg_dispatch. unfold jpeg_size, read.
  change (JPEG_magic ++ ?l) with (xff :: xd8 :: l).
  cbn [snd fst drop]. rewrite drop_0.
  set (tail := frame_header sof l1 l2 precision h1 h2 w1 w2 ++ rest).
  rewrite jpeg_scan_segments by (done || simpl; lia).
  unfold tail, frame_header. cbn [app take drop].
  rewrite jpeg_scan_marker by lia.
  replace ((192 <=? ord1 sof) && (ord1 sof <=? 195)) with true
    by (symmetry; apply andb_true_iff; split; apply Z.leb_le; lia).
  change (take 4 (drop 3 (l1 :: l2 :: precision :: h1 :: h2 :: w1 :: w2 :: rest)))
    with [h1; h2; w1; w2].
  rewrite (unpack2_ok false BigEndian 2 [h1; h2; w1; w2]) by reflexivity.
  cbn [mbind result_bind try_except uint rev app le_uint take drop].
  f_equal. f_equal; lia.
Qed.

Lemma get_image_size_jpeg_witness :
  get_image_size
    (JPEG_magic ++ flat_map segment_bytes [app0]
       ++ frame_header xc0 x00 x11 x08 x01 xe0 x02 x80 ++ [x03; x01]%byte)
  = Ok (640, 480).
Proof.
  apply (get_image_size_jpeg [app0] xc0 x00 x11 x08 x01 xe0 x02 x80 [x03; x01]%byte).
  - constructor; [|constructor].
    unfold plain_segment, app0; cbn. lia.
  - cbn. lia.
Defined.

(** X10. A JPEG file made of the signature and plain segments only (no
    frame header with a marker in [0xC0..0xC3] before the end of the file)
    leaves the marker loop without a size; reading the unbound width is
    reported as [UnknownImageFormat] with the class name of the error. *)
Theorem get_image_size_jpeg_no_frame (segs : list segment) :
  Forall plain_segment segs →
  get_image_size (JPEG_magic ++ flat_map segment_bytes segs)
  = Raise (UnknownImageFormat (Text ("UnboundLocalError" +:+ msg))).
Proof.
  intros Hsegs.
  rewrite jpeg_dispatch. unfold jpeg_size, read.
  change (JPEG_magic ++ ?l) with (xff :: xd8 :: l).
  cbn [snd fst drop]. rewrite drop_0.
  rewrite <- (app_nil_r (flat_map segment_bytes segs)).
  rewrite jpeg_scan_segments by (done || simpl; lia).
  reflexivity.
Qed.

Lemma get_image_size_jpeg_no_frame_witness :
  get_image_size (JPEG_magic ++ flat_map segment_bytes [app0; app0])
  = Raise (UnknownImageFormat (Text ("UnboundLocalError" +:+ msg))).
Proof.
  apply (get_image_size_jpeg_no_frame [app0; app0]).
  repeat constructor; unfold app0; cbn; lia.
Defined.

End jpeg_segments.

(** ** [get_image_size]: the TIFF branch *)

Section tiff.
Import pybytes image.

(** A file of at least 8 bytes with one of the TIFF signatures is taken by
    the TIFF branch. *)
Lemma tiff_dispatch (contents : list byte) :
  (8 ≤ length contents)%nat →
  take 4 contents = TIFF_II ∨ take 4 contents = TIFF_MM →
  get_image_size contents = tiff_size contents (take 26 contents) (-1) (-1).
Proof.
  intros Hlen Hmagic.
  assert (H6 : take 6 contents ≠ GIF87a ∧ take 6 contents ≠ GIF89a
               ∧ take 8 contents ≠ PNG_magic ∧ take 2 contents ≠ JPEG_magic
               ∧ take 2 contents ≠ BM).
  { do 4 (destruct contents as [|? contents]; [simpl in Hlen; lia|]).
    destruct Hmagic as [H|H]; injection H as -> -> -> ->; repeat split; discriminate. }
  destruct H6 as (Hg1 & Hg2 & Hp & Hj & Hb).
  unfold get_image_size, read, startswith. cbn [fst].
  rewrite !slice_0. simpl length.
  rewrite !take_take_le by lia.
  rewrite (bool_decide_eq_false_2 _ Hg1), (bool_decide_eq_false_2 _ Hg2),
    (bool_decide_eq_false_2 _ Hp), (bool_decide_eq_false_2 _ Hj),
    (bool_decide_eq_false_2 _ Hb).
  rewrite !andb_false_r. cbn [orb andb].
  rewrite (bool_decide_eq_true_2 (8 ≤ length contents)%nat) by done.
  replace (bool_decide (take 4 contents = TIFF_II) || bool_decide (take 4 contents = TIFF_MM))
    with true; [reflexivity|].
  symmetry. apply orb_true_iff.
  destruct Hmagic; [left|right]; by apply bool_decide_eq_true_2.
Qed.

Lemma length_read_at (contents : list byte) (pos : Z) (n : nat) :
  0 ≤ pos → pos + Z.of_nat n ≤ Z.of_nat (length contents) →
  length (read_at contents pos n) = n.
Proof.
  intros H0 H. unfold read_at. rewrite length_take, length_drop. lia.
Qed.

Lemma read_at_short (contents : list byte) (pos : Z) (n : nat) :
  (0 < n)%nat → 0 ≤ pos → Z.of_nat (length contents) < pos + Z.of_nat n →
  length (read_at contents pos n) ≠ n.
Proof.
  intros Hn H0 H. unfold read_at. rewrite length_take, length_drop. lia.
Qed.

Lemma ifd_offset_range (contents : list byte) : 0 ≤ ifd_offset contents.
Proof. unfold ifd_offset. apply uint_range. Qed.

(** The TIFF branch after the directory offset has been read. *)
Lemma tiff_size_offset (contents : list byte) :
  (8 ≤ length contents)%nat →
  tiff_size contents (take 26 contents) (-1) (-1) =
    try_except
      (ifdEntryCount ← unpack1 false LittleEndian 2
                         (read_at contents (ifd_offset contents) 2);
       tiff_entries contents LittleEndian (ifd_offset contents)
         (seq 0 (Z.to_nat ifdEntryCount)) (-1) (-1))
      (fun e => UnknownImageFormat (str_of e)).
Proof.
  intros Hlen. unfold tiff_size, bytes_eq_str.
  rewrite (unpack1_ok false LittleEndian 4)
    by (rewrite length_slice; [lia|rewrite length_take; lia]).
  cbn [mbind result_bind]. rewrite slice_take by lia. reflexivity.
Qed.

(** The entries whose tag is neither 256 nor 257 are passed over. *)
Lemma tiff_entries_skip (contents : list byte) (idxs later : list nat) :
  (∀ i, i ∈ idxs →
     entry_offset contents i + 2 ≤ Z.of_nat (length contents)
     ∧ ifd_tag contents i ≠ 256 ∧ ifd_tag contents i ≠ 257) →
  tiff_entries contents LittleEndian (ifd_offset contents) (idxs ++ later) (-1) (-1)
  = tiff_entries contents LittleEndian (ifd_offset contents) later (-1) (-1).
Proof.
  induction idxs as [|i idxs IH]; intros H; [done|].
  destruct (H i) as (Hin & H256 & H257); [by left|].
  pose proof (ifd_offset_range contents) as Hoff.
  cbn [app tiff_entries]. fold (entry_offset contents i).
  rewrite (unpack1_ok false LittleEndian 2 (read_at contents (entry_offset contents i) 2))
    by (apply length_read_at; unfold entry_offset in *; lia).
  cbn [mbind result_bind]. fold (ifd_tag contents i).
  destruct (Z.eqb_spec (ifd_tag contents i) 256); [done|].
  destruct (Z.eqb_spec (ifd_tag contents i) 257); [done|].
  cbn [orb mbind result_bind andb Z.ltb Z.compare Pos.compare Pos.compare_cont CompOpp].
  apply IH. intros j Hj. apply H. by right.
Qed.

(** X11. A TIFF file (either signature, at least 8 bytes) whose directory
    lies within the file and holds no entry with the tag 256 or 257
    raises nothing: the function returns the size (-1, -1). *)
Theorem get_image_size_tiff_no_size (contents : list byte) :
  (8 ≤ length contents)%nat →
  take 4 contents = TIFF_II ∨ take 4 contents = TIFF_MM →
  ifd_offset contents + 2 + 12 * ifd_entry_count contents ≤ Z.of_nat (length contents) →
  (∀ i : nat, Z.of_nat i < ifd_entry_count contents →
     ifd_tag contents i ≠ 256 ∧ ifd_tag contents i ≠ 257) →
  get_image_size contents = Ok (-1, -1).
Proof.
  intros Hlen Hmagic Hdir Htags.
  pose proof (ifd_offset_range contents) as Hoff.
  assert (Hcount : 0 ≤ ifd_entry_count contents) by apply uint_range.
  rewrite tiff_dispatch, tiff_size_offset by done.
  rewrite (unpack1_ok false LittleEndian 2) by (apply length_read_at; lia).
  cbn [mbind result_bind]. fold (ifd_entry_count contents).
  rewrite <- (app_nil_r (seq _ _)), tiff_entries_skip; [reflexivity|].
  intros i Hi%elem_of_seq. unfold entry_offset.
  split; [lia|]. apply Htags. lia.
Qed.

Lemma get_image_size_tiff_no_size_witness :
  get_image_size tiff_no_size = Ok (-1, -1).
Proof.
  apply (get_image_size_tiff_no_size tiff_no_size).
  - unfold tiff_no_size, TIFF_II. simpl. lia.
  - left. reflexivity.
  - vm_compute. discriminate.
  - intros i Hi.
    change (ifd_entry_count tiff_no_size) with 1 in Hi.
    assert (i = 0%nat) as -> by lia.
    split; vm_compute; discriminate.
Defined.

(** X12. The directory offset is read in little-endian order for both
    signatures. A TIFF file whose bytes 4..7, read so, point to fewer than
    two bytes before the end of the file raises [UnknownImageFormat] with
    the text of the [struct] error: this is the case of a big-endian file
    holding the usual offset 8. *)
Theorem get_image_size_tiff_offset_past_end (contents : list byte) :
  (8 ≤ length contents)%nat →
  take 4 contents = TIFF_II ∨ take 4 contents = TIFF_MM →
  Z.of_nat (length contents) < ifd_offset contents + 2 →
  get_image_size contents = Raise (UnknownImageFormat (StrOf StructError)).
Proof.
  intros Hlen Hmagic Hpast.
  pose proof (ifd_offset_range contents) as Hoff.
  rewrite tiff_dispatch, tiff_size_offset by done.
  unfold unpack1. rewrite bool_decide_eq_false_2; [reflexivity|].
  apply read_at_short; lia.
Qed.

Lemma get_image_size_tiff_offset_past_end_witness :
  get_image_size tiff_big_endian = Raise (UnknownImageFormat (StrOf StructError)).
Proof.
  apply (get_image_size_tiff_offset_past_end tiff_big_endian).
  - unfold tiff_big_endian, TIFF_MM. simpl. lia.
  - right. reflexivity.
  - vm_compute. reflexivity.
Defined.

(** One entry with the tag 256 or 257 and the type SHORT or LONG: its
    value is read unsigned from the first bytes of the value field. *)
Lemma tiff_entry_value (contents : list byte) (i : nat) :
  entry_offset contents i + 12 ≤ Z.of_nat (length contents) →
  ifd_type contents i = 3 ∨ ifd_type contents i = 4 →
  (type ← unpack1 false LittleEndian 2 (read_at contents (entry_offset contents i + 2) 2);
   match tiffTypes !! type with
   | None => Raise (UnknownImageFormat (Text ("Unkown TIFF field type:" +:+ pretty type)))
   | Some (typeSize, typeChar) =>
     unpack_int LittleEndian typeChar (read_at contents (entry_offset contents i + 8) typeSize)
   end)
  = Ok (ifd_value contents i)
  ∧ 0 ≤ ifd_value contents i.
Proof.
  intros Hin Htype.
  pose proof (ifd_offset_range contents) as Hoff.
  assert (Heo : 0 ≤ entry_offset contents i) by (unfold entry_offset; lia).
  split; [|apply uint_range].
  rewrite (unpack1_ok false LittleEndian 2) by (apply length_read_at; lia).
  cbn [mbind result_bind]. fold (ifd_type contents i). unfold ifd_value.
  destruct Htype as [-> | ->].
  - change (tiffTypes !! 3) with (Some (2%nat, fmt_H)).
    cbn [unpack_int Z.eqb Pos.eqb].
    by rewrite (unpack1_ok false LittleEndian 2) by (apply length_read_at; lia).
  - change (tiffTypes !! 4) with (Some (4%nat, fmt_L)).
    cbn [unpack_int Z.eqb Pos.eqb].
    by rewrite (unpack1_ok false LittleEndian 4) by (apply length_read_at; lia).
Qed.

(** X13. A TIFF file whose directory lies within the file and holds, after
    [k] entries with other tags, an entry with the tag 256 (width) followed
    by one with the tag 257 (height), both of type SHORT or LONG, has the
    size given by the values of these two entries, read little-endian and
    unsigned. *)
Theorem get_image_size_tiff (contents : list byte) (k : nat) :
  (8 ≤ length contents)%nat →
  take 4 contents = TIFF_II ∨ take 4 contents = TIFF_MM →
  ifd_offset contents + 2 + 12 * ifd_entry_count contents ≤ Z.of_nat (length contents) →
  Z.of_nat k + 2 ≤ ifd_entry_count contents →
  (∀ i : nat, (i < k)%nat → ifd_tag contents i ≠ 256 ∧ ifd_tag contents i ≠ 257) →
  ifd_tag contents k = 256 → ifd_tag contents (S k) = 257 →
  ifd_type contents k = 3 ∨ ifd_type contents k = 4 →
  ifd_type contents (S k) = 3 ∨ ifd_type contents (S k) = 4 →
  get_image_size contents = Ok (ifd_value contents k, ifd_value contents (S k)).
Proof.
  intros Hlen Hmagic Hdir Hk Hskip Hw Hh Htw Hth.
  pose proof (ifd_offset_range contents) as Hoff.
  rewrite tiff_dispatch, tiff_size_offset by done.
  rewrite (unpack1_ok false LittleEndian 2) by (apply length_read_at; lia).
  cbn [mbind result_bind]. fold (ifd_entry_count contents).
  set (n := Z.to_nat (ifd_entry_count contents)).
  assert (Hn : n = (k + (2 + (n - k - 2)))%nat) by lia.
  rewrite Hn, seq_app, tiff_entries_skip.
  2:{ intros i Hi%elem_of_seq. unfold entry_offset. split; [lia|]. apply Hskip. lia. }
  cbn [seq Nat.add].
  assert (Hek : entry_offset contents k + 12 ≤ Z.of_nat (length contents))
    by (unfold entry_offset; lia).
  assert (HeSk : entry_offset contents (S k) + 12 ≤ Z.of_nat (length contents))
    by (unfold entry_offset; lia).
  assert (Heo : 0 ≤ entry_offset contents k) by (unfold entry_offset; lia).
  assert (HeoS : 0 ≤ entry_offset contents (S k)) by (unfold entry_offset; lia).
  destruct (tiff_entry_value contents k Hek Htw) as [Evk Hvk].
  destruct (tiff_entry_value contents (S k) HeSk Hth) as [EvSk HvSk].
  cbn [tiff_entries]. fold (entry_offset contents k).
  rewrite (unpack1_ok false LittleEndian 2 (read_at contents (entry_offset contents k) 2))
    by (apply length_read_at; lia).
  cbn [mbind result_bind]. fold (ifd_tag contents k). rewrite Hw.
  cbn [Z.eqb Pos.eqb orb].
  cbn [mbind result_bind] in Evk.
  destruct (unpack1 false LittleEndian 2 (read_at contents (entry_offset contents k + 2) 2))
    as [tk|?]; [|done].
  cbn [mbind result_bind] in Evk |- *.
  destruct (tiffTypes !! tk) as [[sz ch]|]; [|done].
  rewrite Evk. cbn [mbind result_bind].
  replace (-1 <? -1) with false by reflexivity. rewrite andb_false_r.
  fold (entry_offset contents (S k)).
  rewrite (unpack1_ok false LittleEndian 2 (read_at contents (entry_offset contents (S k)) 2))
    by (apply length_read_at; lia).
  cbn [mbind result_bind]. fold (ifd_tag contents (S k)). rewrite Hh.
  cbn [Z.eqb Pos.eqb orb].
  destruct (unpack1 false LittleEndian 2
              (read_at contents (entry_offset contents (S k) + 2) 2))
    as [tSk|?]; [|done].
  cbn [mbind result_bind] in EvSk |- *.
  destruct (tiffTypes !! tSk) as [[sz' ch']|]; [|done].
  rewrite EvSk. cbn [mbind result_bind].
  replace (-1 <? ifd_value contents k) with true by (symmetry; apply Z.ltb_lt; lia).
  replace (-1 <? ifd_value contents (S k)) with true by (symmetry; apply Z.ltb_lt; lia).
  reflexivity.
Qed.

Lemma get_image_size_tiff_witness :
  get_image_size tiff_640x480 = Ok (640, 480).
Proof.
  apply (get_image_size_tiff tiff_640x480 1).
  - unfold tiff_640x480, TIFF_II. simpl. lia.
  - left. reflexivity.
  - vm_compute. discriminate.
  - vm_compute. discriminate.
  - intros i Hi. assert (i = 0%nat) as -> by lia.
    split; vm_compute; discriminate.
  - reflexivity.
  - reflexivity.
  - left. reflexivity.
  - right. reflexivity.
Defined.

End tiff.

(** ** The feature pyramid *)

Section pyramid.
Import keras retinanet semantics.

Variable conv2d : string → nat → nat → padding →
                  nat → nat → nat → (nat → nat → nat → R) → nat → nat → nat → R.
Variable resize : nat → nat → nat → (nat → nat → nat → R) →
                  nat → nat → nat → nat → nat → R.
Variable custom : layer → list value → value.
Variable backbone : string → bool → nat → value → value.
Variable input : value.

Local Abbreviation value_of := (eval (layer_sem conv2d resize custom) backbone input).

Lemma conv_out_dim_same_2 (k n : nat) : conv_out_dim same k 2 n = ((n + 1) / 2)%nat.
Proof. unfold conv_out_dim. f_equal. lia. Qed.

Lemma build_pyramid_features_values (C3 C4 C5 : tensor) (feature_size : nat)
    (h3 w3 c3 h4 w4 c4 h5 w5 c5 : nat) (px3 px4 px5 : nat → nat → nat → R) :
  value_of C3 = FeatureMap h3 w3 c3 px3 →
  value_of C4 = FeatureMap h4 w4 c4 px4 →
  value_of C5 = FeatureMap h5 w5 c5 px5 →
  ∃ p3 p4 p5 p6 p7,
    map value_of (feature_list (__build_pyramid_features C3 C4 C5 feature_size))
    = [ FeatureMap h3 w3 feature_size p3;
        FeatureMap h4 w4 feature_size p4;
        FeatureMap h5 w5 feature_size p5;
        FeatureMap ((h5 + 1) / 2) ((w5 + 1) / 2) feature_size p6;
        FeatureMap (((h5 + 1) / 2 + 1) / 2) (((w5 + 1) / 2 + 1) / 2) feature_size p7 ].
Proof.
  intros H3 H4 H5.
  unfold __build_pyramid_features, feature_list.
  cbn [map eval]. rewrite H3, H4, H5.
  cbn [layer_sem]. rewrite !conv_out_dim_same_1, !conv_out_dim_same_2.
  rewrite !bool_decide_eq_true_2 by done.
  cbn [layer_sem]. rewrite !conv_out_dim_same_1.
  by eexists _, _, _, _, _.
Qed.

End pyramid.

(** X14. Whatever the sizes of the three backbone feature maps C3, C4, C5
    are (they need not halve from one to the next), the five pyramid
    features are feature maps with [feature_size] channels: P3, P4, P5 have
    the height and width of C3, C4, C5, P6 has those of C5 halved and
    rounded up, P7 those of P6 halved and rounded up. No shape is rejected,
    for every trained convolution and every interpolation. *)
Theorem build_pyramid_features_shapes
    (conv2d : string → nat → nat → keras.padding →
              nat → nat → nat → (nat → nat → nat → R) → nat → nat → nat → R)
    (resize : nat → nat → nat → (nat → nat → nat → R) →
              nat → nat → nat → nat → nat → R)
    (custom : keras.layer → list semantics.value → semantics.value)
    (backbone : string → bool → nat → semantics.value → semantics.value)
    (input : semantics.value)
    (C3 C4 C5 : keras.tensor) (feature_size : nat)
    (h3 w3 c3 h4 w4 c4 h5 w5 c5 : nat) (px3 px4 px5 : nat → nat → nat → R) :
  let value := semantics.eval (semantics.layer_sem conv2d resize custom) backbone input in
  value C3 = semantics.FeatureMap h3 w3 c3 px3 →
  value C4 = semantics.FeatureMap h4 w4 c4 px4 →
  value C5 = semantics.FeatureMap h5 w5 c5 px5 →
  ∃ p3 p4 p5 p6 p7,
    map value
      (retinanet.feature_list (retinanet.__build_pyramid_features C3 C4 C5 feature_size))
    = [ semantics.FeatureMap h3 w3 feature_size p3;
        semantics.FeatureMap h4 w4 feature_size p4;
        semantics.FeatureMap h5 w5 feature_size p5;
        semantics.FeatureMap ((h5 + 1) / 2) ((w5 + 1) / 2) feature_size p6;
        semantics.FeatureMap (((h5 + 1) / 2 + 1) / 2) (((w5 + 1) / 2 + 1) / 2)
          feature_size p7 ].
Proof. intros value. apply build_pyramid_features_values. Qed.

Lemma build_pyramid_features_shapes_witness :
  let value :=
    semantics.eval
      (semantics.layer_sem (λ _ _ _ _ _ _ _ _ _ _ _, 0%R) (λ _ _ _ _ _ _ _ _ _, 0%R)
         (λ _ _, semantics.Invalid))
      (λ _ _ i _, match i with
                  | 2 => semantics.FeatureMap 75 100 512 (λ _ _ _, 0%R)
                  | 3 => semantics.FeatureMap 38 50 1024 (λ _ _ _, 0%R)
                  | _ => semantics.FeatureMap 19 25 2048 (λ _ _ _, 0%R)
                  end%nat)
      semantics.Invalid in
  ∃ p3 p4 p5 p6 p7,
    map value (retinanet.training_features retinanet.example_config)
    = [ semantics.FeatureMap 75 100 256 p3;
        semantics.FeatureMap 38 50 256 p4;
        semantics.FeatureMap 19 25 256 p5;
        semantics.FeatureMap 10 13 256 p6;
        semantics.FeatureMap 5 7 256 p7 ].
Proof.
  intros value.
  exact (build_pyramid_features_shapes _ _ _ _ _
           (keras.Backbone "resnet50" false 2 (keras.Input [None; None; Some 3%nat]))
           (keras.Backbone "resnet50" false 3 (keras.Input [None; None; Some 3%nat]))
           (keras.Backbone "resnet50" false 4 (keras.Input [None; None; Some 3%nat]))
           256 75 100 512 38 50 1024 19 25 2048 _ _ _ eq_refl eq_refl eq_refl).
Defined.

(** ** [RetinaNet]: from the configuration to the inference model *)

Section retinanet_config.
Import keras retinanet.

Lemma find_layer_Backbone (n b : string) (freeze : bool) (k : nat) (x : tensor) :
  b ≠ n → find_layer n x = None → find_layer n (Backbone b freeze k x) = None.
Proof. intros Hb Hx. cbn. by rewrite bool_decide_eq_false_2. Qed.

(** The layers P3, ..., P7 of the training model are the five pyramid
    features, when no layer of the backbone side carries one of these
    names. *)
Lemma training_model_layers (model : Model) (C3 C4 C5 : tensor) (feature_size : nat)
    (body_c body_r : tensor) (n : string) (i : nat) :
  let features := feature_list (__build_pyramid_features C3 C4 C5 feature_size) in
  outputs model =
    [ Apply (Concatenate 1 "classification")
        (map (Call "classification_submodel" body_c) features);
      Apply (Concatenate 1 "regression")
        (map (Call "regression_submodel" body_r) features) ] →
  ["P3"; "P4"; "P5"; "P6"; "P7"] !! i = Some n →
  find_layer n C3 = None → find_layer n C4 = None → find_layer n C5 = None →
  Some <$> get_layer_output model n = Ok (features !! i).
Proof.
  intros features Hout Hn H3 H4 H5.
  unfold get_layer_output. rewrite Hout.
  unfold features, feature_list, __build_pyramid_features.
  do 5 (destruct i as [|i]; [injection Hn as <-; cbn; rewrite ?H3, ?H4, ?H5; cbn;
                             rewrite ?H3, ?H4, ?H5; cbn; reflexivity|]).
  done.
Qed.

Lemma RetinaNetTrain_ok (config : RetinaNetConfig) :
  ∃ body_c body_r,
    outputs (default_classification_model
               (num_classes config) (get_num_anchors config)
               (pyramid_feature_size config) (classification_feature_size config)
               0.01 "classification_submodel") = [body_c]
    ∧ outputs (default_regression_model
                 (get_num_anchors config)
                 (pyramid_feature_size config) (regression_feature_size config)
                 "regression_submodel") = [body_r]
    ∧ RetinaNetTrain config
    = Ok {| inputs := input_tensor config;
            outputs :=
              [ Apply (Concatenate 1 "classification")
                  (map (Call "classification_submodel" body_c)
                     (training_features config));
                Apply (Concatenate 1 "regression")
                  (map (Call "regression_submodel" body_r)
                     (training_features config)) ];
            name := config_name config |}.
Proof. eexists _, _. split; [reflexivity|]. split; reflexivity. Qed.

Lemma get_layer_output_fmap (model : Model) (n : string) (t : tensor) :
  Some <$> get_layer_output model n = Ok (Some t) → get_layer_output model n = Ok t.
Proof. destruct (get_layer_output model n); cbn; congruence. Qed.

Lemma training_features_found (config : RetinaNetConfig) (model : Model) :
  RetinaNetTrain config = Ok model →
  backbone_name config ∉ ["P3"; "P4"; "P5"; "P6"; "P7"] →
  (∀ n, n ∈ ["P3"; "P4"; "P5"; "P6"; "P7"] → find_layer n (input_tensor config) = None) →
  mapM (get_layer_output model) ["P3"; "P4"; "P5"; "P6"; "P7"]
  = Ok (training_features config).
Proof.
  intros Htm Hb Hin.
  destruct (RetinaNetTrain_ok config) as (body_c & body_r & _ & _ & Hok).
  rewrite Hok in Htm. injection Htm as <-.
  set (model := {| inputs := _ |}).
  assert (Hn : ∀ i n, ["P3"; "P4"; "P5"; "P6"; "P7"] !! i = Some n →
            Some <$> get_layer_output model n = Ok (training_features config !! i)).
  { intros i n Hi. unfold training_features.
    assert (Hne : backbone_name config ≠ n).
    { intros E. apply Hb. rewrite E. by eapply list_elem_of_lookup_2. }
    assert (Hno : find_layer n (input_tensor config) = None).
    { apply Hin. by eapply list_elem_of_lookup_2. }
    eapply (training_model_layers model); [reflexivity|done|..];
      by apply find_layer_Backbone. }
  cbn [mapM].
  rewrite (get_layer_output_fmap model "P3" _ (Hn 0%nat _ eq_refl)).
  rewrite (get_layer_output_fmap model "P4" _ (Hn 1%nat _ eq_refl)).
  rewrite (get_layer_output_fmap model "P5" _ (Hn 2%nat _ eq_refl)).
  rewrite (get_layer_output_fmap model "P6" _ (Hn 3%nat _ eq_refl)).
  rewrite (get_layer_output_fmap model "P7" _ (Hn 4%nat _ eq_refl)).
  reflexivity.
Qed.

End retinanet_config.

(** X15. For a configuration whose backbone is not named like a pyramid
    layer and whose input tensor holds no such layer, [RetinaNet] builds
    the training model, finds in it by name the very five pyramid features
    that the two heads are applied to, and generates the anchors from
    them: it returns the inference model when the configuration lists five
    anchor sizes and five anchor strides, and otherwise fails with the
    assertion message of the first list that has another length. *)
Theorem RetinaNet_from_config (config : retinanet.RetinaNetConfig) :
  retinanet.backbone_name config ∉ ["P3"; "P4"; "P5"; "P6"; "P7"] →
  (∀ n, n ∈ ["P3"; "P4"; "P5"; "P6"; "P7"] →
        keras.find_layer n (retinanet.input_tensor config) = None) →
  ∃ (training_model : keras.Model) (classification regression : keras.tensor),
    retinanet.RetinaNetTrain config = Ok training_model
    ∧ keras.outputs training_model = [classification; regression]
    ∧ retinanet.__apply_model
        (retinanet.default_classification_model
           (retinanet.num_classes config) (retinanet.get_num_anchors config)
           (retinanet.pyramid_feature_size config)
           (retinanet.classification_feature_size config)
           0.01 "classification_submodel")
        (retinanet.training_features config) "classification" = Ok classification
    ∧ retinanet.__apply_model
        (retinanet.default_regression_model
           (retinanet.get_num_anchors config)
           (retinanet.pyramid_feature_size config)
           (retinanet.regression_feature_size config)
           "regression_submodel")
        (retinanet.training_features config) "regression" = Ok regression
    ∧ mapM (keras.get_layer_output training_model) ["P3"; "P4"; "P5"; "P6"; "P7"]
      = Ok (retinanet.training_features config)
    ∧ retinanet.RetinaNet config =
        if bool_decide (length (retinanet.anchor_sizes config) = 5%nat) then
          if bool_decide (length (retinanet.anchor_strides config) = 5%nat) then
            Ok {| keras.inputs := retinanet.input_tensor config;
                  keras.outputs :=
                    [ retinanet.inference_output training_model config
                        (retinanet.training_features config)
                        classification regression ];
                  keras.name := retinanet.config_name config |}
          else Raise (Builtin (AssertionError "Must have 5 anchor strides"))
        else Raise (Builtin (AssertionError "Must have 5 anchor sizes")).
Proof.
  intros Hb Hin.
  destruct (retinanet.RetinaNetTrain config) as [tm|e] eqn:Htm; [|done].
  pose proof (training_features_found config tm Htm Hb Hin) as Hf.
  assert (Htm' := Htm). injection Htm' as Hdef.
  eexists tm, _, _.
  split; [reflexivity|]. split; [by rewrite <- Hdef|].
  split; [reflexivity|]. split; [reflexivity|]. split; [exact Hf|].
  unfold retinanet.RetinaNet. rewrite Htm. cbn [mbind result_bind].
  destruct (decide (length (retinanet.anchor_sizes config) = 5%nat)) as [Hs|Hs];
    [destruct (decide (length (retinanet.anchor_strides config) = 5%nat)) as [Ht|Ht]|].
  - rewrite !bool_decide_eq_true_2 by done.
    erewrite RetinaNetFromTrain_ok; [|exact Hf|by rewrite <- Hdef|done|done].
    by rewrite <- Hdef.
  - rewrite bool_decide_eq_true_2, bool_decide_eq_false_2 by done.
    unfold retinanet.RetinaNetFromTrain. rewrite Hf. cbn [mbind result_bind].
    rewrite <- Hdef. cbn [keras.outputs].
    unfold retinanet.__build_anchors, py_assert.
    rewrite (bool_decide_eq_true_2
               (length (retinanet.training_features config)
                = length (retinanet.anchor_sizes config)))
      by (rewrite Hs; reflexivity).
    rewrite bool_decide_eq_false_2; [reflexivity|].
    intros E. apply Ht. rewrite <- E. reflexivity.
  - rewrite bool_decide_eq_false_2 by done.
    unfold retinanet.RetinaNetFromTrain. rewrite Hf. cbn [mbind result_bind].
    rewrite <- Hdef. cbn [keras.outputs].
    unfold retinanet.__build_anchors, py_assert.
    rewrite (bool_decide_eq_false_2
               (length (retinanet.training_features config)
                = length (retinanet.anchor_sizes config))); [reflexivity|].
    intros E. apply Hs. rewrite <- E. reflexivity.
Qed.

Lemma RetinaNet_from_config_witness :
  ∃ prediction_model,
    retinanet.RetinaNet retinanet.example_config = Ok prediction_model.
Proof.
  destruct (RetinaNet_from_config retinanet.example_config)
    as (tm & c & r & _ & _ & _ & _ & _ & H).
  - intros Hin. repeat (apply elem_of_cons in Hin as [Hin|Hin]; [discriminate Hin|]).
    by apply elem_of_nil in Hin.
  - intros n _. reflexivity.
  - eexists. exact H.
Defined.

(** ** The outputs of the training model *)

Section training_outputs.
Import keras retinanet semantics.

Variable conv2d : string → nat → nat → padding →
                  nat → nat → nat → (nat → nat → nat → R) → nat → nat → nat → R.
Variable resize : nat → nat → nat → (nat → nat → nat → R) →
                  nat → nat → nat → nat → nat → R.
Variable custom : layer → list value → value.
Variable backbone : string → bool → nat → value → value.
Variable input : value.

Local Abbreviation value_of := (eval (layer_sem conv2d resize custom) backbone input).

(** A head that gives [h * w * A] rows on a feature map of [h] rows and [w]
    columns gives, over a list of levels, the rows of all the levels. *)
Lemma concat_rows_calls (Q : list R → Prop) (A : nat) (n : string) (body : tensor)
    (values : list value) :
  (∀ h w c px, ∃ rows,
     eval (layer_sem conv2d resize custom) backbone (FeatureMap h w c px) body = Rows rows
     ∧ length rows = (h * (w * A))%nat ∧ Forall Q rows) →
  Forall (λ v, ∃ h w c px, v = FeatureMap h w c px) values →
  ∀ features, map value_of features = values →
  ∃ rows,
    concat_rows (map value_of (map (Call n body) features)) = Some rows
    ∧ length rows = (sum_list (map (λ v, height v * width v) values) * A)%nat
    ∧ Forall Q rows.
Proof.
  intros Hbody Hvalues.
  induction Hvalues as [|v values (h & w & c & px & ->) _ IH]; intros features Hf.
  - destruct features; [|done]. by exists [].
  - destruct features as [|f features]; [done|]. injection Hf as Hf Hfs.
    destruct (IH features Hfs) as (rows & Hrows & Hlen & HQ).
    destruct (Hbody h w c px) as (rows0 & Hrows0 & Hlen0 & HQ0).
    exists (rows0 ++ rows). cbn [map eval]. rewrite Hf, Hrows0. cbn [concat_rows].
    rewrite Hrows. cbn [fmap option_fmap option_map].
    split; [done|]. split; [|by apply Forall_app].
    rewrite length_app, Hlen0, Hlen. cbn [map sum_list sum_list_with height width]. unfold Datatypes.id. ring.
Qed.

Lemma training_outputs_values (config : RetinaNetConfig)
    (h3 w3 c3 h4 w4 c4 h5 w5 c5 : nat) (px3 px4 px5 : nat → nat → nat → R) :
  (0 < num_classes config)%nat →
  let C k := Backbone (backbone_name config) (freeze_backbone config) k
               (input_tensor config) in
  value_of (C 2%nat) = FeatureMap h3 w3 c3 px3 →
  value_of (C 3%nat) = FeatureMap h4 w4 c4 px4 →
  value_of (C 4%nat) = FeatureMap h5 w5 c5 px5 →
  let h6 := ((h5 + 1) / 2)%nat in
  let w6 := ((w5 + 1) / 2)%nat in
  let h7 := ((h6 + 1) / 2)%nat in
  let w7 := ((w6 + 1) / 2)%nat in
  let cells := (h3 * w3 + h4 * w4 + h5 * w5 + h6 * w6 + h7 * w7)%nat in
  ∃ training_model scores deltas,
    RetinaNetTrain config = Ok training_model
    ∧ map value_of (outputs training_model) = [Rows scores; Rows deltas]
    ∧ length scores = (cells * get_num_anchors config)%nat
    ∧ length deltas = (cells * get_num_anchors config)%nat
    ∧ Forall (λ row, length row = num_classes config
                     ∧ Forall (λ s, (0 <= s <= 1)%R) row) scores
    ∧ Forall (λ row, length row = 4%nat) deltas.
Proof.
  intros HK C H3 H4 H5 h6 w6 h7 w7 cells.
  destruct (build_pyramid_features_values conv2d resize custom backbone input
              (C 2%nat) (C 3%nat) (C 4%nat) (pyramid_feature_size config)
              h3 w3 c3 h4 w4 c4 h5 w5 c5 px3 px4 px5 H3 H4 H5)
    as (p3 & p4 & p5 & p6 & p7 & Hfeatures).
  fold (training_features config) in Hfeatures.
  fold h6 w6 h7 w7 in Hfeatures.
  set (values := [FeatureMap h3 w3 _ p3; _; _; _; _]) in Hfeatures.
  assert (Hvalues : Forall (λ v, ∃ h w c px, v = FeatureMap h w c px) values)
    by (repeat constructor; by eexists _, _, _, _).
  assert (Hcells : sum_list (map (λ v, height v * width v)%nat values) = cells)
    by (unfold values, cells; cbn [map sum_list sum_list_with height width];
        unfold Datatypes.id; lia).
  destruct (RetinaNetTrain_ok config) as (body_c & body_r & Hc & Hr & Hok).
  destruct (concat_rows_calls
              (λ row, length row = num_classes config ∧ Forall (λ s, (0 <= s <= 1)%R) row)
              (get_num_anchors config) "classification_submodel" body_c values)
    with (features := training_features config)
    as (scores & Hscores & Hls & HQs); [|done|done|].
  { intros h w c px.
    pose proof (eval_classification_model conv2d resize custom backbone
                  (num_classes config) (get_num_anchors config)
                  (pyramid_feature_size config) (classification_feature_size config)
                  0.01 "classification_submodel" h w c px HK) as Heval.
    rewrite Hc in Heval. cbn [map] in Heval. injection Heval as ->.
    eexists. split; [reflexivity|]. split; [apply length_head_rows|].
    apply head_rows_Forall. intros y x f. apply sigmoid_range. }
  destruct (concat_rows_calls (λ row, length row = 4%nat)
              (get_num_anchors config) "regression_submodel" body_r values)
    with (features := training_features config)
    as (deltas & Hdeltas & Hld & HQd); [|done|done|].
  { intros h w c px.
    pose proof (eval_regression_model conv2d resize custom backbone
                  (get_num_anchors config)
                  (pyramid_feature_size config) (regression_feature_size config)
                  "regression_submodel" h w c px) as Heval.
    rewrite Hr in Heval. cbn [map] in Heval. injection Heval as ->.
    eexists. split; [reflexivity|]. split; [apply length_head_rows|].
    eapply Forall_impl; [apply (head_rows_Forall (λ _, True)); done|].
    by intros row [? _]. }
  eexists _, scores, deltas. split; [exact Hok|].
  cbn [outputs map eval layer_sem]. rewrite Hscores, Hdeltas.
  rewrite <- Hcells. done.
Qed.

End training_outputs.

(** X16. When the backbone turns the input into feature maps C3, C4, C5
    of [h3 x w3], [h4 x w4] and [h5 x w5] cells, the training model built
    from the configuration (with at least one class) returns two matrices
    with one row for each anchor of each cell of the five pyramid levels,
    that is [(h3 w3 + h4 w4 + h5 w5 + h6 w6 + h7 w7) * num_anchors] rows
    where level 6 halves the sides of C5 rounding up and level 7 those of
    level 6: rows of [num_classes] scores in [0, 1] and rows of 4
    regression values. *)
Theorem RetinaNetTrain_output_rows
    (conv2d : string → nat → nat → keras.padding →
              nat → nat → nat → (nat → nat → nat → R) → nat → nat → nat → R)
    (resize : nat → nat → nat → (nat → nat → nat → R) →
              nat → nat → nat → nat → nat → R)
    (custom : keras.layer → list semantics.value → semantics.value)
    (backbone : string → bool → nat → semantics.value → semantics.value)
    (input : semantics.value) (config : retinanet.RetinaNetConfig)
    (h3 w3 c3 h4 w4 c4 h5 w5 c5 : nat) (px3 px4 px5 : nat → nat → nat → R) :
  (0 < retinanet.num_classes config)%nat →
  let value := semantics.eval (semantics.layer_sem conv2d resize custom) backbone input in
  let C k := keras.Backbone (retinanet.backbone_name config)
               (retinanet.freeze_backbone config) k (retinanet.input_tensor config) in
  value (C 2%nat) = semantics.FeatureMap h3 w3 c3 px3 →
  value (C 3%nat) = semantics.FeatureMap h4 w4 c4 px4 →
  value (C 4%nat) = semantics.FeatureMap h5 w5 c5 px5 →
  let h6 := ((h5 + 1) / 2)%nat in
  let w6 := ((w5 + 1) / 2)%nat in
  let h7 := ((h6 + 1) / 2)%nat in
  let w7 := ((w6 + 1) / 2)%nat in
  let cells := (h3 * w3 + h4 * w4 + h5 * w5 + h6 * w6 + h7 * w7)%nat in
  ∃ training_model scores deltas,
    retinanet.RetinaNetTrain config = Ok training_model
    ∧ map value (keras.outputs training_model)
      = [semantics.Rows scores; semantics.Rows deltas]
    ∧ length scores = (cells * retinanet.get_num_anchors config)%nat
    ∧ length deltas = (cells * retinanet.get_num_anchors config)%nat
    ∧ Forall (λ row, length row = retinanet.num_classes config
                     ∧ Forall (λ s, (0 <= s <= 1)%R) row) scores
    ∧ Forall (λ row, length row = 4%nat) deltas.
Proof. intros HK value C. by apply training_outputs_values. Qed.

Lemma RetinaNetTrain_output_rows_witness :
  let value :=
    semantics.eval
      (semantics.layer_sem (λ _ _ _ _ _ _ _ _ _ _ _, 0%R) (λ _ _ _ _ _ _ _ _ _, 0%R)
         (λ _ _, semantics.Invalid))
      (λ _ _ i _, match i with
                  | 2 => semantics.FeatureMap 4 4 512 (λ _ _ _, 0%R)
                  | 3 => semantics.FeatureMap 2 2 1024 (λ _ _ _, 0%R)
                  | _ => semantics.FeatureMap 1 1 2048 (λ _ _ _, 0%R)
                  end%nat)
      semantics.Invalid in
  ∃ training_model scores deltas,
    retinanet.RetinaNetTrain retinanet.example_config = Ok training_model
    ∧ map value (keras.outputs training_model)
      = [semantics.Rows scores; semantics.Rows deltas]
    ∧ length scores = 207%nat
    ∧ length deltas = 207%nat.
Proof.
  intros value.
  destruct (RetinaNetTrain_output_rows
              (λ _ _ _ _ _ _ _ _ _ _ _, 0%R) (λ _ _ _ _ _ _ _ _ _, 0%R)
              (λ _ _, semantics.Invalid)
              (λ _ _ i _, match i with
                          | 2 => semantics.FeatureMap 4 4 512 (λ _ _ _, 0%R)
                          | 3 => semantics.FeatureMap 2 2 1024 (λ _ _ _, 0%R)
                          | _ => semantics.FeatureMap 1 1 2048 (λ _ _ _, 0%R)
                          end%nat)
              semantics.Invalid retinanet.example_config
              4 4 512 2 2 1024 1 1 2048 (λ _ _ _, 0%R) (λ _ _ _, 0%R) (λ _ _ _, 0%R))
    as (tm & scores & deltas & Htm & Hout & Hs & Hd & _).
  - cbn. lia.
  - reflexivity.
  - reflexivity.
  - reflexivity.
  - exists tm, scores, deltas. done.
Defined.

(** ** [RetinaNetFromTrain] on a model without the pyramid layers *)

(** X17. When the given model has no layer with one of the names P3, P4,
    P5, P6, P7, [RetinaNetFromTrain] raises the [ValueError] of
    [get_layer], whatever the outputs of the model and the anchor lists of
    the configuration are: the layers are looked up before the outputs are
    unpacked and before the anchor lists are checked. *)
Theorem RetinaNetFromTrain_missing_layer
    (model : keras.Model) (config : retinanet.RetinaNetConfig) (n : string) :
  n ∈ ["P3"; "P4"; "P5"; "P6"; "P7"] →
  keras.find_layer_in n (keras.outputs model) = None →
  retinanet.RetinaNetFromTrain model config = Raise (Builtin ValueError).
Proof.
  intros Hn Hmissing.
  assert (Hget : ∀ m, (∃ t, keras.get_layer_output model m = Ok t)
                      ∨ keras.get_layer_output model m = Raise (Builtin ValueError)).
  { intros m. unfold keras.get_layer_output.
    destruct (keras.find_layer_in m (keras.outputs model)); [left; by eexists|by right]. }
  assert (Hraise : keras.get_layer_output model n = Raise (Builtin ValueError)).
  { unfold keras.get_layer_output. by rewrite Hmissing. }
  unfold retinanet.RetinaNetFromTrain. cbn [mapM].
  destruct (Hget "P3") as [[P3 H3]| ->]; [|done].
  destruct (Hget "P4") as [[P4 H4]|H4]; [|by rewrite H3, H4].
  destruct (Hget "P5") as [[P5 H5]|H5]; [|by rewrite H3, H4, H5].
  destruct (Hget "P6") as [[P6 H6]|H6]; [|by rewrite H3, H4, H5, H6].
  destruct (Hget "P7") as [[P7 H7]|H7]; [|by rewrite H3, H4, H5, H6, H7].
  exfalso.
  repeat (apply elem_of_cons in Hn as [->|Hn]; [congruence|]).
  by apply elem_of_nil in Hn.
Qed.

Lemma RetinaNetFromTrain_missing_layer_witness :
  retinanet.RetinaNetFromTrain
    {| keras.inputs := keras.Input [];
       keras.outputs := [keras.Input []; keras.Input []];
       keras.name := "empty" |}
    retinanet.example_config
  = Raise (Builtin ValueError).
Proof.
  apply (RetinaNetFromTrain_missing_layer _ _ "P5").
  - set_solver.
  - reflexivity.
Defined.

(** ** [resize_images]: the interpolation methods *)

(** X18. [resize_images] reaches TensorFlow exactly for the method names
    'bilinear', 'nearest', 'bicubic' and 'area', each with its own
    TensorFlow method and with [align_corners] as given; for every other
    name (the names are case-sensitive) it raises [KeyError] and TensorFlow
    is not called. Without a method the interpolation is bilinear. *)
Theorem resize_images_methods {images size resized : Type}
    (tensorflow_image_resize_images :
       images → size → backend.ResizeMethod → bool → result resized)
    (imgs : images) (sz : size) (method : string) (align_corners : bool) :
  let resize := backend.resize_images tensorflow_image_resize_images imgs sz in
  let tf := tensorflow_image_resize_images imgs sz in
  (method ∉ ["bilinear"; "nearest"; "bicubic"; "area"] →
   resize method align_corners = Raise (Builtin KeyError))
  ∧ resize "bilinear" align_corners = tf backend.BILINEAR align_corners
  ∧ resize "nearest" align_corners = tf backend.NEAREST_NEIGHBOR align_corners
  ∧ resize "bicubic" align_corners = tf backend.BICUBIC align_corners
  ∧ resize "area" align_corners = tf backend.AREA align_corners
  ∧ backend.resize_images_default tensorflow_image_resize_images imgs sz
    = tf backend.BILINEAR false.
Proof.
  intros resize tf. split; [|by repeat split].
  intros Hnot. unfold resize, backend.resize_images.
  destruct (backend.methods !! method) as [m|] eqn:Hm; [|done].
  exfalso. apply Hnot.
  apply elem_of_list_to_map_2 in Hm.
  rewrite !elem_of_cons in Hm. rewrite !elem_of_cons.
  destruct Hm as [Hm|[Hm|[Hm|[Hm|Hm]]]];
    [injection Hm as -> _; tauto..|by apply elem_of_nil in Hm].
Qed.

Lemma resize_images_methods_witness :
  backend.resize_images (λ (_ _ : unit) (_ : backend.ResizeMethod) (_ : bool), Ok tt)
    tt tt "Bilinear" false
  = Raise (Builtin KeyError).
Proof.
  destruct (resize_images_methods
              (λ (_ _ : unit) (_ : backend.ResizeMethod) (_ : bool), Ok tt)
              tt tt "Bilinear" false) as [Hkey _].
  apply Hkey. rewrite !elem_of_cons, elem_of_nil.
  intros [H|[H|[H|[H|[]]]]]; discriminate H.
Defined.

(** ** The training scripts: the arguments *)

(** X19. In both training scripts [check_args] returns the arguments as
    they are exactly when a dataset path is given and
    [1 <= num_gpu <= batch_size], so that an accepted batch size is at
    least 1; otherwise it raises an [AssertionError] whose message names
    the first condition that fails, in the order: dataset path, number of
    GPUs, batch size. *)
Theorem check_args_accepts (args : demo.Namespace) (args' : basic_demo.Namespace) :
  let accepted (coco_path : option string) (num_gpu batch_size : Z) :=
    coco_path ≠ None ∧ 1 ≤ num_gpu ∧ num_gpu ≤ batch_size in
  let outcome {A} (coco_path : option string) (num_gpu batch_size : Z) (a : A)
      : result A :=
    if bool_decide (coco_path = None)
    then Raise (Builtin (AssertionError "Must have the COCO dataset"))
    else if num_gpu <? 1
    then Raise (Builtin (AssertionError "Must train with atleast 1 GPU"))
    else if batch_size <? num_gpu
    then Raise (Builtin (AssertionError
                  "Batch size must be equal or greater than number of GPUs used"))
    else Ok a in
  demo.check_args args
    = outcome (demo.coco_path args) (demo.num_gpu args) (demo.batch_size args) args
  ∧ (demo.check_args args = Ok args
     ↔ accepted (demo.coco_path args) (demo.num_gpu args) (demo.batch_size args))
  ∧ (∀ r, demo.check_args args = Ok r → r = args ∧ 1 ≤ demo.batch_size args)
  ∧ basic_demo.check_args args'
    = outcome (basic_demo.coco_path args') (basic_demo.num_gpu args')
        (basic_demo.batch_size args') args'
  ∧ (basic_demo.check_args args' = Ok args'
     ↔ accepted (basic_demo.coco_path args') (basic_demo.num_gpu args')
         (basic_demo.batch_size args'))
  ∧ (∀ r, basic_demo.check_args args' = Ok r
          → r = args' ∧ 1 ≤ basic_demo.batch_size args').
Proof.
  intros accepted outcome.
  assert (Hgen : ∀ {A} (a : A) (c : option string) (g b : Z),
    let r := (_ ← py_assert (bool_decide (c ≠ None)) "Must have the COCO dataset";
              _ ← py_assert (1 <=? g) "Must train with atleast 1 GPU";
              _ ← py_assert (g <=? b)
                    "Batch size must be equal or greater than number of GPUs used";
              Ok a) in
    r = outcome A c g b a
    ∧ (r = Ok a ↔ accepted c g b)
    ∧ (∀ x, r = Ok x → x = a ∧ 1 ≤ b)).
  { intros A a c g b r. subst r. unfold outcome, accepted, py_assert.
    destruct c as [path|].
    - rewrite bool_decide_eq_true_2, bool_decide_eq_false_2 by done.
      cbn [mbind result_bind].
      destruct (Z.leb_spec 1 g), (Z.ltb_spec g 1); try lia; cbn [mbind result_bind].
      + destruct (Z.leb_spec g b), (Z.ltb_spec b g); try lia; cbn [mbind result_bind].
        * split; [done|]. split; [by split|]. intros x [= <-]. split; [done|lia].
        * split; [done|]. split; [|done]. split; [done|]. intros (_ & _ & ?). lia.
      + split; [done|]. split; [|done]. split; [done|]. intros (_ & ? & _). lia.
    - rewrite bool_decide_eq_false_2, bool_decide_eq_true_2 by (done || by intros []).
      cbn [mbind result_bind].
      split; [done|]. split; [|done]. split; [done|]. by intros ([] & _). }
  destruct (Hgen _ args (demo.coco_path args) (demo.num_gpu args) (demo.batch_size args))
    as (H1 & H2 & H3).
  destruct (Hgen _ args' (basic_demo.coco_path args') (basic_demo.num_gpu args')
              (basic_demo.batch_size args')) as (H4 & H5 & H6).
  exact (conj H1 (conj H2 (conj H3 (conj H4 (conj H5 H6))))).
Qed.

(** ** The training scripts: the callbacks *)

Section create_callback_facts.
Import keras callbacks demo.

Context {generator fs : Type}.
Variable isdir : fs → string → bool.
Variable os_makedirs : string → fs → result fs.

(** [os.makedirs] makes the directory and removes none. *)
Hypothesis os_makedirs_isdir : ∀ path s s',
  os_makedirs path s = Ok s' →
  isdir s' path = true ∧ ∀ q, isdir s q = true → isdir s' q = true.

Lemma makedirs_isdir (path : string) (s s' : fs) :
  makedirs isdir os_makedirs path s = Ok s' →
  isdir s' path = true ∧ ∀ q, isdir s q = true → isdir s' q = true.
Proof.
  unfold makedirs. destruct (isdir s path) eqn:E; cbn [negb].
  - by intros [= <-].
  - apply os_makedirs_isdir.
Qed.

Lemma makedirs_exists (path : string) (s : fs) :
  isdir s path = true → makedirs isdir os_makedirs path s = Ok s.
Proof. intros E. unfold makedirs. by rewrite E. Qed.

(** The callbacks in the order in which they are appended, and the
    directories after the call. *)
Lemma create_callback_list (training_model prediction_model : Model)
    (validation_generator : generator) (args : Namespace) (s s' : fs)
    (cbs : list (callback generator)) :
  create_callback isdir os_makedirs training_model prediction_model
    validation_generator args s = Ok (cbs, s') →
  let tensorboard :=
    TensorBoard (tensorboard_dir args) 0 (batch_size args) true false false 0 in
  let has_tensorboard := negb (String.eqb (tensorboard_dir args) EmptyString) in
  cbs = (if has_tensorboard then [tensorboard] else [])
        ++ (if snapshots args
            then [ModelCheckpoint
                    (os_path_join (snapshot_path args) "Inception_COCO_{{epoch:02d}}.h5")
                    1 false]
            else [])
        ++ (if evaluation args
            then [RedirectModel
                    (Evaluate validation_generator
                       (if has_tensorboard then Some tensorboard else None))
                    prediction_model]
            else [])
        ++ [ReduceLROnPlateau "loss" (1 # 10) 2 1 "auto" (1 # 10000) 0 0]
  ∧ (has_tensorboard = true → isdir s' (tensorboard_dir args) = true)
  ∧ (snapshots args = true → isdir s' (snapshot_path args) = true).
Proof.
  intros Hrun tensorboard has_tensorboard. revert Hrun.
  unfold create_callback. fold has_tensorboard. fold tensorboard.
  destruct has_tensorboard eqn:Htb; cbn [mbind result_bind app].
  - destruct (makedirs isdir os_makedirs (tensorboard_dir args) s) as [s1|e] eqn:H1;
      cbn [mbind result_bind]; [|done].
    apply makedirs_isdir in H1 as [Hd1 Hk1].
    destruct (snapshots args) eqn:Hsnap; cbn [mbind result_bind app].
    + destruct (makedirs isdir os_makedirs (snapshot_path args) s1) as [s2|e] eqn:H2;
        cbn [mbind result_bind]; [|done].
      apply makedirs_isdir in H2 as [Hd2 Hk2].
      intros [= <- <-]. split; [by destruct (evaluation args)|]. by auto.
    + intros [= <- <-]. split; [by destruct (evaluation args)|]. by auto.
  - destruct (snapshots args) eqn:Hsnap; cbn [mbind result_bind app].
    + destruct (makedirs isdir os_makedirs (snapshot_path args) s) as [s2|e] eqn:H2;
        cbn [mbind result_bind]; [|done].
      apply makedirs_isdir in H2 as [Hd2 Hk2].
      intros [= <- <-]. split; [by destruct (evaluation args)|]. by auto.
    + intros [= <- <-]. split; [by destruct (evaluation args)|]. by auto.
Qed.

(** When the directories it needs exist, [create_callback] leaves the file
    system as it is. *)
Lemma create_callback_exists (training_model prediction_model : Model)
    (validation_generator : generator) (args : Namespace) (s : fs) :
  (negb (String.eqb (tensorboard_dir args) EmptyString) = true →
   isdir s (tensorboard_dir args) = true) →
  (snapshots args = true → isdir s (snapshot_path args) = true) →
  ∃ cbs,
    create_callback isdir os_makedirs training_model prediction_model
      validation_generator args s = Ok (cbs, s).
Proof.
  intros Htb Hsnap. unfold create_callback.
  destruct (negb _) eqn:E; cbn [mbind result_bind].
  - rewrite makedirs_exists by auto. cbn [mbind result_bind].
    destruct (snapshots args); cbn [mbind result_bind].
    + rewrite makedirs_exists by auto. by eexists.
    + by eexists.
  - destruct (snapshots args); cbn [mbind result_bind].
    + rewrite makedirs_exists by auto. by eexists.
    + by eexists.
Qed.

Lemma create_callback_spec (training_model prediction_model : Model)
    (validation_generator : generator) (args : Namespace) (s s' : fs)
    (cbs : list (callback generator)) :
  create_callback isdir os_makedirs training_model prediction_model
    validation_generator args s = Ok (cbs, s') →
  let tensorboard :=
    TensorBoard (tensorboard_dir args) 0 (batch_size args) true false false 0 in
  let has_tensorboard := negb (String.eqb (tensorboard_dir args) EmptyString) in
  last cbs = Some (ReduceLROnPlateau "loss" (1 # 10) 2 1 "auto" (1 # 10000) 0 0)
  ∧ (∀ cb model, RedirectModel cb model ∈ cbs →
       evaluation args = true
       ∧ model = prediction_model
       ∧ ∃ tb, cb = Evaluate validation_generator tb
               ∧ (tb = if has_tensorboard then Some tensorboard else None)
               ∧ ∀ t, tb = Some t → t ∈ cbs)
  ∧ (has_tensorboard = true → isdir s' (tensorboard_dir args) = true)
  ∧ (snapshots args = true → isdir s' (snapshot_path args) = true)
  ∧ create_callback isdir os_makedirs training_model prediction_model
      validation_generator args s' = Ok (cbs, s').
Proof.
  intros Hrun tensorboard has_tensorboard.
  destruct (create_callback_list _ _ _ _ _ _ _ Hrun) as (Hcbs & Htb & Hsnap).
  fold tensorboard has_tensorboard in Hcbs, Htb.
  split; [|split; [|split; [done|split; [done|]]]].
  - rewrite Hcbs, !app_assoc. apply last_snoc.
  - intros cb model Hin. rewrite Hcbs in Hin.
    rewrite !elem_of_app in Hin.
    destruct Hin as [Hin|[Hin|[Hin|Hin]]].
    + destruct has_tensorboard; [|by apply elem_of_nil in Hin].
      apply list_elem_of_singleton in Hin. discriminate Hin.
    + destruct (snapshots args); [|by apply elem_of_nil in Hin].
      apply list_elem_of_singleton in Hin. discriminate Hin.
    + destruct (evaluation args); [|by apply elem_of_nil in Hin].
      apply list_elem_of_singleton in Hin. injection Hin as -> ->.
      split; [done|]. split; [done|]. eexists. split; [done|]. split; [done|].
      intros t Ht. rewrite Hcbs. destruct has_tensorboard; [|done].
      injection Ht as <-. apply elem_of_app. left. by left.
    + apply list_elem_of_singleton in Hin. discriminate Hin.
  - destruct (create_callback_exists training_model prediction_model
                validation_generator args s' Htb Hsnap) as [cbs' Hrun'].
    destruct (create_callback_list _ _ _ _ _ _ _ Hrun') as (Hcbs' & _ & _).
    fold tensorboard has_tensorboard in Hcbs'.
    rewrite Hrun'. by rewrite Hcbs, Hcbs'.
Qed.

End create_callback_facts.

(** X20. Whenever [create_callback] of the demo returns, given that
    [os.makedirs] makes its directory and removes none: the last callback
    is the learning-rate reduction; a redirected callback is there only
    when evaluation is on, it is the evaluation of the validation
    generator redirected to the prediction model, and the TensorBoard
    callback it reports to, if any, is the one in the list (and there is
    one exactly when the TensorBoard directory is not empty); the
    TensorBoard directory and the snapshot directory exist when they are
    used; and a second call on the file system so obtained returns the
    same callbacks and changes nothing. When the directories exist at the
    start, the call succeeds and leaves the file system as it is. *)
Theorem create_callback_callbacks {generator fs : Type}
    (isdir : fs → string → bool) (os_makedirs : string → fs → result fs)
    (training_model prediction_model : keras.Model)
    (validation_generator : generator) (args : demo.Namespace) (s : fs) :
  (∀ path s s', os_makedirs path s = Ok s' →
     isdir s' path = true ∧ ∀ q, isdir s q = true → isdir s' q = true) →
  let run :=
    demo.create_callback isdir os_makedirs training_model prediction_model
      validation_generator args in
  let tensorboard :=
    callbacks.TensorBoard (demo.tensorboard_dir args) 0 (demo.batch_size args)
      true false false 0 in
  let has_tensorboard := negb (String.eqb (demo.tensorboard_dir args) EmptyString) in
  (∀ cbs s', run s = Ok (cbs, s') →
     last cbs
     = Some (callbacks.ReduceLROnPlateau "loss" (1 # 10) 2 1 "auto" (1 # 10000) 0 0)
     ∧ (∀ cb model, callbacks.RedirectModel cb model ∈ cbs →
          demo.evaluation args = true
          ∧ model = prediction_model
          ∧ ∃ tb, cb = callbacks.Evaluate validation_generator tb
                  ∧ (tb = if has_tensorboard then Some tensorboard else None)
                  ∧ ∀ t, tb = Some t → t ∈ cbs)
     ∧ (has_tensorboard = true → isdir s' (demo.tensorboard_dir args) = true)
     ∧ (demo.snapshots args = true → isdir s' (demo.snapshot_path args) = true)
     ∧ run s' = Ok (cbs, s'))
  ∧ ((has_tensorboard = true → isdir s (demo.tensorboard_dir args) = true) →
     (demo.snapshots args = true → isdir s (demo.snapshot_path args) = true) →
     ∃ cbs, run s = Ok (cbs, s)).
Proof.
  intros Hmk run tensorboard has_tensorboard. split.
  - intros cbs s' Hrun.
    exact (create_callback_spec isdir os_makedirs Hmk training_model prediction_model
             validation_generator args s s' cbs Hrun).
  - intros Htb Hsnap.
    exact (create_callback_exists isdir os_makedirs training_model prediction_model
             validation_generator args s Htb Hsnap).
Qed.

Lemma create_callback_callbacks_witness :
  let isdir := λ (s : list string) (path : string), bool_decide (path ∈ s) in
  let os_makedirs := λ (path : string) (s : list string), Ok (path :: s) in
  let args := {|
    demo.num_gpu := 1; demo.batch_size := 1; demo.coco_path := Some "/tmp/COCO";
    demo.snapshot_path := "./snapshot"; demo.snapshots := true;
    demo.tensorboard_dir := "./logs"; demo.evaluation := true;
    demo.freeze_backbone := false |} in
  let run :=
    demo.create_callback isdir os_makedirs
      retinanet.example_training_model retinanet.example_training_model tt args in
  ∃ cbs, run ["./snapshot"; "./logs"] = Ok (cbs, ["./snapshot"; "./logs"]).
Proof.
  intros isdir os_makedirs args run.
  destruct (create_callback_callbacks isdir os_makedirs
              retinanet.example_training_model retinanet.example_training_model
              tt args ["./snapshot"; "./logs"]) as [_ Hexists].
  - intros path s s' [= <-]. unfold isdir. split.
    + apply bool_decide_eq_true_2. by left.
    + intros q Hq%bool_decide_eq_true_1. apply bool_decide_eq_true_2. by right.
  - apply Hexists; intros _; reflexivity.
Defined.

(** ** The training scripts: the snapshot files *)

Section checkpoint_files.
Import keras callbacks.

Lemma append_assoc (a b c : string) : (a +:+ b) +:+ c = a +:+ (b +:+ c).
Proof.
  induction a as [|x a IH]; [reflexivity|].
  change (String x ((a +:+ b) +:+ c) = String x (a +:+ (b +:+ c))). by f_equal.
Qed.

Lemma no_braces_app (a b : string) :
  no_braces (a +:+ b) = no_braces a && no_braces b.
Proof.
  induction a as [|x a IH]; [reflexivity|].
  change (String x a +:+ b) with (String x (a +:+ b)).
  cbn [no_braces]. rewrite IH. by rewrite !andb_assoc.
Qed.

(** A prefix without braces is copied. *)
Lemma format_prefix (p t : string) (epoch : Z) :
  no_braces p = true →
  format (p +:+ t) epoch = String.append p <$> format t epoch.
Proof.
  unfold format. induction p as [|c p IH]; intros Hp.
  - change (EmptyString +:+ t) with t. by destruct (format_scan in_text t epoch).
  - cbn [no_braces] in Hp.
    apply andb_true_iff in Hp as [Hc Hp]. apply andb_true_iff in Hc as [Ho Hc].
    apply negb_true_iff in Ho, Hc.
    change (String c p +:+ t) with (String c (p +:+ t)).
    cbn [format_scan]. rewrite Ho, Hc, (IH Hp).
    by destruct (format_scan in_text t epoch).
Qed.

(** [os.path.join] puts a prefix that depends on the directory only in
    front of a file name that does not start with a slash. *)
Lemma os_path_join_prefix (a : string) :
  ∃ p, (no_braces a = true → no_braces p = true)
       ∧ ∀ (c : ascii) (name : string),
           Ascii.eqb c "/"%char = false →
           os_path_join a (String c name) = p +:+ String c name.
Proof.
  destruct (rev (String.list_ascii_of_string a)) as [|last l] eqn:E.
  - exists EmptyString. split; [done|]. intros c name Hc.
    unfold os_path_join. rewrite E.
    destruct c as [[] [] [] [] [] [] [] []]; first [reflexivity|discriminate Hc].
  - destruct (Ascii.eqb last "/"%char) eqn:El.
    + exists a. split; [done|]. intros c name Hc.
      unfold os_path_join. rewrite E, El.
      destruct c as [[] [] [] [] [] [] [] []]; first [reflexivity|discriminate Hc].
    + exists (a +:+ "/"). split.
      { intros Ha. by rewrite no_braces_app, Ha. }
      intros c name Hc. unfold os_path_join. rewrite E, El.
      rewrite (append_assoc a "/" (String c name)).
      destruct c as [[] [] [] [] [] [] [] []]; first [reflexivity|discriminate Hc].
Qed.

Context {generator fs : Type}.
Variable isdir : fs → string → bool.
Variable os_makedirs : string → fs → result fs.

Lemma demo_checkpoint (training_model prediction_model : Model)
    (validation_generator : generator) (args : demo.Namespace) (s s' : fs)
    (cbs : list (callback generator)) (filepath : string) (v : Z) (w : bool) :
  demo.create_callback isdir os_makedirs training_model prediction_model
    validation_generator args s = Ok (cbs, s') →
  ModelCheckpoint filepath v w ∈ cbs →
  filepath = os_path_join (demo.snapshot_path args) "Inception_COCO_{{epoch:02d}}.h5".
Proof.
  unfold demo.create_callback.
  destruct (negb _); cbn [mbind result_bind];
    [destruct (demo.makedirs _ _ _ s) as [s1|]; cbn [mbind result_bind]; [|done]|];
    (destruct (demo.snapshots args); cbn [mbind result_bind];
     [destruct (demo.makedirs _ _ (demo.snapshot_path args) _) as [s2|];
      cbn [mbind result_bind]; [|done]|]);
    destruct (demo.evaluation args); intros [= <- <-]; cbn [app];
    rewrite ?elem_of_cons, elem_of_nil; intros Hin;
    repeat (destruct Hin as [Hin|Hin]; [try discriminate Hin|]); try done;
    by injection Hin as -> _ _.
Qed.

Lemma basic_demo_checkpoint (training_model prediction_model : Model)
    (validation_generator : generator) (args : basic_demo.Namespace) (s s' : fs)
    (cbs : list (callback generator)) (filepath : string) (v : Z) (w : bool) :
  basic_demo.create_callback isdir os_makedirs training_model prediction_model
    validation_generator args s = Ok (cbs, s') →
  ModelCheckpoint filepath v w ∈ cbs →
  filepath
  = os_path_join (basic_demo.snapshot_path args) "retinanet_resnet_coco_{epoch:02d}.h5".
Proof.
  unfold basic_demo.create_callback.
  destruct (negb _); cbn [mbind result_bind];
    [destruct (basic_demo.makedirs _ _ _ s) as [s1|]; cbn [mbind result_bind]; [|done]|];
    (destruct (basic_demo.snapshots args); cbn [mbind result_bind];
     [destruct (basic_demo.makedirs _ _ (basic_demo.snapshot_path args) _) as [s2|];
      cbn [mbind result_bind]; [|done]|]);
    destruct (basic_demo.evaluation args); intros [= <- <-]; cbn [app];
    rewrite ?elem_of_cons, elem_of_nil; intros Hin;
    repeat (destruct Hin as [Hin|Hin]; [try discriminate Hin|]); try done;
    by injection Hin as -> _ _.
Qed.

Lemma format_02d_names :
  NoDup (map (λ k, format_02d (Z.of_nat k + 1) +:+ ".h5") (seq 0 50)).
Proof. apply (bool_decide_unpack _). vm_compute. exact I. Qed.

End checkpoint_files.

(** X21. The snapshot callback of [demo/train.py] is given a file name
    whose braces are doubled, so that formatting it with the epoch gives the
    same file for every epoch: each snapshot overwrites the one before. The
    callback of [basic_demo/train.py] has the field [{epoch:02d}] and
    writes different files at different epochs of the 50 that the script
    trains. (The snapshot directory holds no brace.) *)
Theorem checkpoint_files {generator fs : Type}
    (isdir : fs → string → bool) (os_makedirs : string → fs → result fs)
    (training_model prediction_model : keras.Model) (validation_generator : generator)
    (args : demo.Namespace) (args' : basic_demo.Namespace) (s : fs) :
  callbacks.no_braces (demo.snapshot_path args) = true →
  callbacks.no_braces (basic_demo.snapshot_path args') = true →
  (∀ cbs s' filepath v w,
     demo.create_callback isdir os_makedirs training_model prediction_model
       validation_generator args s = Ok (cbs, s') →
     callbacks.ModelCheckpoint filepath v w ∈ cbs →
     ∀ epoch,
       callbacks.checkpoint_file (callbacks.ModelCheckpoint (generator:=generator)
                                    filepath v w) epoch
       = Ok (os_path_join (demo.snapshot_path args) "Inception_COCO_{epoch:02d}.h5"))
  ∧ (∀ cbs s' filepath v w,
       basic_demo.create_callback isdir os_makedirs training_model prediction_model
         validation_generator args' s = Ok (cbs, s') →
       callbacks.ModelCheckpoint filepath v w ∈ cbs →
       ∀ epoch1 epoch2, 0 ≤ epoch1 < 50 → 0 ≤ epoch2 < 50 →
         ∃ file1 file2,
           callbacks.checkpoint_file (callbacks.ModelCheckpoint (generator:=generator)
                                        filepath v w) epoch1 = Ok file1
           ∧ callbacks.checkpoint_file (callbacks.ModelCheckpoint (generator:=generator)
                                          filepath v w) epoch2 = Ok file2
           ∧ (file1 = file2 → epoch1 = epoch2)).
Proof.
  intros Hnb Hnb'. split.
  - intros cbs s' filepath v w Hrun Hin epoch.
    rewrite (demo_checkpoint isdir os_makedirs _ _ _ _ _ _ _ _ _ _ Hrun Hin).
    destruct (os_path_join_prefix (demo.snapshot_path args)) as (p & Hp & Hjoin).
    rewrite !Hjoin by reflexivity.
    cbn [callbacks.checkpoint_file]. rewrite format_prefix by auto.
    reflexivity.
  - intros cbs s' filepath v w Hrun Hin epoch1 epoch2 H1 H2.
    rewrite (basic_demo_checkpoint isdir os_makedirs _ _ _ _ _ _ _ _ _ _ Hrun Hin).
    destruct (os_path_join_prefix (basic_demo.snapshot_path args')) as (p & Hp & Hjoin).
    rewrite !Hjoin by reflexivity.
    cbn [callbacks.checkpoint_file]. rewrite !format_prefix by auto.
    assert (Hfmt : ∀ e,
      callbacks.format "retinanet_resnet_coco_{epoch:02d}.h5" e
      = Ok ("retinanet_resnet_coco_" +:+ (callbacks.format_02d e +:+ ".h5")))
      by (intros e; reflexivity).
    rewrite !Hfmt. cbn [fmap result_fmap].
    eexists _, _. split; [reflexivity|]. split; [reflexivity|].
    intros Heq.
    apply (inj (String.append p)) in Heq.
    apply (inj (String.append "retinanet_resnet_coco_")) in Heq.
    assert (Hk : Z.to_nat epoch1 = Z.to_nat epoch2); [|lia].
    apply (NoDup_lookup _ _ _ (callbacks.format_02d (epoch1 + 1) +:+ ".h5")
             format_02d_names).
    + rewrite list_lookup_fmap, lookup_seq_lt by lia. cbn. by rewrite Z2Nat.id by lia.
    + rewrite list_lookup_fmap, lookup_seq_lt by lia. cbn.
      by rewrite Z2Nat.id, Heq by lia.
Qed.

Lemma checkpoint_files_witness :
  let isdir := λ (s : list string) (path : string), bool_decide (path ∈ s) in
  let os_makedirs := λ (path : string) (s : list string), Ok (path :: s) in
  let args := {|
    demo.num_gpu := 1; demo.batch_size := 1; demo.coco_path := Some "/tmp/COCO";
    demo.snapshot_path := "./snapshot"; demo.snapshots := true;
    demo.tensorboard_dir := "./logs"; demo.evaluation := true;
    demo.freeze_backbone := false |} in
  let checkpoint :=
    callbacks.ModelCheckpoint (generator:=unit)
      "./snapshot/Inception_COCO_{{epoch:02d}}.h5" 1 false in
  callbacks.checkpoint_file checkpoint 0 = Ok "./snapshot/Inception_COCO_{epoch:02d}.h5"
  ∧ callbacks.checkpoint_file checkpoint 1 = Ok "./snapshot/Inception_COCO_{epoch:02d}.h5".
Proof.
  intros isdir os_makedirs args checkpoint.
  assert (Hall : ∀ epoch,
    callbacks.checkpoint_file checkpoint epoch
    = Ok "./snapshot/Inception_COCO_{epoch:02d}.h5"); [|by split].
  destruct (checkpoint_files isdir os_makedirs
              retinanet.example_training_model retinanet.example_training_model tt
              args
              {| basic_demo.num_gpu := 1; basic_demo.batch_size := 1;
                 basic_demo.coco_path := Some "/tmp/COCO";
                 basic_demo.snapshot_path := "./snapshot";
                 basic_demo.snapshots := true;
                 basic_demo.tensorboard_dir := "./logs";
                 basic_demo.evaluation := true;
                 basic_demo.visualize_model := false;
                 basic_demo.freeze_backbone := false |}
              []) as [Hdemo _]; [reflexivity|reflexivity|].
  eapply Hdemo; [reflexivity|].
  subst args. cbn. rewrite !elem_of_cons. right. by left.
Defined.
